(** * Litera: a literate-programming processor (src/litera.py)

    A shallow embedding of the tangle/weave core of [litera.py] and the
    properties of its document parser, its fragment expander
    ([replace_calls]), its cross-reference builder ([find_calls]) and its
    page writer ([write_html]).

    Conventions of the embedding.
    - A Python [str] is a [string]; a character is a code point below 256.
      The character classes of Python ([str.isspace], the [\w] and [\s] of
      [re]) are written out for that range.
    - A [dict] is an insertion-ordered association list ([pydict]): a store
      to an existing key keeps the key's position, a store to a new key
      appends, as CPython does.
    - Exceptions are values of [pyerror]; fallible code returns
      [result A = pyerror + A].
    - [print] is a log: functions that print return the printed lines.
    - Block objects that are mutated through several references
      ([find_calls]) live in a heap (a list indexed by address).
    - The file system ([os.path.isdir], [os.path.exists], [open]) is a
      record of oracles, [FileSystem]. Paths follow [posixpath].
    - What the program writes is returned as data: [write_code] yields
      the path and the text of each file, [write_html] the path and the
      text of each page, not the files. [write_code_io] and
      [write_html_io] are the same loops with the calls that change the
      file system, [os.makedirs] and [open], over a file system that is
      left abstract ([Disk]): each of these calls may raise. The shell
      commands ([run_executions]) are outside this development. *)

From Stdlib Require Import Ascii String ZArith Lia Bool.
From stdpp Require Import base list strings.

(* ================================================================== *)
(** * Part I. Definitions                                              *)
(* ================================================================== *)

(** ** Characters *)

Definition nl : ascii := "010"%char.

Definition code (c : ascii) : nat := nat_of_ascii c.

Definition in_range (lo hi : nat) (c : ascii) : bool :=
  (lo <=? code c) && (code c <=? hi).

(** [str.isspace] and the [\s] of [re] on code points below 256:
    TAB..CR, FS..US, SPACE, NEL (0x85) and NBSP (0xA0). *)
Definition is_space (c : ascii) : bool :=
  in_range 9 13 c || in_range 28 32 c || (code c =? 133) || (code c =? 160).

(** The [\w] of [re] on [str] patterns: alphanumeric code points and the
    underscore. Below 256 the alphanumerics are the ASCII letters and
    digits, the ordinal indicators, micro, the superscript digits, the
    vulgar fractions, and the Latin-1 letters. *)
Definition is_word (c : ascii) : bool :=
  in_range 48 57 c || in_range 65 90 c || in_range 97 122 c || (code c =? 95)
  || (code c =? 170) || (code c =? 181) || (code c =? 186)
  || in_range 178 179 c || (code c =? 185) || in_range 188 190 c
  || in_range 192 214 c || in_range 216 246 c || in_range 248 255 c.

(** ** Python string methods *)

Module PyStr.

(** [s.startswith(p)] *)
Definition startswith (s p : string) : bool := String.prefix p s.

Fixpoint drop (n : nat) (s : string) : string :=
  match n, s with
  | 0, _ => s
  | S _, EmptyString => EmptyString
  | S n', String _ s' => drop n' s'
  end.

Fixpoint take (n : nat) (s : string) : string :=
  match n, s with
  | 0, _ => EmptyString
  | S _, EmptyString => EmptyString
  | S n', String c s' => String c (take n' s')
  end.

(** [s.endswith(p)] *)
Definition endswith (s p : string) : bool :=
  (String.length p <=? String.length s)
  && String.eqb (drop (String.length s - String.length p) s) p.

(** [p in s] for strings. *)
Fixpoint occurs (p s : string) : bool :=
  String.prefix p s ||
  match s with
  | EmptyString => false
  | String _ s' => occurs p s'
  end.

(** [s.split(c)] for a one-character separator [c]. *)
Fixpoint split (c : ascii) (s : string) : list string :=
  match s with
  | EmptyString => [EmptyString]
  | String a s' =>
      if Ascii.eqb a c then EmptyString :: split c s'
      else match split c s' with
           | l :: ls => String a l :: ls
           | [] => [String a EmptyString]
           end
  end.

(** [sep.join(l)] *)
Fixpoint join (sep : string) (l : list string) : string :=
  match l with
  | [] => EmptyString
  | [x] => x
  | x :: xs => x +:+ sep +:+ join sep xs
  end.

(** [s.lstrip()] and [s.lstrip(chars)]: drop the leading characters
    that satisfy [p]. *)
Fixpoint lstrip_by (p : ascii -> bool) (s : string) : string :=
  match s with
  | EmptyString => EmptyString
  | String c s' => if p c then lstrip_by p s' else s
  end.

(** [s.rstrip()] and [s.rstrip(chars)] *)
Fixpoint rstrip_by (p : ascii -> bool) (s : string) : string :=
  match s with
  | EmptyString => EmptyString
  | String c s' =>
      match rstrip_by p s' with
      | EmptyString => if p c then EmptyString else String c EmptyString
      | r => String c r
      end
  end.

Definition lstrip (s : string) : string := lstrip_by is_space s.
Definition rstrip (s : string) : string := rstrip_by is_space s.
Definition strip (s : string) : string := rstrip (lstrip s).

(** [" " * n] *)
Fixpoint spaces (n : nat) : string :=
  match n with
  | 0 => EmptyString
  | S n' => String " "%char (spaces n')
  end.

(** [s.replace(old, new)]: every non-overlapping occurrence of [old],
    leftmost first. [skip] counts the characters of an occurrence that
    are still to be passed over. *)
Fixpoint replace_go (old new : string) (skip : nat) (s : string) : string :=
  match s with
  | EmptyString => EmptyString
  | String c s' =>
      match skip with
      | S k => replace_go old new k s'
      | 0 =>
          if String.prefix old s
          then new +:+ replace_go old new (String.length old - 1) s'
          else String c (replace_go old new 0 s')
      end
  end.

(** With an empty [old], Python puts [new] before every character and
    at the end. *)
Fixpoint intersperse (new s : string) : string :=
  match s with
  | EmptyString => new
  | String c s' => new +:+ String c (intersperse new s')
  end.

Definition replace (s old new : string) : string :=
  match old with
  | EmptyString => intersperse new s
  | _ => replace_go old new 0 s
  end.

(** [s.split()]: the maximal runs of non-space characters. [cur] is the
    run being read, if any. *)
Fixpoint split_ws_go (cur : option string) (s : string) : list string :=
  match s with
  | EmptyString => match cur with Some w => [w] | None => [] end
  | String c s' =>
      if is_space c
      then match cur with
           | Some w => w :: split_ws_go None s'
           | None => split_ws_go None s'
           end
      else match cur with
           | Some w => split_ws_go (Some (w +:+ String c EmptyString)) s'
           | None => split_ws_go (Some (String c EmptyString)) s'
           end
  end.

Definition split_ws (s : string) : list string := split_ws_go None s.

(** [s.rsplit(".", 1)[0]] for a one-character separator: the part
    before the last separator, or all of [s] when there is none. *)
Fixpoint rsplit1_head (c : ascii) (s : string) : option string :=
  match s with
  | EmptyString => None
  | String a s' =>
      match rsplit1_head c s' with
      | Some h => Some (String a h)
      | None => if Ascii.eqb a c then Some EmptyString else None
      end
  end.

Definition rsplit1 (c : ascii) (s : string) : string :=
  match rsplit1_head c s with
  | Some h => h
  | None => s
  end.

Fixpoint has_char (c : ascii) (s : string) : bool :=
  match s with
  | EmptyString => false
  | String a s' => Ascii.eqb a c || has_char c s'
  end.

(** [s[s.rfind(c) + 1:]]: the part after the last [c], or all of [s]
    when [c] does not occur. *)
Fixpoint after_last (c : ascii) (s : string) : string :=
  match s with
  | EmptyString => EmptyString
  | String a s' =>
      if has_char c s' then after_last c s'
      else if Ascii.eqb a c then s' else s
  end.

End PyStr.

(** ** Regular expressions: the fragment of Python's [re] the program uses

    A backtracking matcher with Python's priorities: a greedy quantifier
    tries one more repetition first, a lazy one tries the rest of the
    pattern first. The continuation [k] receives the unread input and the
    texts captured so far (groups in the order they close; the patterns
    here have no nested and no repeated groups). *)

Module Re.

Inductive regex : Type :=
| Lit (c : ascii)                     (* a literal character *)
| Dot                                 (* [.]: any character but newline *)
| Class (p : ascii -> bool)           (* [\w], [\s], a bracket class *)
| Cat (r1 r2 : regex)                 (* concatenation *)
| Star (greedy : bool) (r : regex)    (* [r*] and [r*?] *)
| Opt (r : regex)                     (* [r?] *)
| Group (r : regex)                   (* [(r)] *)
| Eol                                 (* [$] *)
| Eps.                                (* the empty pattern *)

(** [r+] *)
Definition Plus (r : regex) : regex := Cat r (Star true r).

(** A literal string. *)
Fixpoint Str (s : string) : regex :=
  match s with
  | EmptyString => Eps
  | String c s' => Cat (Lit c) (Str s')
  end.

Definition orelse {A} (x y : option A) : option A :=
  match x with
  | Some _ => x
  | None => y
  end.

Section Exec.
Context {A : Type}.

Definition cont : Type := string -> list string -> option A.

(** One step over a single character accepted by [p]. *)
Definition exec_char (p : ascii -> bool) (s : string) (caps : list string)
    (k : cont) : option A :=
  match s with
  | String c s' => if p c then k s' caps else None
  | EmptyString => None
  end.

(** Repetition of a step [step]; [n] bounds the number of repetitions
    by the length of the input, and a repetition must consume input. *)
Fixpoint exec_star (greedy : bool)
    (step : string -> list string -> cont -> option A)
    (n : nat) (s : string) (caps : list string) (k : cont) : option A :=
  let again :=
    match n with
    | 0 => None
    | S n' =>
        step s caps (fun s' caps' =>
          if String.length s' <? String.length s
          then exec_star greedy step n' s' caps' k
          else None)
    end in
  if greedy then orelse again (k s caps) else orelse (k s caps) again.

Fixpoint exec (r : regex) (s : string) (caps : list string) (k : cont)
    : option A :=
  match r with
  | Lit c => exec_char (Ascii.eqb c) s caps k
  | Dot => exec_char (fun c => negb (Ascii.eqb c nl)) s caps k
  | Class p => exec_char p s caps k
  | Cat r1 r2 => exec r1 s caps (fun s1 caps1 => exec r2 s1 caps1 k)
  | Star greedy r1 => exec_star greedy (exec r1) (String.length s) s caps k
  | Opt r1 => orelse (exec r1 s caps k) (k s caps)
  | Group r1 =>
      exec r1 s caps (fun s1 caps1 =>
        k s1 (caps1 ++ [PyStr.take (String.length s - String.length s1) s]))
  | Eol =>
      if String.eqb s EmptyString || String.eqb s (String nl EmptyString)
      then k s caps else None
  | Eps => k s caps
  end.
End Exec.

(** A match object: the matched text, the groups, the unread input. *)
Record match_obj : Type := MatchObj {
  m_text : string;
  m_groups : list string;
  m_rest : string
}.

(** The truth value of the result of [re.match] or [re.search]. *)
Definition found (m : option match_obj) : bool :=
  match m with
  | Some _ => true
  | None => false
  end.

(** [re.match(r, s)] *)
Definition re_match (r : regex) (s : string) : option match_obj :=
  exec r s [] (fun rest caps =>
    Some (MatchObj (PyStr.take (String.length s - String.length rest) s) caps rest)).

(** [re.search(r, s)]: the match at the leftmost position that has one. *)
Fixpoint re_search (r : regex) (s : string) : option match_obj :=
  match re_match r s with
  | Some m => Some m
  | None =>
      match s with
      | EmptyString => None
      | String _ s' => re_search r s'
      end
  end.

(** The scan of [re.findall] and [re.finditer]: the non-overlapping
    matches from left to right. After a match the scan resumes where
    the match ended (one character further when the match is empty; no
    pattern of the program matches the empty text). [fuel] bounds the
    number of positions visited. *)
Fixpoint scan (fuel : nat) (r : regex) (s : string) : list match_obj :=
  match fuel with
  | 0 => []
  | S fuel' =>
      let next :=
        match s with
        | EmptyString => []
        | String _ s' => scan fuel' r s'
        end in
      match re_match r s with
      | Some m =>
          m :: (if String.eqb (m_text m) EmptyString then next
                else scan fuel' r (m_rest m))
      | None => next
      end
  end.

Definition finditer (r : regex) (s : string) : list match_obj :=
  scan (S (String.length s)) r s.

(** [re.findall(r, s)] for a pattern with exactly one group: the list
    of the group's texts. *)
Definition findall1 (r : regex) (s : string) : list string :=
  map (fun m => default EmptyString (m_groups m !! 0)) (finditer r s).

(** [m.group(i)] for [i >= 1]. *)
Definition group (m : match_obj) (i : nat) : string :=
  default EmptyString (m_groups m !! (i - 1)).

End Re.

(** ** Exceptions *)

Inductive pyerror : Type :=
| ValueError (msg : string)
| FileNotFoundError (msg : string)
| IndexError
| KeyError (key : string)
| RuntimeError (msg : string)
| RecursionError
| OSError (msg : string)
| DanglingReference (addr : nat).
(** [OSError] stands for what [os.makedirs] and [open] raise
    ([FileExistsError], [NotADirectoryError], [PermissionError], ...).
    [DanglingReference] is not a Python exception: it marks a heap of the
    model that has no object at an address a dictionary holds. *)

Definition result (A : Type) : Type := pyerror + A.

Definition ret {A} (x : A) : result A := inr x.
Definition raise {A} (e : pyerror) : result A := inl e.

Definition bind {A B} (m : result A) (f : A -> result B) : result B :=
  match m with
  | inl e => inl e
  | inr x => f x
  end.

Notation "'do' x <- m ; k" := (bind m (fun x => k))
  (at level 10, x pattern, m at level 100, k at level 200).

(** A loop whose body may raise: [for x in l: acc = f(acc, x)]. *)
Fixpoint foldM {A B} (f : A -> B -> result A) (l : list B) (acc : A) : result A :=
  match l with
  | [] => ret acc
  | x :: l' => do acc' <- f acc x; foldM f l' acc'
  end.

(** ** Dictionaries *)

Definition pydict (V : Type) : Type := list (string * V).

Section PyDict.
Context {V : Type}.

(** [d.get(k)]; [d[k]] raises [KeyError] where this is [None]. *)
Fixpoint dict_get (d : pydict V) (k : string) : option V :=
  match d with
  | [] => None
  | (k', v) :: d' => if String.eqb k' k then Some v else dict_get d' k
  end.

(** [d[k]] *)
Definition dict_item (d : pydict V) (k : string) : result V :=
  match dict_get d k with
  | Some v => ret v
  | None => raise (KeyError k)
  end.

(** [k in d] *)
Definition dict_mem (d : pydict V) (k : string) : bool :=
  match dict_get d k with
  | Some _ => true
  | None => false
  end.

(** [d[k] = v] *)
Fixpoint dict_set (d : pydict V) (k : string) (v : V) : pydict V :=
  match d with
  | [] => [(k, v)]
  | (k', v') :: d' =>
      if String.eqb k' k then (k', v) :: d' else (k', v') :: dict_set d' k v
  end.

Definition dict_keys (d : pydict V) : list string := map fst d.
Definition dict_values (d : pydict V) : list V := map snd d.

(** [{**d1, **d2}] *)
Definition dict_merge (d1 d2 : pydict V) : pydict V :=
  fold_left (fun d kv => dict_set d (fst kv) (snd kv)) d2 d1.
End PyDict.

(** ** [os.path] (posixpath) and the file system *)

Module OsPath.

(** [os.path.join(a, b)] *)
Definition join (a b : string) : string :=
  if PyStr.startswith b "/" then b
  else if String.eqb a EmptyString || PyStr.endswith a "/" then a +:+ b
  else a +:+ "/" +:+ b.

(** [os.path.basename(p)] *)
Definition basename (p : string) : string := PyStr.after_last "/"%char p.

(** [os.path.splitext(p)[1]]: from the last dot of the base name on,
    unless that dot is one of its leading dots. *)
Fixpoint ext_of (s : string) : string :=
  match s with
  | EmptyString => EmptyString
  | String c s' =>
      if PyStr.has_char "."%char s' then ext_of s'
      else if Ascii.eqb c "."%char then s else EmptyString
  end.

Definition splitext_ext (p : string) : string :=
  ext_of (PyStr.lstrip_by (Ascii.eqb "."%char) (basename p)).

End OsPath.

Record FileSystem : Type := {
  isdir : string -> bool;        (* [os.path.isdir] *)
  exists_ : string -> bool;      (* [os.path.exists] *)
  read : string -> string        (* [open(f, "r").read()] of an existing file *)
}.

(** ** The document model: blocks and containers *)

(** [FileBlock] and its subclass [CodeBlock]; [type] is "file" or
    "code". *)
Record FileBlock : Type := {
  content : string;
  container : string;
  language : string;
  location : string;
  calling : list string;
  called_by : list string;
  name : string;
  type : string;
  calling_name : string
}.

Inductive Block : Type :=
| DocumentationBlock (doc_content doc_container : string)
| FragmentBlock (b : FileBlock).

Definition block_type (b : Block) : string :=
  match b with
  | DocumentationBlock _ _ => "doc"
  | FragmentBlock fb => type fb
  end.

Definition block_content (b : Block) : string :=
  match b with
  | DocumentationBlock c _ => c
  | FragmentBlock fb => content fb
  end.

(** [os.path.basename(f).rsplit(".", 1)[0]] *)
Definition stem (f : string) : string :=
  PyStr.rsplit1 "."%char (OsPath.basename f).

(** [Block.__init__]: the stored container name, after the checks. *)
Definition Block_init (fs : FileSystem) (container : string) : result string :=
  if isdir fs container then
    raise (ValueError ("The container '" +:+ container +:+ "' is a directory, not a file."))
  else if negb (exists_ fs container) then
    raise (FileNotFoundError ("The file '" +:+ container +:+ "' does not exist."))
  else ret (stem container).

(** [FileBlock.__init__]; [preset_type] is the [type] attribute that
    [CodeBlock.__init__] sets before it calls this constructor. *)
Definition FileBlock_init (fs : FileSystem) (preset_type : option string)
    (content container language name : string) : result FileBlock :=
  do cont <- Block_init fs container;
  if isdir fs name then
    raise (ValueError ("The name '" +:+ name +:+ "' is a directory, not a file."))
  else
    match preset_type with
    | None =>
        if String.eqb (OsPath.splitext_ext name) EmptyString then
          raise (ValueError ("The name '" +:+ name +:+ "' does not contain a file extension."))
        else
          ret {| content := content; container := cont; language := language;
                 location := name; calling := []; called_by := [];
                 name := stem name; type := "file"; calling_name := "" |}
    | Some t =>
        ret {| content := content; container := cont; language := language;
               location := name; calling := []; called_by := [];
               name := stem name; type := t; calling_name := "" |}
    end.

Definition CodeBlock_init (fs : FileSystem)
    (content container language name : string) : result FileBlock :=
  FileBlock_init fs (Some "code") content container language name.

Definition DocumentationBlock_init (fs : FileSystem)
    (content container : string) : result Block :=
  do cont <- Block_init fs container;
  ret (DocumentationBlock content cont).

Record Container : Type := {
  blocks : list Block;
  cname : string;
  code_dir : string;
  doc_dir : string;
  title : string;
  execute : list string;
  local_link : list (list string);
  web_link : list (list string);
  local_script : list string;
  web_script : list string
}.

(** [Container.__init__] *)
Definition Container_init (fs : FileSystem) (name : string) : result Container :=
  if isdir fs name then
    raise (ValueError ("The container file '" +:+ name +:+ "' is a directory, not a file."))
  else if negb (exists_ fs name) then
    raise (FileNotFoundError ("The file '" +:+ name +:+ "' does not exist."))
  else
    ret {| blocks := []; cname := stem name; code_dir := ""; doc_dir := "";
           title := ""; execute := []; local_link := []; web_link := [];
           local_script := []; web_script := [] |}.

Definition with_blocks (c : Container) (v : list Block) : Container :=
  {| blocks := v; cname := cname c; code_dir := code_dir c; doc_dir := doc_dir c;
     title := title c; execute := execute c; local_link := local_link c;
     web_link := web_link c; local_script := local_script c;
     web_script := web_script c |}.

Definition with_code_dir (c : Container) (v : string) : Container :=
  {| blocks := blocks c; cname := cname c; code_dir := v; doc_dir := doc_dir c;
     title := title c; execute := execute c; local_link := local_link c;
     web_link := web_link c; local_script := local_script c;
     web_script := web_script c |}.

Definition with_doc_dir (c : Container) (v : string) : Container :=
  {| blocks := blocks c; cname := cname c; code_dir := code_dir c; doc_dir := v;
     title := title c; execute := execute c; local_link := local_link c;
     web_link := web_link c; local_script := local_script c;
     web_script := web_script c |}.

Definition with_title (c : Container) (v : string) : Container :=
  {| blocks := blocks c; cname := cname c; code_dir := code_dir c; doc_dir := doc_dir c;
     title := v; execute := execute c; local_link := local_link c;
     web_link := web_link c; local_script := local_script c;
     web_script := web_script c |}.

Definition with_execute (c : Container) (v : list string) : Container :=
  {| blocks := blocks c; cname := cname c; code_dir := code_dir c; doc_dir := doc_dir c;
     title := title c; execute := v; local_link := local_link c;
     web_link := web_link c; local_script := local_script c;
     web_script := web_script c |}.

Definition with_local_link (c : Container) (v : list (list string)) : Container :=
  {| blocks := blocks c; cname := cname c; code_dir := code_dir c; doc_dir := doc_dir c;
     title := title c; execute := execute c; local_link := v;
     web_link := web_link c; local_script := local_script c;
     web_script := web_script c |}.

Definition with_web_link (c : Container) (v : list (list string)) : Container :=
  {| blocks := blocks c; cname := cname c; code_dir := code_dir c; doc_dir := doc_dir c;
     title := title c; execute := execute c; local_link := local_link c;
     web_link := v; local_script := local_script c;
     web_script := web_script c |}.

Definition with_local_script (c : Container) (v : list string) : Container :=
  {| blocks := blocks c; cname := cname c; code_dir := code_dir c; doc_dir := doc_dir c;
     title := title c; execute := execute c; local_link := local_link c;
     web_link := web_link c; local_script := v;
     web_script := web_script c |}.

Definition with_web_script (c : Container) (v : list string) : Container :=
  {| blocks := blocks c; cname := cname c; code_dir := code_dir c; doc_dir := doc_dir c;
     title := title c; execute := execute c; local_link := local_link c;
     web_link := web_link c; local_script := local_script c;
     web_script := v |}.

(** [Container.add] *)
Definition add (c : Container) (block : Block) : Container :=
  with_blocks c (blocks c ++ [block]).

(** [Container.set_title] *)
Definition set_title (c : Container) (title : string) : Container :=
  with_title c title.

(** [Container.add_llink] *)
Definition add_llink (fs : FileSystem) (c : Container)
    (link_type link_address : string) : result Container :=
  if negb (exists_ fs link_address) then
    raise (FileNotFoundError ("The file '" +:+ link_address +:+ "' does not exist."))
  else ret (with_local_link c (local_link c ++ [[link_type; link_address]])).

(** [Container.add_wlink] *)
Definition add_wlink (c : Container) (link_type link_address : string) : Container :=
  with_web_link c (web_link c ++ [[link_type; link_address]]).

(** [Container.set_code_dir] *)
Definition set_code_dir (c : Container) (dir : string) : result Container :=
  if String.eqb dir EmptyString then ret c
  else if negb (PyStr.endswith dir "/") then
    raise (ValueError "Code directory must end with a '/'")
  else ret (with_code_dir c dir).

(** [Container.set_doc_dir] *)
Definition set_doc_dir (c : Container) (dir : string) : result Container :=
  if String.eqb dir EmptyString then ret c
  else if negb (PyStr.endswith dir "/") then
    raise (ValueError "Documentation directory must end with a '/'")
  else ret (with_doc_dir c dir).

(** [make_block] *)
Definition make_block (fs : FileSystem)
    (block_type content container language name : string) : result Block :=
  let content := PyStr.rstrip_by (Ascii.eqb nl) content in
  if String.eqb block_type "doc" then DocumentationBlock_init fs content container
  else if String.eqb block_type "file" then
    do b <- FileBlock_init fs None content container language name;
    ret (FragmentBlock b)
  else if String.eqb block_type "code" then
    do b <- CodeBlock_init fs content container language name;
    ret (FragmentBlock b)
  else raise (ValueError ("Unknown block type: " +:+ block_type)).

(** ** The parser: [parse_files] *)

(** The pattern ["@" + d + "{(.*?)}"] of a directive or marker [d]. *)
Definition directive_re (d : string) : Re.regex :=
  Re.Cat (Re.Str ("@" +:+ d +:+ "{"))
    (Re.Cat (Re.Group (Re.Star false Re.Dot)) (Re.Lit "}"%char)).

(** [[\w_]]: the underscore is a word character already. *)
Definition word_class : ascii -> bool :=
  fun c => is_word c || Ascii.eqb c "_"%char.

(** [[\w_.-]] *)
Definition name_class : ascii -> bool :=
  fun c => is_word c || Ascii.eqb c "_"%char || Ascii.eqb c "."%char
           || Ascii.eqb c "-"%char.

(** [pattern1], the opening fence: three backquotes, an optional space,
    [([\w_]+)], a space, [([\w_.-]+)], [\s*]. *)
Definition pattern1 : Re.regex :=
  Re.Cat (Re.Str "```")
    (Re.Cat (Re.Opt (Re.Lit " "%char))
       (Re.Cat (Re.Group (Re.Plus (Re.Class word_class)))
          (Re.Cat (Re.Lit " "%char)
             (Re.Cat (Re.Group (Re.Plus (Re.Class name_class)))
                (Re.Star true (Re.Class is_space)))))).

(** [pattern2], the closing fence: three backquotes, [\s*]. *)
Definition pattern2 : Re.regex :=
  Re.Cat (Re.Str "```") (Re.Star true (Re.Class is_space)).

(** [\.\w+$], a file extension at the end of the name token. *)
Definition extension_re : Re.regex :=
  Re.Cat (Re.Lit "."%char) (Re.Cat (Re.Plus (Re.Class is_word)) Re.Eol).

(** [extract_last_match] *)
Definition extract_last_match (pattern : Re.regex) (content : string) : string :=
  let matches := Re.findall1 pattern content in
  match last matches with
  | Some m => m
  | None => EmptyString
  end.

(** [l[i]] *)
Definition list_item {A} (l : list A) (i : nat) : result A :=
  match l !! i with
  | Some x => ret x
  | None => raise IndexError
  end.

(** The two loops over the link directives. *)
Definition add_local_links (fs : FileSystem) (c : Container) (links : list string)
    : result Container :=
  foldM (fun c link =>
           let link_parts := PyStr.split_ws link in
           do t <- list_item link_parts 0;
           do a <- list_item link_parts 1;
           add_llink fs c t a) links c.

Definition add_web_links (c : Container) (links : list string) : result Container :=
  foldM (fun c link =>
           let link_parts := PyStr.split_ws link in
           do t <- list_item link_parts 0;
           do a <- list_item link_parts 1;
           ret (add_wlink c t a)) links c.

(** The metadata part of the loop body of [parse_files]. *)
Definition parse_metadata (fs : FileSystem) (container : Container) (text : string)
    : result Container :=
  let container := set_title container (extract_last_match (directive_re "title") text) in
  do container <- set_doc_dir container
                    (extract_last_match (directive_re "documentation_folder") text);
  do container <- set_code_dir container
                    (extract_last_match (directive_re "code_folder") text);
  let container := with_execute container (Re.findall1 (directive_re "execute_end") text) in
  let container := with_local_script container
                     (Re.findall1 (directive_re "local_script") text) in
  let container := with_web_script container
                     (Re.findall1 (directive_re "web_script") text) in
  do container <- add_local_links fs container
                    (Re.findall1 (directive_re "local_link") text);
  add_web_links container (Re.findall1 (directive_re "web_link") text).

(** The variables of the segmentation loop. *)
Record seg_state : Type := {
  sg_container : Container;
  sg_content : string;
  sg_language : string;
  sg_name : string;
  sg_block_type : string
}.

(** One iteration of [for line in text.split("\n")]. *)
Definition seg_line (fs : FileSystem) (filename : string) (st : seg_state)
    (line : string) : result seg_state :=
  let start_match := Re.re_match pattern1 line in
  let end_match := Re.re_match pattern2 line in
  match start_match with
  | Some m =>
      do c <- (if negb (String.eqb (sg_content st) EmptyString) then
                 do b <- make_block fs (sg_block_type st) (sg_content st) filename
                           (sg_language st) (sg_name st);
                 ret (add (sg_container st) b)
               else ret (sg_container st));
      let language := PyStr.strip (Re.group m 1) in
      let name := PyStr.strip (Re.group m 2) in
      ret {| sg_container := c; sg_content := ""; sg_language := language;
             sg_name := name;
             sg_block_type :=
               match Re.re_search extension_re name with
               | Some _ => "file"
               | None => "code"
               end |}
  | None =>
      match end_match with
      | Some _ =>
          do c <- (if (String.eqb (sg_block_type st) "file"
                       || String.eqb (sg_block_type st) "code")
                      && negb (String.eqb (sg_content st) EmptyString) then
                     do b <- make_block fs (sg_block_type st) (sg_content st) filename
                               (sg_language st) (sg_name st);
                     ret (add (sg_container st) b)
                   else ret (sg_container st));
          ret {| sg_container := c; sg_content := ""; sg_language := "";
                 sg_name := ""; sg_block_type := "doc" |}
      | None =>
          ret {| sg_container := sg_container st;
                 sg_content := sg_content st +:+ line +:+ String nl EmptyString;
                 sg_language := sg_language st; sg_name := sg_name st;
                 sg_block_type := sg_block_type st |}
      end
  end.

(** The body of [for filename in filenames], up to the store into
    [containers]. *)
Definition parse_file (fs : FileSystem) (filename : string) : result Container :=
  do container <- Container_init fs filename;
  let text := read fs filename in
  if String.eqb (PyStr.strip text) EmptyString then
    raise (ValueError ("The file '" +:+ filename +:+ "' is empty"))
  else
    do container <- parse_metadata fs container text;
    do st <- foldM (seg_line fs filename) (PyStr.split nl text)
               {| sg_container := container; sg_content := ""; sg_language := "";
                  sg_name := ""; sg_block_type := "doc" |};
    if negb (String.eqb (sg_content st) EmptyString)
       && negb (String.eqb (sg_block_type st) "doc") then
      do b <- make_block fs (sg_block_type st) (sg_content st) filename
                (sg_language st) (sg_name st);
      ret (add (sg_container st) b)
    else ret (sg_container st).

(** [parse_files] *)
Definition parse_files (fs : FileSystem) (filenames : list string)
    : result (pydict Container) :=
  foldM (fun containers filename =>
           do container <- parse_file fs filename;
           ret (dict_set containers (cname container) container))
        filenames [].

(** ** The expander: [replace_calls] *)

(** [@call{(.*?)}], the reference marker with its name captured. *)
Definition call_re : Re.regex := directive_re "call".

(** [@call{.*?}], the marker as the end-of-pass test searches it. *)
Definition call_search_re : Re.regex :=
  Re.Cat (Re.Str "@call{") (Re.Cat (Re.Star false Re.Dot) (Re.Lit "}"%char)).

(** The inner function [add_indent]. [lines[0]] and [lines[1:]] are
    [hd] and [tl]: [split] never returns an empty list. *)
Definition add_indent (block_content : string) (indent_level : Z) : string :=
  let lines := PyStr.split nl block_content in
  let spaces := PyStr.spaces (Z.to_nat (indent_level - 1)) in
  let indented_lines :=
    hd EmptyString lines :: map (fun line => spaces +:+ line) (tl lines) in
  PyStr.join (String nl EmptyString) indented_lines.

Definition call_marker (call : string) : string := "@call{" +:+ call +:+ "}".
Definition error_marker (call : string) : string := "@error{" +:+ call +:+ "}".
Definition diagnostic (call : string) : string :=
  "ERROR: callblock not found: " +:+ call.

(** The body of [for call in calls]: the state is [updated_line] and the
    lines printed so far. *)
Definition call_step (code_blocks : pydict FileBlock) (indent_level : Z)
    (st : string * list string) (call : string) : string * list string :=
  let (updated_line, printed) := st in
  let stripped_call := PyStr.strip call in
  match dict_get code_blocks stripped_call with
  | Some block =>
      let indented_block := add_indent (content block) (indent_level + 1) in
      (PyStr.replace updated_line (call_marker call) indented_block, printed)
  | None =>
      (PyStr.replace updated_line (call_marker call) (error_marker call),
       printed ++ [diagnostic call])
  end.

(** [len(line) - len(line.lstrip())] *)
Definition indent_of (line : string) : Z :=
  Z.of_nat (String.length line) - Z.of_nat (String.length (PyStr.lstrip line)).

(** The body of [for line in lines]: the updated line and what it
    printed. *)
Definition process_line (code_blocks : pydict FileBlock) (line : string)
    : string * list string :=
  let indent_level := indent_of line in
  let calls := Re.findall1 call_re line in
  fold_left (call_step code_blocks indent_level) calls (line, []).

(** One pass: [block_text] and the lines printed during the pass. *)
Definition one_pass (code_blocks : pydict FileBlock) (content : string)
    : string * list string :=
  let lines := PyStr.split nl content in
  let updated := map (process_line code_blocks) lines in
  (PyStr.join (String nl EmptyString) (map fst updated), concat (map snd updated)).

(** What an expansion yields: the returned text and the lines printed;
    [passes] is a ghost counter of the passes made. *)
Record expansion : Type := {
  text : string;
  printed : list string;
  passes : nat
}.

(** [replace_calls]. [fuel] bounds the depth of the recursion; [None]
    means the recursion did not end within it. *)
Fixpoint replace_calls (fuel : nat) (content : string)
    (code_blocks : pydict FileBlock) (index max_index : Z) : option expansion :=
  let (block_text, out) := one_pass code_blocks content in
  if ((max_index =? -1)%Z || (index <? max_index)%Z)
     && Re.found (Re.re_search call_search_re block_text)
  then
    match fuel with
    | 0 => None
    | S fuel' =>
        match replace_calls fuel' block_text code_blocks (index + 1) max_index with
        | Some r =>
            Some {| text := text r; printed := out ++ printed r;
                    passes := S (passes r) |}
        | None => None
        end
    end
  else Some {| text := block_text; printed := out; passes := 1 |}.

(** The default of [max_index]. *)
Definition default_max_index : Z := 12.

(** ** The cross-reference builder: [find_calls]

    The values of [blocks] are references to block objects; the objects
    are in [heap]. *)

Definition fc_state : Type := list FileBlock * pydict nat.

Definition deref (heap : list FileBlock) (a : nat) : result FileBlock :=
  match heap !! a with
  | Some b => ret b
  | None => raise (DanglingReference a)
  end.

Definition with_calling (b : FileBlock) (v : list string) : FileBlock :=
  {| content := content b; container := container b; language := language b;
     location := location b; calling := v; called_by := called_by b;
     name := name b; type := type b; calling_name := calling_name b |}.

Definition with_called_by (b : FileBlock) (v : list string) : FileBlock :=
  {| content := content b; container := container b; language := language b;
     location := location b; calling := calling b; called_by := v;
     name := name b; type := type b; calling_name := calling_name b |}.

Definition with_calling_name (b : FileBlock) (v : string) : FileBlock :=
  {| content := content b; container := container b; language := language b;
     location := location b; calling := calling b; called_by := called_by b;
     name := name b; type := type b; calling_name := v |}.

(** [os.path.join(doc_dir, container + ".html") + "#" + kind + "::" + name] *)
Definition anchor (doc_dir container kind name : string) : string :=
  OsPath.join doc_dir (container +:+ ".html") +:+ "#" +:+ kind +:+ "::" +:+ name.

(** [os.path.join(doc_dir, container + ".html") + "#code::" + name] *)
Definition code_anchor (doc_dir container name : string) : string :=
  OsPath.join doc_dir (container +:+ ".html") +:+ "#code::" +:+ name.

(** The body of [for call in calls]; [a] is the address of [block]. *)
Definition fc_call (container_dict : pydict Container) (a : nat)
    (st : fc_state) (call : string) : result fc_state :=
  let (heap, blocks) := st in
  let stripped_call := PyStr.strip call in
  match dict_get blocks stripped_call with
  | None => ret st
  | Some t =>
      do calling_block <- deref heap t;
      do c <- dict_item container_dict (container calling_block);
      let calling_block_name :=
        code_anchor (doc_dir c) (container calling_block) (name calling_block) in
      do block <- deref heap a;
      let heap :=
        <[t := with_called_by calling_block
                 (called_by calling_block ++ [calling_name block])]> heap in
      do block <- deref heap a;
      let heap := <[a := with_calling block (calling block ++ [calling_block_name])]> heap in
      ret (heap, dict_set blocks stripped_call t)
  end.

(** The body of [for block in blocks.values()]. *)
Definition fc_block (container_dict : pydict Container) (a : nat)
    (st : fc_state) : result fc_state :=
  let (heap, blocks) := st in
  do block <- deref heap a;
  do c <- dict_item container_dict (container block);
  let heap :=
    <[a := with_calling_name block
             (anchor (doc_dir c) (container block) (type block) (name block))]> heap in
  let lines := PyStr.split nl (content block) in
  do st <- foldM (fun st line =>
                    foldM (fc_call container_dict a) (Re.findall1 call_re line) st)
             lines (heap, blocks);
  do block <- deref (fst st) a;
  ret (fst st, dict_set (snd st) (name block) a).

(** The iteration over [blocks.values()]: [i] is the position of the
    iterator, [len0] the size of the dictionary when the iteration began,
    [n] the number of entries still to visit. Each step first compares
    the size with [len0], as CPython does. *)
Fixpoint fc_iter (container_dict : pydict Container) (len0 n i : nat)
    (st : fc_state) : result fc_state :=
  if negb (length (snd st) =? len0) then
    raise (RuntimeError "dictionary changed size during iteration")
  else
    match n with
    | 0 => ret st
    | S n' =>
        match snd st !! i with
        | None => ret st
        | Some (_, a) =>
            do st' <- fc_block container_dict a st;
            fc_iter container_dict len0 n' (S i) st'
        end
    end.

(** [find_calls] *)
Definition find_calls (container_dict : pydict Container) (st : fc_state)
    : result fc_state :=
  fc_iter container_dict (length (snd st)) (length (snd st)) 0 st.

(** ** The driver: [Litera] *)

Record Litera : Type := {
  containers : pydict Container;
  code_blocks : pydict FileBlock;
  file_blocks : pydict FileBlock
}.

(** The body of the inner loop of [Litera.make_blocks]. *)
Definition register_block (l : Litera) (block : Block) : Litera :=
  match block with
  | DocumentationBlock _ _ => l
  | FragmentBlock b =>
      if String.eqb (type b) "file" then
        {| containers := containers l; code_blocks := code_blocks l;
           file_blocks := dict_set (file_blocks l) (name b) b |}
      else if String.eqb (type b) "code" then
        {| containers := containers l;
           code_blocks := dict_set (code_blocks l) (name b) b;
           file_blocks := file_blocks l |}
      else l
  end.

(** [Litera.make_blocks] *)
Definition make_blocks (l : Litera) : Litera :=
  fold_left (fun l c => fold_left register_block (blocks c) l)
    (dict_values (containers l)) l.

(** [Litera.__init__] *)
Definition Litera_init (fs : FileSystem) (filenames : list string) : result Litera :=
  do cs <- parse_files fs filenames;
  ret (make_blocks {| containers := cs; code_blocks := []; file_blocks := [] |}).

(** What [Litera.write_code] computes for one file block: the path and
    the text of the file to write, and what the expansion printed. *)
Record written : Type := {
  w_path : string;
  w_text : string;
  w_printed : list string
}.

(** The body of the loop of [Litera.write_code] up to the write:
    [replace_calls] runs with its default [max_index]. The calls that
    follow, [os.makedirs] and [open], are in [write_block_io]. *)
Definition write_block (l : Litera) (block : string) : result written :=
  do fb <- dict_item (file_blocks l) block;
  match replace_calls (Z.to_nat default_max_index) (content fb) (code_blocks l)
          0 default_max_index with
  | None => raise RecursionError
  | Some r =>
      do container <- dict_item (containers l) (container fb);
      ret {| w_path := code_dir container +:+ location fb;
             w_text := text r; w_printed := printed r |}
  end.

(** [Litera.write_code], the files it computes. *)
Definition write_code (l : Litera) : result (list written) :=
  foldM (fun ws block => do w <- write_block l block; ret (ws ++ [w]))
    (dict_keys (file_blocks l)) [].

(** The file system the writers change: a state, [os.path.exists], and
    the two calls that change the state. What the calls do is left open;
    each of them may raise. *)
Record Disk : Type := {
  disk_state : Type;
  path_exists : disk_state -> string -> bool;             (* [os.path.exists] *)
  makedirs : disk_state -> string -> result disk_state;   (* [os.makedirs] *)
  write_file : disk_state -> string -> string -> result disk_state
    (* [with open(path, "w") as file: file.write(text)] *)
}.

(** [if not os.path.exists(dir) and dir: os.makedirs(dir)] *)
Definition ensure_dir (D : Disk) (d : disk_state D) (dir : string)
    : result (disk_state D) :=
  if negb (path_exists D d dir) && negb (String.eqb dir EmptyString)
  then makedirs D d dir
  else ret d.

(** The body of the loop of [Litera.write_code] with its effects: the
    state of the file system and the files written so far. *)
Definition write_block_io (D : Disk) (l : Litera)
    (acc : disk_state D * list written) (block : string)
    : result (disk_state D * list written) :=
  do fb <- dict_item (file_blocks l) block;
  match replace_calls (Z.to_nat default_max_index) (content fb) (code_blocks l)
          0 default_max_index with
  | None => raise RecursionError
  | Some r =>
      do container <- dict_item (containers l) (container fb);
      do d <- ensure_dir D (fst acc) (code_dir container);
      do d <- write_file D d (code_dir container +:+ location fb) (text r);
      ret (d, snd acc ++ [{| w_path := code_dir container +:+ location fb;
                             w_text := text r; w_printed := printed r |}])
  end.

(** [Litera.write_code] on the file system [d]. *)
Definition write_code_io (D : Disk) (l : Litera) (d : disk_state D)
    : result (disk_state D * list written) :=
  foldM (write_block_io D l) (dict_keys (file_blocks l)) (d, []).

(** The addresses of the values of a dictionary whose objects lie in
    the heap in the order of its entries, from address [i] on. *)
Fixpoint addresses {V} (i : nat) (d : pydict V) : pydict nat :=
  match d with
  | [] => []
  | (k, _) :: d' => (k, i) :: addresses (S i) d'
  end.

(** The dictionary [find_calls] receives from
    [Litera.write_documentation]: [{**file_blocks, **code_blocks}], its
    values being the block objects, one object per key. *)
Definition blocks_dict (l : Litera) : fc_state :=
  let d := dict_merge (file_blocks l) (code_blocks l) in
  (dict_values d, addresses 0 d).

(** ** The weaver: [write_html] *)

(** The double quote of an HTML attribute. *)
Definition dquote : string := String "034"%char EmptyString.

(** [s.split(sep)] for a separator [sep] of one or more characters:
    the pieces between the non-overlapping occurrences of [sep], leftmost
    first. [skip] counts the characters of an occurrence that are still
    to be passed over. *)
Fixpoint split_str_go (sep : string) (skip : nat) (s : string) : list string :=
  match s with
  | EmptyString => [EmptyString]
  | String c s' =>
      match skip with
      | S k => split_str_go sep k s'
      | 0 =>
          if String.prefix sep s
          then EmptyString :: split_str_go sep (String.length sep - 1) s'
          else match split_str_go sep 0 s' with
               | l :: ls => String c l :: ls
               | [] => [String c EmptyString]
               end
      end
  end.

Definition split_str (sep s : string) : list string := split_str_go sep 0 s.

(** [l[-1]] of a list that is not empty. *)
Definition last_item (l : list string) : string := default EmptyString (last l).

(** ["/".join([".."] * (len(current_dir.split("/")) - 1)) + "/"]: the
    way from a page in [current_dir] up to the directory the paths of the
    program start from. *)
Definition parent_prefix (current_dir : string) : string :=
  PyStr.join "/" (replicate (length (PyStr.split "/"%char current_dir) - 1) "..")
    +:+ "/".

(** The inner function [href_to_html] *)
Definition href_to_html (hrefs : list string) (label current_dir : string) : string :=
  let current_dir := parent_prefix current_dir in
  let html_refs :=
    map (fun link =>
           let display_text := last_item (split_str "::" link) in
           "<a href=" +:+ dquote +:+ current_dir +:+ link +:+ dquote +:+ ">"
             +:+ display_text +:+ "</a>") hrefs in
  "<p><b>" +:+ label +:+ ": " +:+ PyStr.join ", " html_refs +:+ "</b></p>".

(** A loop that builds a list and may raise. *)
Fixpoint mapM {A B} (f : A -> result B) (l : list A) : result (list B) :=
  match l with
  | [] => ret []
  | x :: l' => do y <- f x; do ys <- mapM f l'; ret (y :: ys)
  end.

(** The inner function [local_link_to_html] *)
Definition local_link_to_html (links : list (list string)) (current_dir : string)
    : result string :=
  let current_dir := parent_prefix current_dir in
  do html_links <-
    mapM (fun link =>
            do link_type <- list_item link 0;
            do link_add <- list_item link 1;
            ret ("<link rel=" +:+ dquote +:+ link_type +:+ dquote +:+ " href="
                   +:+ dquote +:+ current_dir +:+ link_add +:+ dquote +:+ ">")) links;
  ret (PyStr.join (String nl EmptyString) html_links).

(** The inner function [web_link_to_html] *)
Definition web_link_to_html (links : list (list string)) : result string :=
  do html_links <-
    mapM (fun link =>
            do link_type <- list_item link 0;
            do link_add <- list_item link 1;
            ret ("<link rel=" +:+ dquote +:+ link_type +:+ dquote +:+ " href="
                   +:+ dquote +:+ link_add +:+ dquote +:+ ">")) links;
  ret (PyStr.join (String nl EmptyString) html_links).

(** The inner function [local_script_to_html] *)
Definition local_script_to_html (scripts : list string) (current_dir : string)
    : string :=
  let current_dir := parent_prefix current_dir in
  let html_scripts :=
    map (fun script =>
           "<script src=" +:+ dquote +:+ current_dir +:+ script +:+ dquote
             +:+ "></script>") scripts in
  PyStr.join (String nl EmptyString) html_scripts.

(** The inner function [web_script_to_html] *)
Definition web_script_to_html (scripts : list string) : string :=
  let html_scripts :=
    map (fun script =>
           "<script src=" +:+ dquote +:+ script +:+ dquote +:+ "></script>")
        scripts in
  PyStr.join (String nl EmptyString) html_scripts.

(** [re.sub(r, repl, s)]: the non-overlapping matches of [r] from left
    to right, each replaced by what [repl] makes of it; the text between
    the matches is copied. After an empty match the next character is
    copied (no pattern of the program matches the empty text). [fuel]
    bounds the number of positions visited. *)
Fixpoint re_sub_go (fuel : nat) (r : Re.regex) (repl : Re.match_obj -> string)
    (s : string) : string :=
  match fuel with
  | 0 => s
  | S fuel' =>
      let copy :=
        match s with
        | EmptyString => EmptyString
        | String c s' => String c (re_sub_go fuel' r repl s')
        end in
      match Re.re_match r s with
      | Some m =>
          if String.eqb (Re.m_text m) EmptyString then repl m +:+ copy
          else repl m +:+ re_sub_go fuel' r repl (Re.m_rest m)
      | None => copy
      end
  end.

Definition re_sub (r : Re.regex) (repl : Re.match_obj -> string) (s : string)
    : string :=
  re_sub_go (S (String.length s)) r repl s.

(** A group around a greedy [.*]: the rest of the line. *)
Definition rest_of_line : Re.regex := Re.Group (Re.Star true Re.Dot).

(** [.] under [re.DOTALL]: any character. *)
Definition any_char : ascii -> bool := fun _ => true.

(** [(.*?)] under [re.DOTALL] *)
Definition lazy_text : Re.regex := Re.Group (Re.Star false (Re.Class any_char)).

(** The list [patterns]: each pattern with the two tags its replacement
    puts around the group. *)
Definition patterns : list (Re.regex * (string * string)) :=
  [ (Re.Cat (Re.Str "###### ") rest_of_line, ("<h6>", "</h6>"));
    (Re.Cat (Re.Str "##### ") rest_of_line, ("<h5>", "</h5>"));
    (Re.Cat (Re.Str "#### ") rest_of_line, ("<h4>", "</h4>"));
    (Re.Cat (Re.Str "### ") rest_of_line, ("<h3>", "</h3>"));
    (Re.Cat (Re.Str "## ") rest_of_line, ("<h2>", "</h2>"));
    (Re.Cat (Re.Str "# ") rest_of_line, ("<h1>", "</h1>"));
    (Re.Cat (Re.Str "**") (Re.Cat lazy_text (Re.Str "**")), ("<b>", "</b>"));
    (Re.Cat (Re.Str "__") (Re.Cat lazy_text (Re.Str "__")), ("<b>", "</b>"));
    (Re.Cat (Re.Str "*") (Re.Cat lazy_text (Re.Str "*")), ("<i>", "</i>"));
    (Re.Cat (Re.Str "_") (Re.Cat lazy_text (Re.Str "_")), ("<i>", "</i>")) ].

(** [@\w+\{[^}]*\}], a command. *)
Definition command_re : Re.regex :=
  Re.Cat (Re.Lit "@"%char)
    (Re.Cat (Re.Plus (Re.Class is_word))
       (Re.Cat (Re.Lit "{"%char)
          (Re.Cat (Re.Star true (Re.Class (fun c => negb (Ascii.eqb c "}"%char))))
             (Re.Lit "}"%char)))).

(** What the loop over [patterns] and the removal of the commands make
    of the content of a documentation block. *)
Definition render_prose (content : string) : string :=
  let content :=
    fold_left (fun content pt =>
                 re_sub (fst pt)
                   (fun m => fst (snd pt) +:+ Re.group m 1 +:+ snd (snd pt)) content)
      patterns content in
  re_sub command_re (fun _ => EmptyString) content.

Definition with_content (b : FileBlock) (v : string) : FileBlock :=
  {| content := v; container := container b; language := language b;
     location := location b; calling := calling b; called_by := called_by b;
     name := name b; type := type b; calling_name := calling_name b |}.

(** What a file or code block adds to [html_content]. *)
Definition fragment_html (doc_dir : string) (block : FileBlock) : string :=
  let code_name := type block +:+ "::" +:+ name block in
  let current_name :=
    "<p class=" +:+ dquote +:+ type block +:+ "block" +:+ dquote +:+ ">"
      +:+ name block +:+ "</p>" in
  let calling := href_to_html (calling block) "Calling" doc_dir in
  let called_by := href_to_html (called_by block) "Called by" doc_dir in
  let content :=
    current_name +:+ calling +:+ called_by +:+ String nl EmptyString
      +:+ "<pre><code id=" +:+ dquote +:+ code_name +:+ dquote +:+ " class="
      +:+ dquote +:+ language block +:+ dquote +:+ ">" +:+ content block
      +:+ "</pre></code>" in
  content +:+ String nl EmptyString.

(** The body of [for block in container.blocks]: what the block adds to
    [html_content], and the block, whose content the rendering of prose
    overwrites. *)
Definition render_block (doc_dir : string) (block : Block) : string * Block :=
  match block with
  | DocumentationBlock c n =>
      let c' := render_prose c in
      ("<p>" +:+ c' +:+ String nl EmptyString +:+ "</p>", DocumentationBlock c' n)
  | FragmentBlock fb =>
      if String.eqb (type fb) "doc" then
        let c' := render_prose (content fb) in
        ("<p>" +:+ c' +:+ String nl EmptyString +:+ "</p>",
         FragmentBlock (with_content fb c'))
      else if String.eqb (type fb) "file" || String.eqb (type fb) "code" then
        (fragment_html doc_dir fb, block)
      else (EmptyString, block)
  end.

(** A page [write_html] writes. *)
Record page : Type := {
  p_path : string;
  p_html : string
}.

(** The body of [for container in containers.values()] up to the
    write: the page, and the container with its prose rendered. The
    calls that follow, [os.makedirs] and [open], are in
    [write_page_io]. *)
Definition write_page (container : Container) : result (page * Container) :=
  let doc_filename := OsPath.join (doc_dir container) (cname container +:+ ".html") in
  let doc_title := title container in
  do llinks <- local_link_to_html (local_link container) (doc_dir container);
  do wlinks <- web_link_to_html (web_link container);
  let lscripts := local_script_to_html (local_script container) (doc_dir container) in
  let wscripts := web_script_to_html (web_script container) in
  let head :=
    String nl EmptyString +:+ "<head>
<meta charset=" +:+ dquote +:+ "UTF-8" +:+ dquote +:+ ">
<meta name=" +:+ dquote +:+ "viewport" +:+ dquote +:+ " content=" +:+ dquote
      +:+ "width=device-width, initial-scale=1.0" +:+ dquote +:+ ">
<title>" +:+ doc_title +:+ "</title>
" +:+ wscripts +:+ "
" +:+ lscripts +:+ "
" +:+ wlinks +:+ "
" +:+ llinks +:+ "
</head>
" in
  let rendered := map (render_block (doc_dir container)) (blocks container) in
  let html_content := String.concat EmptyString (map fst rendered) in
  let html := "<!DOCTYPE html>
<html>
" +:+ head +:+ "
<body>
" +:+ html_content +:+ "
</body>
</html>" in
  ret ({| p_path := doc_filename; p_html := html |},
       with_blocks container (map snd rendered)).

(** [write_html], the pages it computes, in the order of the
    dictionary, and the dictionary of the containers it leaves. Its second argument, the
    dictionary of blocks, is not used by the function. *)
Definition write_html (containers : pydict Container)
    : result (list page * pydict Container) :=
  foldM (fun acc kc =>
           do pc <- write_page (snd kc);
           ret (fst acc ++ [fst pc], snd acc ++ [(fst kc, snd pc)]))
    containers ([], []).

(** The body of the loop of [write_html] with its effects: the state of
    the file system, the pages written so far and the containers
    rendered so far. *)
Definition write_page_io (D : Disk)
    (acc : disk_state D * (list page * pydict Container))
    (kc : string * Container)
    : result (disk_state D * (list page * pydict Container)) :=
  do pc <- write_page (snd kc);
  do d <- ensure_dir D (fst acc) (doc_dir (snd kc));
  do d <- write_file D d (p_path (fst pc)) (p_html (fst pc));
  ret (d, (fst (snd acc) ++ [fst pc], snd (snd acc) ++ [(fst kc, snd pc)])).

(** [write_html] on the file system [d]. *)
Definition write_html_io (D : Disk) (containers : pydict Container)
    (d : disk_state D)
    : result (disk_state D * (list page * pydict Container)) :=
  foldM (write_page_io D) containers (d, ([], [])).

(** ** Reference scanners

    Direct descriptions of what the patterns of the program match; Part II
    proves that the matcher computes them. *)

(** A lazy [.*?] before a continuation [K]: the shortest run of
    characters other than newline after which [K] succeeds. *)
Fixpoint lazy_dots {A} (K : string -> option A) (s : string) : option A :=
  Re.orelse (K s)
    match s with
    | EmptyString => None
    | String c s' => if Ascii.eqb c nl then None else lazy_dots K s'
    end.

(** The text up to the first closing brace, which must come before any
    newline, and the text after that brace: what [(.*?)}] reads. *)
Fixpoint take_name (s : string) : option (string * string) :=
  match s with
  | EmptyString => None
  | String c s' =>
      if Ascii.eqb c "}"%char then Some (EmptyString, s')
      else if Ascii.eqb c nl then None
      else match take_name s' with
           | Some (n, rest) => Some (String c n, rest)
           | None => None
           end
  end.

(** The match of [@d{(.*?)}] at the start of [s]: the name and the text
    after the marker. *)
Definition marker_at (d : string) (s : string) : option (string * string) :=
  let open := "@" +:+ d +:+ "{" in
  if String.prefix open s then take_name (PyStr.drop (String.length open) s)
  else None.

(** A text in which the pattern [@d{(.*?)}] matches nowhere. *)
Definition no_marker (d s : string) : Prop :=
  forall a t, s = a +:+ t -> marker_at d t = None.

(** Two registries that hold the same content under the same names. *)
Definition same_contents (cb1 cb2 : pydict FileBlock) : Prop :=
  forall k, option_map content (dict_get cb1 k) = option_map content (dict_get cb2 k).

(** ** Sample data *)

(** A code block of document [doc] named [n] with content [c]. *)
Definition sample_block (kind n c : string) : FileBlock :=
  {| content := c; container := "doc"; language := "py"; location := n;
     calling := []; called_by := []; name := n; type := kind;
     calling_name := "" |}.

(** Two code fragments that reference each other. *)
Definition cyclic_registry : pydict FileBlock :=
  [("a", sample_block "code" "a" "A @call{b}");
   ("b", sample_block "code" "b" "B @call{a}")].

(** A container as [Container.__init__] leaves it. *)
Definition fresh_container (n : string) : Container :=
  {| blocks := []; cname := n; code_dir := ""; doc_dir := ""; title := "";
     execute := []; local_link := []; web_link := []; local_script := [];
     web_script := [] |}.

(** The registry of the scenario: one code fragment [helper]. *)
Definition helper_registry : pydict FileBlock :=
  [("helper", sample_block "code" "helper" "print(2)")].

(** The same fragment as another document and language would store it. *)
Definition helper_registry' : pydict FileBlock :=
  [("helper",
    {| content := "print(2)"; container := "other"; language := "python";
       location := "helper"; calling := ["x"]; called_by := [];
       name := "helper"; type := "code"; calling_name := "other.html#code::helper" |})].

(** The content of the file fragment [main] of the scenario. *)
Definition main_content : string := "print(1)
@call{helper}".

(** A file system with the one file [doc.md], whose text is [text]. *)
Definition sample_fs (text : string) : FileSystem :=
  {| isdir := fun _ => false;
     exists_ := fun p => String.eqb p "doc.md";
     read := fun _ => text |}.

(** A code fragment [b] of two lines. *)
Definition two_line_registry : pydict FileBlock :=
  [("b", sample_block "code" "b" "x
y")].



(** A driver state with two file fragments, [main] referring to [other],
    and the code fragment [helper]. *)
Definition sample_litera : Litera :=
  {| containers := [("doc", fresh_container "doc")];
     code_blocks := helper_registry;
     file_blocks :=
       [("main", sample_block "file" "main" "a = @call{other} + 1");
        ("other", sample_block "file" "other" "print(3)")] |}.

(** The document of the scenario. *)
Definition demo_text : string := "@title{Demo}
```py main.py
print(1)
@call{helper}
```
```py helper
print(2)
```".

(** The two fragments of the scenario, as parsed from a file whose
    container name is [cont]. *)
Definition demo_main (cont : string) : FileBlock :=
  {| content := main_content; container := cont; language := "py";
     location := "main.py"; calling := []; called_by := []; name := "main";
     type := "file"; calling_name := "" |}.

Definition demo_helper (cont : string) : FileBlock :=
  {| content := "print(2)"; container := cont; language := "py";
     location := "helper"; calling := []; called_by := []; name := "helper";
     type := "code"; calling_name := "" |}.

Definition demo_container (cont : string) : Container :=
  {| blocks := [DocumentationBlock "@title{Demo}" cont;
                FragmentBlock (demo_main cont); FragmentBlock (demo_helper cont)];
     cname := cont; code_dir := ""; doc_dir := ""; title := "Demo";
     execute := []; local_link := []; web_link := []; local_script := [];
     web_script := [] |}.

(** The text the scenario expects from the expansion of [main]. *)
Definition demo_output : string := "print(1)
print(2)".

(** A file system that has the file [demo.md] with the document in it. *)
Definition demo_fs : FileSystem :=
  {| isdir := fun _ => false;
     exists_ := fun p => String.eqb p "demo.md";
     read := fun _ => demo_text |}.

(** ** Directives *)

(** The values of the directive [d] in a text, in encounter order: what
    [re.findall] returns for its pattern. *)
Definition occurrences (d text : string) : list string :=
  Re.findall1 (directive_re d) text.

(** [l[-1] if l else ""] *)
Definition last_or_empty (l : list string) : string :=
  default EmptyString (last l).

(** The first two tokens of a link directive's value. *)
Definition link_pair (link : string) : list string :=
  take 2 (PyStr.split_ws link).

(** A document with several directives of each kind. *)
Definition metadata_text : string := "@title{First}
@title{Second}
@code_folder{code/}
@code_folder{src/}
@documentation_folder{docs/}
@execute_end{make} and @execute_end{make test}
@web_script{a.js}
@web_script{b.js}
@web_link{stylesheet https://x/y.css}
@web_link{icon https://x/z.ico}".

(** The container the metadata pass makes of [metadata_text]. *)
Definition metadata_container : Container :=
  {| blocks := []; cname := "doc"; code_dir := "src/"; doc_dir := "docs/";
     title := "Second"; execute := ["make"; "make test"];
     local_link := [];
     web_link := [["stylesheet"; "https://x/y.css"]; ["icon"; "https://x/z.ico"]];
     local_script := []; web_script := ["a.js"; "b.js"] |}.

(** ** The call graph

    What [find_calls] is to compute, written as functions of the blocks
    it is given. *)

(** The dictionary of a heap in which every block is stored under its
    name, from address [i] on. *)
Fixpoint blocks_from (i : nat) (heap : list FileBlock) : pydict nat :=
  match heap with
  | [] => []
  | b :: heap' => (name b, i) :: blocks_from (S i) heap'
  end.

Definition blocks_of (heap : list FileBlock) : pydict nat := blocks_from 0 heap.

(** The documentation directory of the document [cont]. *)
Definition doc_dir_of (cd : pydict Container) (cont : string) : string :=
  match dict_get cd cont with
  | Some c => doc_dir c
  | None => EmptyString
  end.

(** The anchor of a block: [<doc-path>#<kind>::<name>]. *)
Definition anchor_of (cd : pydict Container) (b : FileBlock) : string :=
  anchor (doc_dir_of cd (container b)) (container b) (type b) (name b).

(** The anchor of a block as a target: [<doc-path>#code::<name>]. *)
Definition code_anchor_of (cd : pydict Container) (b : FileBlock) : string :=
  code_anchor (doc_dir_of cd (container b)) (container b) (name b).

(** The names in the markers of a block's content, in the order of the
    lines and, in a line, from left to right. *)
Definition references (b : FileBlock) : list string :=
  concat (map (Re.findall1 call_re) (PyStr.split nl (content b))).

(** The address of the block a marker's name resolves to. *)
Definition target (heap : list FileBlock) (r : string) : option nat :=
  dict_get (blocks_of heap) (PyStr.strip r).

(** The code anchors of the targets of the references [rs] that
    resolve. *)
Definition callees (cd : pydict Container) (heap : list FileBlock)
    (rs : list string) : list string :=
  omap (fun r =>
          match target heap r with
          | Some t => option_map (code_anchor_of cd) (heap !! t)
          | None => None
          end) rs.

(** The anchor of [b], once for each of the references [rs] that
    resolves to the block at address [j]. *)
Definition calls_to (cd : pydict Container) (heap : list FileBlock)
    (b : FileBlock) (rs : list string) (j : nat) : list string :=
  omap (fun r =>
          match target heap r with
          | Some t => if Nat.eqb t j then Some (anchor_of cd b) else None
          | None => None
          end) rs.

(** The anchors of the callers of the block at address [j] among
    [scanned], in scan order. *)
Definition callers (cd : pydict Container) (heap scanned : list FileBlock)
    (j : nat) : list string :=
  concat (map (fun a => calls_to cd heap a (references a) j) scanned).

(** A block with [cs] appended to its calls list and [bs] to its
    called-by list, and its anchor set when [nm] holds. *)
Definition mk_block (cd : pydict Container) (b : FileBlock)
    (cs bs : list string) (nm : bool) : FileBlock :=
  {| content := content b; container := container b; language := language b;
     location := location b; calling := calling b ++ cs;
     called_by := called_by b ++ bs; name := name b; type := type b;
     calling_name := if nm then anchor_of cd b else calling_name b |}.

(** The block at address [j] after [find_calls]. *)
Definition linked (cd : pydict Container) (heap : list FileBlock)
    (j : nat) (b : FileBlock) : FileBlock :=
  mk_block cd b (callees cd heap (references b)) (callers cd heap heap j) true.

(** A function on addresses, changed at one address. *)
Definition fn_upd {A} (f : nat -> A) (i : nat) (v : A) : nat -> A :=
  fun j => if Nat.eqb j i then v else f j.

(** The heap is the given blocks with what has been appended so far:
    [cs j] to the calls list of block [j], [bs j] to its called-by list. *)
Definition heap_is (cd : pydict Container) (heap0 heap : list FileBlock)
    (cs bs : nat -> list string) (nm : nat -> bool) : Prop :=
  length heap = length heap0
  /\ forall j b, heap0 !! j = Some b ->
       heap !! j = Some (mk_block cd b (cs j) (bs j) (nm j)).

(** What one call adds: [cs] and [bs] after the marker [r] of block [a]
    is handled. *)
Definition acc_call (cd : pydict Container) (heap0 : list FileBlock)
    (ba : FileBlock) (a : nat) (acc : (nat -> list string) * (nat -> list string))
    (r : string) : (nat -> list string) * (nat -> list string) :=
  match target heap0 r with
  | Some t =>
      match heap0 !! t with
      | Some bt =>
          (fn_upd (fst acc) a (fst acc a ++ [code_anchor_of cd bt]),
           fn_upd (snd acc) t (snd acc t ++ [anchor_of cd ba]))
      | None => acc
      end
  | None => acc
  end.

(** What has been appended once the first [i] blocks are scanned. *)
Definition scanned_upto (cd : pydict Container) (heap0 : list FileBlock) (i : nat)
    (cs bs : nat -> list string) (nm : nat -> bool) : Prop :=
  forall j b, heap0 !! j = Some b ->
    cs j = (if j <? i then callees cd heap0 (references b) else [])
    /\ bs j = callers cd heap0 (take i heap0) j
    /\ nm j = (j <? i).

(** Two blocks of the document [doc]: the file fragment [main], which
    refers to [helper] and to a name that no block has, and the code
    fragment [helper], which refers to [main]. *)
Definition graph_heap : list FileBlock :=
  [sample_block "file" "main" "@call{helper}
  @call{nothing}";
   sample_block "code" "helper" "@call{ main }"].

Definition graph_containers : pydict Container :=
  [("doc", with_doc_dir (fresh_container "doc") "docs/")].

(** Every block of the registry is stored under its name. *)
Definition keys_named (d : pydict FileBlock) : Prop :=
  forall k b, In (k, b) d -> k = name b.

(** The fragments of a container carry the container's name. *)
Definition container_sound (c : Container) : Prop :=
  forall fb, In (FragmentBlock fb) (blocks c) -> container fb = cname c.

(** ** Sample data for the expander and the parser *)

(** A code fragment whose content is a marker of its own name. *)
Definition self_registry : pydict FileBlock :=
  [("loop", sample_block "code" "loop" "@call{loop}")].

(** A document of prose only. *)
Definition prose_text : string := "# A heading
Some prose, @title{Notes} and no code.".

(** ** Blocks as the parser makes them *)

(** The kind the parser gives a fragment whose name token is [nm]. *)
Definition kind_of_name (nm : string) : string :=
  if Re.found (Re.re_search extension_re nm) then "file" else "code".

(** A block as [make_block] leaves it, for the document named [cont]:
    no newline at the end of the content, and for a fragment the kind its
    name calls for, the name derived from the location, and no link
    yet. *)
Definition fresh_block (fs : FileSystem) (cont : string) (b : Block) : Prop :=
  match b with
  | DocumentationBlock c n =>
      n = cont /\ PyStr.endswith c (String nl EmptyString) = false
  | FragmentBlock fb =>
      type fb = kind_of_name (location fb)
      /\ (type fb = "file" -> OsPath.splitext_ext (location fb) <> EmptyString)
      /\ name fb = stem (location fb) /\ container fb = cont
      /\ calling fb = [] /\ called_by fb = [] /\ calling_name fb = EmptyString
      /\ isdir fs (location fb) = false
      /\ PyStr.endswith (content fb) (String nl EmptyString) = false
  end.

(** The state of the segmentation loop is consistent: inside a fence the
    kind is the one the name token calls for. *)
Definition seg_inv (st : seg_state) : Prop :=
  sg_block_type st = "doc" \/ sg_block_type st = kind_of_name (sg_name st).

(** Every block of the container is as [make_block] leaves it. *)
Definition blocks_fresh (fs : FileSystem) (filename : string) (c : Container) : Prop :=
  forall b, In b (blocks c) -> fresh_block fs (stem filename) b.

(** A directory the program can prefix a file name with: empty, or
    ending in the separator. *)
Definition dir_ok (d : string) : Prop :=
  d = EmptyString \/ PyStr.endswith d "/" = true.

(** The metadata of a container is well formed: its directories are
    prefixes, and every link is a pair of a type and an address, the
    address of a local link being an existing file. *)
Definition meta_ok (fs : FileSystem) (c : Container) : Prop :=
  dir_ok (code_dir c) /\ dir_ok (doc_dir c)
  /\ (forall link, In link (local_link c) ->
        exists t a, link = [t; a] /\ exists_ fs a = true)
  /\ (forall link, In link (web_link c) -> exists t a, link = [t; a]).

(** A file system with two documents of the same base name in two
    directories. *)
Definition two_dirs_fs : FileSystem :=
  {| isdir := fun _ => false;
     exists_ := fun p => String.eqb p "a/doc.md" || String.eqb p "b/doc.md";
     read := fun p => if String.eqb p "a/doc.md" then "@title{A}" else "@title{B}" |}.

(** ** The registries *)

(** The blocks of all the documents, in the order [make_blocks] visits
    them. *)
Definition all_blocks (cs : pydict Container) : list Block :=
  concat (map blocks (dict_values cs)).

(** The last fragment of kind [kind] named [k] in a list of blocks. *)
Fixpoint last_named (kind k : string) (bs : list Block) : option FileBlock :=
  match bs with
  | [] => None
  | b :: bs' =>
      match last_named kind k bs' with
      | Some fb => Some fb
      | None =>
          match b with
          | FragmentBlock fb =>
              if String.eqb (type fb) kind && String.eqb (name fb) k
              then Some fb else None
          | DocumentationBlock _ _ => None
          end
      end
  end.

(** The block object a dictionary of [find_calls] holds under [k]. *)
Definition resolve (st : fc_state) (k : string) : option FileBlock :=
  match dict_get (snd st) k with
  | Some a => fst st !! a
  | None => None
  end.

(** A driver state in which a file fragment and a code fragment have
    the same name. *)
Definition shadow_litera : Litera :=
  {| containers := [("doc", fresh_container "doc")];
     code_blocks := [("main", sample_block "code" "main" "print(2)")];
     file_blocks := [("main", sample_block "file" "main" "print(1)");
                     ("util", sample_block "file" "util" "print(3)")] |}.

(** The driver state [Litera.__init__] builds from the document of the
    scenario. *)
Definition demo_litera : Litera :=
  {| containers := [("demo", demo_container "demo")];
     code_blocks := [("helper", demo_helper "demo")];
     file_blocks := [("main", demo_main "demo")] |}.

(** What [write_code] writes for the file fragment stored under [k]:
    the expansion of its content with the default limit, at the path made
    of the code directory of its document and of its location. *)
Definition tangled (l : Litera) (k : string) (w : written) : Prop :=
  exists fb c r,
    dict_get (file_blocks l) k = Some fb
    /\ dict_get (containers l) (container fb) = Some c
    /\ replace_calls (Z.to_nat default_max_index) (content fb) (code_blocks l)
         0 default_max_index = Some r
    /\ w_path w = code_dir c +:+ location fb
    /\ w_text w = text r /\ w_printed w = printed r.

(** ** The cross-reference builder on any dictionary of documents *)

(** The heap holds the given blocks, whatever has been linked: the
    fields [find_calls] reads and never writes are unchanged. *)
Definition same_static (heap0 heap : list FileBlock) : Prop :=
  length heap = length heap0
  /\ forall j b, heap0 !! j = Some b ->
       exists b', heap !! j = Some b' /\ container b' = container b
                  /\ name b' = name b /\ content b' = content b.

(** The error is the [KeyError] of a block whose document the dictionary
    of documents does not have. *)
Definition missing_document (cd : pydict Container) (heap0 : list FileBlock)
    (e : pyerror) : Prop :=
  exists b, In b heap0 /\ dict_mem cd (container b) = false
            /\ e = KeyError (container b).

(** ** Characters of a string *)

(** Every character of [s] satisfies [p]. *)
Fixpoint all_chars (p : ascii -> bool) (s : string) : bool :=
  match s with
  | EmptyString => true
  | String c s' => p c && all_chars p s'
  end.

(** A file system in which [doc.md] is the only file and nothing is a
    directory. *)
Definition plain_fs : FileSystem := sample_fs "text".

(** ** The weaver *)

(** The number of occurrences of the character [c] in [s]. *)
Fixpoint count_char (c : ascii) (s : string) : nat :=
  match s with
  | EmptyString => 0
  | String a s' => (if Ascii.eqb a c then 1 else 0) + count_char c s'
  end.

(** [x * n] for a string [x]. *)
Fixpoint repeat_str (n : nat) (x : string) : string :=
  match n with
  | 0 => EmptyString
  | S n' => x +:+ repeat_str n' x
  end.

(** A text with none of the characters the rendering of prose looks
    for. *)
Definition plain (s : string) : bool :=
  negb (PyStr.has_char "#" s) && negb (PyStr.has_char "*" s)
  && negb (PyStr.has_char "_" s) && negb (PyStr.has_char "@" s).

(** The pages of the documents, as [write_html] names them. *)
Definition page_paths (cs : pydict Container) : list string :=
  map (fun kc => OsPath.join (doc_dir (snd kc)) (cname (snd kc) +:+ ".html")) cs.

(** ** The writes of the two writers *)

(** One write: the directory to make when it is missing, the path of the
    file and its text. *)
Record job : Type := {
  j_dir : string;
  j_path : string;
  j_text : string
}.

(** A write on the file system [d]. *)
Definition store (D : Disk) (d : disk_state D) (j : job) : result (disk_state D) :=
  do d' <- ensure_dir D d (j_dir j);
  write_file D d' (j_path j) (j_text j).

(** The writes of a list, in order, up to the first that raises. *)
Definition store_all (D : Disk) (js : list job) (d : disk_state D)
    : result (disk_state D) :=
  foldM (store D) js d.

(** An error of the file system: one that [os.makedirs] or [open] gives
    for some state and some path. *)
Definition disk_error (D : Disk) (e : pyerror) : Prop :=
  (exists d p, makedirs D d p = raise e)
  \/ (exists d p t, write_file D d p t = raise e).

(** The code directory of the document of the file fragment stored
    under [k]. *)
Definition code_dir_of (l : Litera) (k : string) : string :=
  match dict_get (file_blocks l) k with
  | Some fb =>
      match dict_get (containers l) (container fb) with
      | Some c => code_dir c
      | None => ""
      end
  | None => ""
  end.

(** The writes [write_code] makes for the files [ws]. *)
Definition code_jobs (l : Litera) (ws : list written) : list job :=
  zip_with (fun k w => {| j_dir := code_dir_of l k; j_path := w_path w;
                          j_text := w_text w |})
    (dict_keys (file_blocks l)) ws.

(** The writes [write_html] makes for the pages [pages]. *)
Definition page_jobs (cs : pydict Container) (pages : list page) : list job :=
  zip_with (fun kc pg => {| j_dir := doc_dir (snd kc); j_path := p_path pg;
                            j_text := p_html pg |})
    cs pages.

(** A file system for the examples: the entries by path. A path with a
    slash at its end is not the path of a file; [makedirs] raises when a
    file has the name of the directory. *)
Definition sample_disk : Disk :=
  {| disk_state := pydict string;
     path_exists := fun d p => dict_mem d p;
     makedirs := fun d p =>
       if dict_mem d (PyStr.rstrip_by (Ascii.eqb "/") p)
       then raise (OSError "File exists")
       else ret (dict_set d p "");
     write_file := fun d p t => ret (dict_set d p t) |}.

(** A document that sends its code and its page to directories. *)
Definition dirs_text : string := "@code_folder{out/}
@documentation_folder{doc.md/}
```py main.py
print(1)
```".

Definition dirs_fs : FileSystem := sample_fs dirs_text.

(** A paragraph of prose without markup. *)
Definition plain_text : string := "Tangle first, then weave.
The order matters.".

(** The digit of a heading level. *)
Definition level_digit (k : nat) : string :=
  match k with
  | 1 => "1" | 2 => "2" | 3 => "3" | 4 => "4" | 5 => "5" | 6 => "6"
  | _ => EmptyString
  end.

(** The end of a line: the end of the text, or a newline. *)
Definition at_line_end (t : string) : Prop :=
  match t with
  | EmptyString => True
  | String c _ => c = nl
  end.

(** The marker of a heading of level [k]: [k] hashes and a space. *)
Definition heading_marker (k : nat) : string := repeat_str k "#" +:+ " ".

(** ** Fences *)

(** No line of [s] begins with three backquotes. *)
Definition no_fence_line (s : string) : Prop :=
  forall line, In line (PyStr.split nl s) -> String.prefix "```" line = false.

(** The content gathered so far is made of whole lines, none of them a
    fence. *)
Definition content_inv (st : seg_state) : Prop :=
  no_fence_line (sg_content st)
  /\ (sg_content st = EmptyString
      \/ exists s', sg_content st = s' +:+ String nl EmptyString).

(** No block of the container has a fence in its content. *)
Definition blocks_unfenced (c : Container) : Prop :=
  forall b, In b (blocks c) -> no_fence_line (block_content b).

(* ================================================================== *)
(** * Part II. Properties                                              *)
(* ================================================================== *)

(** ** Strings *)

#[local] Arguments Ascii.eqb : simpl never.
#[local] Arguments String.eqb : simpl never.

Lemma str_app_nil_l (s : string) : "" +:+ s = s.
Proof. reflexivity. Qed.

Lemma str_app_cons (c : ascii) (s t : string) :
  String c s +:+ t = String c (s +:+ t).
Proof. reflexivity. Qed.

Ltac str_norm := rewrite ?str_app_cons, ?str_app_nil_l.
Ltac str_norm_in H := rewrite ?str_app_cons, ?str_app_nil_l in H.

Lemma str_app_nil_r (s : string) : s +:+ "" = s.
Proof. induction s as [|c s IH]; str_norm; congruence. Qed.

Lemma str_app_assoc (a b c : string) : (a +:+ b) +:+ c = a +:+ (b +:+ c).
Proof. induction a as [|x a IH]; str_norm; congruence. Qed.

Lemma str_length_app (a b : string) :
  String.length (a +:+ b) = String.length a + String.length b.
Proof. induction a as [|x a IH]; str_norm; simpl; congruence. Qed.

Lemma ascii_eqb_true (a b : ascii) : Ascii.eqb a b = true <-> a = b.
Proof. apply Ascii.eqb_eq. Qed.

Lemma ascii_eqb_false (a b : ascii) : Ascii.eqb a b = false <-> a <> b.
Proof. apply Ascii.eqb_neq. Qed.

Lemma prefix_nil (s : string) : String.prefix "" s = true.
Proof. destruct s; reflexivity. Qed.

Lemma prefix_cons (a b : ascii) (p s : string) :
  String.prefix (String a p) (String b s) = Ascii.eqb a b && String.prefix p s.
Proof.
  simpl. destruct (ascii_dec a b) as [->|Hne].
  - by rewrite Ascii.eqb_refl.
  - apply ascii_eqb_false in Hne. by rewrite Hne.
Qed.

Lemma prefix_app (p t : string) : String.prefix p (p +:+ t) = true.
Proof.
  induction p as [|c p IH]; [apply prefix_nil|].
  str_norm. by rewrite prefix_cons, Ascii.eqb_refl, IH.
Qed.

Lemma prefix_split (p s : string) :
  String.prefix p s = true -> s = p +:+ PyStr.drop (String.length p) s.
Proof.
  revert s. induction p as [|c p IH]; intros s H; [done|].
  destruct s as [|b s]; [done|].
  rewrite prefix_cons in H. apply andb_true_iff in H as [Hc Hp].
  apply ascii_eqb_true in Hc as ->. str_norm. simpl. f_equal. by apply IH.
Qed.

Lemma prefix_app_r (p s t : string) :
  String.prefix p s = true -> String.prefix p (s +:+ t) = true.
Proof.
  intros H. rewrite (prefix_split _ _ H), str_app_assoc. apply prefix_app.
Qed.

Lemma prefix_trans (p q s : string) :
  String.prefix p q = true -> String.prefix q s = true -> String.prefix p s = true.
Proof.
  intros H1 H2. rewrite (prefix_split _ _ H2). by apply prefix_app_r.
Qed.

Lemma drop_app (p t : string) : PyStr.drop (String.length p) (p +:+ t) = t.
Proof. induction p as [|c p IH]; str_norm; simpl; [by destruct t|done]. Qed.

Lemma take_app (p t : string) : PyStr.take (String.length p) (p +:+ t) = p.
Proof.
  induction p as [|c p IH]; str_norm; simpl; [by destruct t|by rewrite IH].
Qed.

(** [split] never returns the empty list, which is why [lines[0]] is
    safe in [add_indent]. *)
Lemma split_not_nil (c : ascii) (s : string) : PyStr.split c s <> [].
Proof.
  induction s as [|a s IH]; simpl; [done|].
  destruct (Ascii.eqb a c); [done|]. by destruct (PyStr.split c s).
Qed.

(** [sep.join(s.split(sep)) == s] *)
Lemma join_split (c : ascii) (s : string) :
  PyStr.join (String c "") (PyStr.split c s) = s.
Proof.
  induction s as [|a s IH]; [done|]. simpl PyStr.split.
  pose proof (split_not_nil c s) as Hne.
  destruct (PyStr.split c s) as [|l ls]; [done|].
  destruct (Ascii.eqb a c) eqn:E.
  - apply ascii_eqb_true in E as ->.
    change (PyStr.join (String c "") ("" :: l :: ls))
      with ("" +:+ String c "" +:+ PyStr.join (String c "") (l :: ls)).
    by rewrite IH.
  - destruct ls as [|l' ls].
    + simpl in *. by rewrite IH.
    + change (PyStr.join (String c "") (String a l :: l' :: ls))
        with (String a l +:+ String c "" +:+ PyStr.join (String c "") (l' :: ls)).
      str_norm. f_equal. exact IH.
Qed.

Lemma join_cons (sep x : string) (l : list string) :
  l <> [] -> PyStr.join sep (x :: l) = x +:+ sep +:+ PyStr.join sep l.
Proof. by destruct l. Qed.

Lemma join_app (sep : string) (l1 l2 : list string) :
  l1 <> [] -> l2 <> [] ->
  PyStr.join sep (l1 ++ l2) = PyStr.join sep l1 +:+ sep +:+ PyStr.join sep l2.
Proof.
  intros H1 H2. induction l1 as [|x l1 IH]; [done|].
  destruct l1 as [|y l1].
  - simpl app. by rewrite join_cons.
  - change ((x :: y :: l1) ++ l2) with (x :: ((y :: l1) ++ l2)).
    rewrite join_cons by done. rewrite IH by done.
    rewrite (join_cons sep x (y :: l1)) by done.
    by rewrite !str_app_assoc.
Qed.

(** The lines of [a + sep + b] are the lines of [a], then the lines of
    [b]. *)
Lemma split_app_sep (c : ascii) (a b : string) :
  PyStr.split c (a +:+ String c b) = PyStr.split c a ++ PyStr.split c b.
Proof.
  induction a as [|x a IH]; str_norm; simpl.
  - by rewrite Ascii.eqb_refl.
  - destruct (Ascii.eqb x c); rewrite IH; [done|].
    pose proof (split_not_nil c a). by destruct (PyStr.split c a).
Qed.

Lemma has_char_app (c : ascii) (a b : string) :
  PyStr.has_char c (a +:+ b) = PyStr.has_char c a || PyStr.has_char c b.
Proof.
  induction a as [|x a IH]; str_norm; simpl; [done|]. by rewrite IH, orb_assoc.
Qed.

Lemma split_no_sep (c : ascii) (a : string) :
  PyStr.has_char c a = false -> PyStr.split c a = [a].
Proof.
  induction a as [|x a IH]; simpl; [done|].
  intros H. apply orb_false_iff in H as [H1 H2]. rewrite H1, IH; done.
Qed.

(** The first line of a text is a prefix of the text. *)
Lemma split_head_prefix (c : ascii) (s l : string) (ls : list string) :
  PyStr.split c s = l :: ls -> exists b, s = l +:+ b.
Proof.
  revert l ls. induction s as [|y s IHs]; intros l ls Es; simpl in Es.
  - injection Es as <- <-. by exists "".
  - destruct (Ascii.eqb y c).
    + injection Es as <- <-. by exists (String y s).
    + pose proof (split_not_nil c s).
      destruct (PyStr.split c s) as [|l' ls'] eqn:Es'; [done|].
      injection Es as <- <-. destruct (IHs _ _ eq_refl) as [b' ->].
      by exists b'.
Qed.

(** Every line of a text is a piece of it. *)
Lemma split_elem_of (c : ascii) (s line : string) :
  In line (PyStr.split c s) -> exists a b, s = a +:+ line +:+ b.
Proof.
  revert line. induction s as [|x s IH]; intros line; simpl.
  - intros [<-|[]]. by exists "", "".
  - destruct (Ascii.eqb x c) eqn:E.
    + intros [<-|H].
      * by exists "", (String x s).
      * destruct (IH _ H) as (a & b & ->). by exists (String x a), b.
    + pose proof (split_not_nil c s) as Hne.
      destruct (PyStr.split c s) as [|l ls] eqn:Es; [done|].
      intros [<-|H].
      * destruct (split_head_prefix _ _ _ _ Es) as [b' ->]. by exists "", b'.
      * destruct (IH line) as (a & b & ->); [by right|]. by exists (String x a), b.
Qed.

(** ** The matcher *)

Section ExecFacts.
Context {A : Type}.
Implicit Types (k : @Re.cont A) (s : string) (caps : list string).

(** The continuation only ever receives input that is no longer than
    the input the matcher started from. *)
Lemma exec_star_shorter greedy step :
  (forall s caps k x, step s caps k = Some x ->
     exists s' caps', String.length s' <= String.length s /\ k s' caps' = Some x) ->
  forall n s caps k x, Re.exec_star greedy step n s caps k = Some x ->
    exists s' caps', String.length s' <= String.length s /\ k s' caps' = Some x.
Proof.
  intros Hstep n. induction n as [|n IH]; intros s caps k x H; simpl in H.
  - exists s, caps. split; [lia|].
    destruct greedy; simpl in H; [done|]. by destruct (k s caps).
  - destruct (step s caps _) as [y|] eqn:E.
    + assert (Hy : exists s' caps',
               String.length s' <= String.length s /\ k s' caps' = Some y).
      { apply Hstep in E as (s1 & caps1 & Hl & E).
        destruct (String.length s1 <? String.length s) eqn:Hlt; [|done].
        apply IH in E as (s2 & caps2 & Hl2 & E). exists s2, caps2.
        split; [lia|done]. }
      destruct greedy; simpl in H.
      * by injection H as <-.
      * destruct (k s caps) eqn:Ek; [|by injection H as <-].
        injection H as <-. exists s, caps. split; [lia|done].
    + exists s, caps. split; [lia|].
      destruct greedy; simpl in H; [done|]. by destruct (k s caps).
Qed.

Lemma exec_shorter r : forall s caps k x,
  Re.exec r s caps k = Some x ->
  exists s' caps', String.length s' <= String.length s /\ k s' caps' = Some x.
Proof.
  assert (Hchar : forall p s caps k x, Re.exec_char p s caps k = Some x ->
            exists s' caps', String.length s' <= String.length s /\ k s' caps' = Some x).
  { intros p [|c s] caps k x H; simpl in H; [done|].
    destruct (p c); [|done]. exists s, caps. simpl. split; [lia|done]. }
  induction r as [c| |p|r1 IH1 r2 IH2|g r1 IH1|r1 IH1|r1 IH1| |];
    intros s caps k x H; simpl in H; eauto.
  - apply IH1 in H as (s1 & caps1 & Hl1 & H).
    apply IH2 in H as (s2 & caps2 & Hl2 & H). exists s2, caps2. split; [lia|done].
  - by apply exec_star_shorter in H.
  - destruct (Re.exec r1 s caps k) eqn:E; simpl in H.
    + injection H as ->. by apply IH1 in E.
    + exists s, caps. split; [lia|done].
  - apply IH1 in H as (s1 & caps1 & Hl1 & H). eauto.
  - destruct (_ || _); [|done]. exists s, caps. split; [lia|done].
Qed.

(** A literal string is matched by comparing it with the start of the
    input. *)
Lemma exec_Str p : forall s caps k,
  Re.exec (Re.Str p) s caps k =
  if String.prefix p s then k (PyStr.drop (String.length p) s) caps else None.
Proof.
  induction p as [|c p IH]; intros s caps k.
  - by rewrite prefix_nil.
  - simpl Re.Str. simpl Re.exec. destruct s as [|b s]; [done|].
    rewrite prefix_cons. simpl Re.exec_char. destruct (Ascii.eqb c b); [|done].
    simpl. apply IH.
Qed.

(** The lazy [.*?] is [lazy_dots]. *)
Lemma exec_lazy_dots : forall n s caps k,
  String.length s <= n ->
  Re.exec_star false (Re.exec Re.Dot) n s caps k = lazy_dots (fun s1 => k s1 caps) s.
Proof.
  induction n as [|n IH]; intros s caps k Hn.
  - destruct s; [|simpl in Hn; lia]. simpl. by destruct (k "" caps).
  - destruct s as [|c s].
    + simpl. by destruct (k "" caps).
    + simpl. destruct (k (String c s) caps); [done|]. simpl.
      destruct (Ascii.eqb c nl); [done|]. simpl.
      assert ((String.length s <? S (String.length s)) = true) as ->
        by (apply Nat.ltb_lt; lia).
      apply IH. simpl in Hn. lia.
Qed.
End ExecFacts.

(** A match never leaves more input than it was given. *)
Lemma re_match_shorter (r : Re.regex) (s : string) (m : Re.match_obj) :
  Re.re_match r s = Some m -> String.length (Re.m_rest m) <= String.length s.
Proof.
  unfold Re.re_match. intros H.
  apply exec_shorter in H as (s' & caps' & Hl & H). by injection H as <-.
Qed.

(** [take_name] splits its input at the first closing brace. *)
Lemma take_name_split (s n rest : string) :
  take_name s = Some (n, rest) ->
  s = n +:+ "}" +:+ rest
  /\ PyStr.has_char "}"%char n = false /\ PyStr.has_char nl n = false.
Proof.
  revert n. induction s as [|c s IH]; intros n H; simpl in H; [done|].
  destruct (Ascii.eqb c "}") eqn:E1.
  - apply ascii_eqb_true in E1 as ->. by injection H as <- <-.
  - destruct (Ascii.eqb c nl) eqn:E2; [done|].
    destruct (take_name s) as [[n' r']|]; [|done]. injection H as <- <-.
    destruct (IH n' eq_refl) as (-> & H1 & H2). str_norm. simpl.
    by rewrite E1, E2, H1, H2.
Qed.

Lemma take_name_app (n rest : string) :
  PyStr.has_char "}"%char n = false -> PyStr.has_char nl n = false ->
  take_name (n +:+ "}" +:+ rest) = Some (n, rest).
Proof.
  induction n as [|c n IH]; [done|].
  rewrite str_app_cons. simpl.
  intros H1 H2. apply orb_false_iff in H1 as [-> H1], H2 as [-> H2].
  by rewrite IH.
Qed.

(** Text after the marker does not change what is read. *)
Lemma take_name_app_r (s x n rest : string) :
  take_name s = Some (n, rest) -> take_name (s +:+ x) = Some (n, rest +:+ x).
Proof.
  intros H. apply take_name_split in H as (-> & H1 & H2).
  rewrite !str_app_assoc. by apply take_name_app.
Qed.

(** [lazy_dots] before a closing brace is [take_name]. *)
Lemma lazy_dots_close {A} (F : string -> A) (s : string) :
  lazy_dots (fun s1 =>
    match s1 with
    | String c s2 => if Ascii.eqb "}" c then Some (F s2) else None
    | EmptyString => None
    end) s =
  match take_name s with
  | Some (_, rest) => Some (F rest)
  | None => None
  end.
Proof.
  induction s as [|c s IH]; [done|]. simpl.
  rewrite (Ascii.eqb_sym c "}"). destruct (Ascii.eqb "}" c); [done|]. simpl.
  destruct (Ascii.eqb c nl); [done|]. rewrite IH.
  by destruct (take_name s) as [[? ?]|].
Qed.

(** ** What the marker patterns match *)

Lemma lazy_dots_ext {A} (K1 K2 : string -> option A) (s : string) :
  (forall x, K1 x = K2 x) -> lazy_dots K1 s = lazy_dots K2 s.
Proof.
  intros H. induction s as [|c s IH]; simpl; rewrite H; [done|].
  by rewrite IH.
Qed.

(** [re.match] with a pattern [@d{(.*?)}] is [marker_at]. *)
Lemma re_match_directive (d s : string) :
  Re.re_match (directive_re d) s =
  match marker_at d s with
  | Some (n, rest) => Some (Re.MatchObj ("@" +:+ d +:+ "{" +:+ n +:+ "}") [n] rest)
  | None => None
  end.
Proof.
  unfold Re.re_match, directive_re, marker_at.
  set (open := "@" +:+ d +:+ "{").
  change (Re.exec (Re.Cat ?r1 ?r2) s [] ?k)
    with (Re.exec r1 s [] (fun s1 caps1 => Re.exec r2 s1 caps1 k)).
  rewrite exec_Str. destruct (String.prefix open s) eqn:Hp; [|done].
  apply prefix_split in Hp. set (t := PyStr.drop (String.length open) s) in *.
  simpl Re.exec.
  etransitivity; [refine (exec_lazy_dots _ _ _ _ _); done|]. cbv beta.
  rewrite (lazy_dots_ext _ (fun s1 =>
    match s1 with
    | String c s2 =>
        if Ascii.eqb "}" c
        then Some (Re.MatchObj (PyStr.take (String.length s - String.length s2) s)
                     [PyStr.take (String.length t - S (String.length s2)) t] s2)
        else None
    | EmptyString => None
    end)); [|by intros [|c x]].
  rewrite (lazy_dots_close
    (fun s2 => Re.MatchObj (PyStr.take (String.length s - String.length s2) s)
                 [PyStr.take (String.length t - S (String.length s2)) t] s2)).
  destruct (take_name t) as [[n rest]|] eqn:Et; [|done].
  apply take_name_split in Et as (Et & _ & _). f_equal. f_equal.
  - rewrite Hp, Et.
    replace (open +:+ n +:+ "}" +:+ rest) with ((open +:+ n +:+ "}") +:+ rest)
      by (by rewrite !str_app_assoc).
    replace (String.length ((open +:+ n +:+ "}") +:+ rest) - String.length rest)
      with (String.length (open +:+ n +:+ "}")) by (rewrite !str_length_app; lia).
    rewrite take_app. unfold open. by rewrite !str_app_assoc.
  - rewrite Et.
    replace (String.length (n +:+ "}" +:+ rest) - S (String.length rest))
      with (String.length n) by (rewrite !str_length_app; simpl; lia).
    by rewrite take_app.
Qed.

(** The end-of-pass test matches exactly where the marker pattern does. *)
Lemma re_match_call_search (s : string) :
  Re.re_match call_search_re s =
  match marker_at "call" s with
  | Some (_, rest) =>
      Some (Re.MatchObj (PyStr.take (String.length s - String.length rest) s) [] rest)
  | None => None
  end.
Proof.
  unfold Re.re_match, call_search_re, marker_at.
  change ("@" +:+ "call" +:+ "{") with "@call{".
  change (Re.exec (Re.Cat ?r1 ?r2) s [] ?k)
    with (Re.exec r1 s [] (fun s1 caps1 => Re.exec r2 s1 caps1 k)).
  rewrite exec_Str. destruct (String.prefix "@call{" s) eqn:Hp; [|done].
  set (t := PyStr.drop (String.length "@call{") s).
  simpl Re.exec.
  etransitivity; [refine (exec_lazy_dots _ _ _ _ _); done|]. cbv beta.
  rewrite (lazy_dots_ext _ (fun s1 =>
    match s1 with
    | String c s2 =>
        if Ascii.eqb "}" c
        then Some (Re.MatchObj (PyStr.take (String.length s - String.length s2) s) [] s2)
        else None
    | EmptyString => None
    end)); [|by intros [|c x]].
  rewrite (lazy_dots_close
    (fun s2 => Re.MatchObj (PyStr.take (String.length s - String.length s2) s) [] s2)).
  by destruct (take_name t) as [[n rest]|].
Qed.

Lemma found_call_search (s : string) :
  Re.found (Re.re_match call_search_re s) = Re.found (Re.re_match call_re s).
Proof.
  unfold call_re. rewrite re_match_call_search, re_match_directive.
  by destruct (marker_at "call" s) as [[? ?]|].
Qed.

(** A match leaves strictly less input than it was given. *)
Lemma marker_at_shorter (d s n rest : string) :
  marker_at d s = Some (n, rest) -> String.length rest < String.length s.
Proof.
  unfold marker_at. destruct (String.prefix _ s) eqn:Hp; [|done].
  intros H. apply take_name_split in H as (H & _).
  apply prefix_split in Hp. rewrite Hp, H, !str_length_app. simpl. lia.
Qed.

Lemma marker_at_split (d s n rest : string) :
  marker_at d s = Some (n, rest) ->
  s = "@" +:+ d +:+ "{" +:+ n +:+ "}" +:+ rest
  /\ PyStr.has_char "}"%char n = false /\ PyStr.has_char nl n = false.
Proof.
  unfold marker_at. destruct (String.prefix _ s) eqn:Hp; [|done].
  intros H. apply take_name_split in H as (H & H1 & H2).
  apply prefix_split in Hp. rewrite Hp, H. by rewrite !str_app_assoc.
Qed.

Lemma marker_at_app (d n rest : string) :
  PyStr.has_char "}"%char n = false -> PyStr.has_char nl n = false ->
  marker_at d ("@" +:+ d +:+ "{" +:+ n +:+ "}" +:+ rest) = Some (n, rest).
Proof.
  intros H1 H2. unfold marker_at.
  replace ("@" +:+ d +:+ "{" +:+ n +:+ "}" +:+ rest)
    with (("@" +:+ d +:+ "{") +:+ n +:+ "}" +:+ rest) by (by rewrite !str_app_assoc).
  rewrite prefix_app, drop_app. by apply take_name_app.
Qed.

(** Text after a marker does not change the match. *)
Lemma marker_at_app_r (d s x n rest : string) :
  marker_at d s = Some (n, rest) -> marker_at d (s +:+ x) = Some (n, rest +:+ x).
Proof.
  intros H. apply marker_at_split in H as (-> & H1 & H2).
  rewrite !str_app_assoc. by apply marker_at_app.
Qed.

(** ** The scan of [findall] *)

Lemma scan_S (f : nat) (r : Re.regex) (s : string) :
  Re.scan (S f) r s =
  match Re.re_match r s with
  | Some m =>
      m :: (if String.eqb (Re.m_text m) ""
            then match s with EmptyString => [] | String _ s' => Re.scan f r s' end
            else Re.scan f r (Re.m_rest m))
  | None => match s with EmptyString => [] | String _ s' => Re.scan f r s' end
  end.
Proof. reflexivity. Qed.

(** The marker patterns never match the empty string, and the scan does
    not depend on its fuel once there is enough of it. *)
Lemma scan_directive_irrel (d : string) : forall f1 f2 s,
  String.length s < f1 -> String.length s < f2 ->
  Re.scan f1 (directive_re d) s = Re.scan f2 (directive_re d) s.
Proof.
  induction f1 as [|f1 IH]; intros f2 s H1 H2; [lia|].
  destruct f2 as [|f2]; [lia|]. rewrite !scan_S.
  rewrite re_match_directive.
  destruct (marker_at d s) as [[n rest]|] eqn:Em.
  - pose proof (marker_at_shorter _ _ _ _ Em) as Hlt.
    simpl Re.m_text. simpl Re.m_rest.
    change (String.eqb ("@" +:+ d +:+ "{" +:+ n +:+ "}") "") with false.
    f_equal. apply IH; lia.
  - destruct s as [|c s]; [done|]. simpl in H1, H2. apply IH; lia.
Qed.

Lemma findall1_directive_nil (d : string) : Re.findall1 (directive_re d) "" = [].
Proof.
  unfold Re.findall1, Re.finditer. cbn [Re.scan String.length].
  rewrite re_match_directive. unfold marker_at. by destruct d.
Qed.

(** The scan, one position at a time. *)
Lemma finditer_directive_cons (d : string) (c : ascii) (s : string) :
  Re.finditer (directive_re d) (String c s) =
  match marker_at d (String c s) with
  | Some (n, rest) =>
      Re.MatchObj ("@" +:+ d +:+ "{" +:+ n +:+ "}") [n] rest
      :: Re.finditer (directive_re d) rest
  | None => Re.finditer (directive_re d) s
  end.
Proof.
  unfold Re.finditer at 1. rewrite scan_S.
  rewrite re_match_directive.
  destruct (marker_at d (String c s)) as [[n rest]|] eqn:Em.
  - pose proof (marker_at_shorter _ _ _ _ Em) as Hlt. simpl in Hlt.
    simpl Re.m_text. simpl Re.m_rest.
    change (String.eqb ("@" +:+ d +:+ "{" +:+ n +:+ "}") "") with false.
    f_equal. apply scan_directive_irrel; simpl; lia.
  - done.
Qed.

Lemma findall1_directive_cons (d : string) (c : ascii) (s : string) :
  Re.findall1 (directive_re d) (String c s) =
  match marker_at d (String c s) with
  | Some (n, rest) => n :: Re.findall1 (directive_re d) rest
  | None => Re.findall1 (directive_re d) s
  end.
Proof.
  unfold Re.findall1. rewrite finditer_directive_cons.
  by destruct (marker_at d (String c s)) as [[n rest]|].
Qed.

Lemma no_marker_tail (d : string) (c : ascii) (s : string) :
  no_marker d (String c s) -> no_marker d s.
Proof. intros H a t ->. by apply (H (String c a) t). Qed.

Lemma findall1_no_marker (d s : string) :
  no_marker d s -> Re.findall1 (directive_re d) s = [].
Proof.
  induction s as [|c s IH]; intros H; [apply findall1_directive_nil|].
  rewrite findall1_directive_cons, (H "" (String c s)) by done.
  apply IH. by eapply no_marker_tail.
Qed.

Lemma re_search_none (r : Re.regex) (s : string) :
  Re.re_search r s = None <-> forall a t, s = a +:+ t -> Re.re_match r t = None.
Proof.
  induction s as [|c s IH]; simpl.
  - split.
    + intros H a t Ht. destruct a; [|done]. rewrite str_app_nil_l in Ht. subst t.
      by destruct (Re.re_match r "").
    + intros H. by rewrite (H "" "").
  - split.
    + intros H a t Ht. destruct (Re.re_match r (String c s)) eqn:Em; [done|].
      destruct a as [|c' a].
      * rewrite str_app_nil_l in Ht. by subst t.
      * rewrite str_app_cons in Ht. injection Ht as _ ->.
        by apply (proj1 IH H a t).
    + intros H. rewrite (H "" (String c s)) by done. apply IH.
      intros a t ->. by apply (H (String c a) t).
Qed.

(** When the end-of-pass test finds nothing, the text has no marker. *)
Lemma search_none_no_marker (s : string) :
  Re.re_search call_search_re s = None -> no_marker "call" s.
Proof.
  intros H a t Ht. pose proof (proj1 (re_search_none _ _) H a t Ht) as Hm.
  rewrite re_match_call_search in Hm.
  by destruct (marker_at "call" t) as [[? ?]|].
Qed.

Lemma no_marker_search_none (s : string) :
  no_marker "call" s -> Re.re_search call_search_re s = None.
Proof.
  intros H. apply re_search_none. intros a t Ht.
  rewrite re_match_call_search. by rewrite (H a t Ht).
Qed.

(** A piece of a text without a marker has no marker. *)
Lemma no_marker_piece (d a s b : string) :
  no_marker d (a +:+ s +:+ b) -> no_marker d s.
Proof.
  intros H a' t ->. destruct (marker_at d t) as [[n rest]|] eqn:Em; [|done].
  apply (marker_at_app_r _ _ b) in Em.
  rewrite (H (a +:+ a') (t +:+ b)) in Em; [done|]. by rewrite !str_app_assoc.
Qed.

(** Each name [findall] returns sits in a marker of the text, and has
    neither a closing brace nor a newline in it. *)
Lemma findall1_directive_elem (d : string) : forall s n,
  In n (Re.findall1 (directive_re d) s) ->
  (exists a b, s = a +:+ ("@" +:+ d +:+ "{" +:+ n +:+ "}") +:+ b)
  /\ PyStr.has_char "}"%char n = false /\ PyStr.has_char nl n = false.
Proof.
  intros s. remember (String.length s) as len eqn:Hlen.
  revert s Hlen. induction len as [len IH] using lt_wf_ind. intros s -> n.
  destruct s as [|c s]; [by rewrite findall1_directive_nil|].
  rewrite findall1_directive_cons.
  destruct (marker_at d (String c s)) as [[n' rest]|] eqn:Em.
  - pose proof (marker_at_shorter _ _ _ _ Em) as Hlt.
    apply marker_at_split in Em as (Es & H1 & H2).
    intros [<-|Hin].
    + split; [|done]. exists "", rest. by rewrite Es, !str_app_assoc.
    + destruct (IH _ Hlt rest eq_refl n Hin) as ((a & b & ->) & H3 & H4).
      split; [|done]. exists ("@" +:+ d +:+ "{" +:+ n' +:+ "}" +:+ a), b.
      rewrite Es. by rewrite !str_app_assoc.
  - intros Hin.
    destruct (IH (String.length s) ltac:(simpl; lia) s eq_refl n Hin)
      as ((a & b & ->) & H3 & H4).
    split; [|done]. by exists (String c a), b.
Qed.

(** ** [str.replace] *)

Lemma replace_go_skip (old new : string) : forall u s,
  PyStr.replace_go old new (String.length u) (u +:+ s) = PyStr.replace_go old new 0 s.
Proof.
  induction u as [|c u IH]; intros s; [by destruct s|].
  rewrite str_app_cons. simpl. apply IH.
Qed.

Lemma replace_go_match (old new s : string) :
  old <> "" -> String.prefix old s = true ->
  PyStr.replace_go old new 0 s =
  new +:+ PyStr.replace_go old new 0 (PyStr.drop (String.length old) s).
Proof.
  intros Hne Hp. pose proof (prefix_split _ _ Hp) as Hs.
  destruct old as [|c old]; [done|]. destruct s as [|b s]; [done|].
  cbn [PyStr.replace_go]. rewrite Hp. f_equal.
  rewrite str_app_cons in Hs. injection Hs as _ Hs.
  cbn [String.length PyStr.drop] in *.
  replace (S (String.length old) - 1) with (String.length old) by lia.
  rewrite Hs at 1. apply replace_go_skip.
Qed.

Lemma replace_go_nomatch (old new : string) (c : ascii) (s : string) :
  String.prefix old (String c s) = false ->
  PyStr.replace_go old new 0 (String c s) = String c (PyStr.replace_go old new 0 s).
Proof. intros H. cbn [PyStr.replace_go]. by rewrite H. Qed.

Lemma replace_go_absent (old new s : string) :
  PyStr.occurs old s = false -> PyStr.replace_go old new 0 s = s.
Proof.
  induction s as [|c s IH]; [done|]. cbn [PyStr.occurs].
  intros H. apply orb_false_iff in H as [H1 H2].
  rewrite replace_go_nomatch by done. by rewrite IH.
Qed.

Lemma replace_nonempty (s old new : string) :
  old <> "" -> PyStr.replace s old new = PyStr.replace_go old new 0 s.
Proof. by destruct old. Qed.

Lemma occurs_prefix (p q s : string) :
  String.prefix p q = true -> PyStr.occurs p s = false -> PyStr.occurs q s = false.
Proof.
  intros Hpq. induction s as [|c s IH]; cbn [PyStr.occurs]; intros H;
    apply orb_false_iff in H as [H1 H2]; apply orb_false_iff; split; auto.
  - destruct (String.prefix q "") eqn:E; [|done].
    by rewrite (prefix_trans _ _ _ Hpq E) in H1.
  - destruct (String.prefix q (String c s)) eqn:E; [|done].
    by rewrite (prefix_trans _ _ _ Hpq E) in H1.
Qed.

(** ** One pass of the expander *)

(** A line without a marker is left as it is, and nothing is printed. *)
Lemma process_line_no_marker (cb : pydict FileBlock) (line : string) :
  no_marker "call" line -> process_line cb line = (line, []).
Proof.
  intros H. unfold process_line, call_re. by rewrite findall1_no_marker.
Qed.

Lemma join_map_id {A} (f : A -> string * list string) (sep : string)
    (l : list A) (g : A -> string) :
  (forall x, In x l -> f x = (g x, [])) ->
  map fst (map f l) = map g l /\ concat (map snd (map f l)) = [].
Proof.
  induction l as [|x l IH]; intros H; [done|].
  destruct IH as [IH1 IH2]; [intros y Hy; apply H; by right|].
  simpl. rewrite (H x) by (by left). simpl. by rewrite IH1, IH2.
Qed.

(** A text without a marker is a fixed point of a pass. *)
Lemma one_pass_no_marker (cb : pydict FileBlock) (content : string) :
  no_marker "call" content -> one_pass cb content = (content, []).
Proof.
  intros H. unfold one_pass.
  destruct (join_map_id (process_line cb) (String nl "")
              (PyStr.split nl content) id) as [H1 H2].
  - intros line Hin. apply process_line_no_marker.
    destruct (split_elem_of _ _ _ Hin) as (a & b & Hs).
    rewrite Hs in H. by eapply no_marker_piece.
  - rewrite H1, H2, map_id. by rewrite join_split.
Qed.

Lemma replace_calls_unfold (fuel : nat) (content : string)
    (cb : pydict FileBlock) (index max_index : Z) :
  replace_calls fuel content cb index max_index =
  let (block_text, out) := one_pass cb content in
  if ((max_index =? -1)%Z || (index <? max_index)%Z)
     && Re.found (Re.re_search call_search_re block_text)
  then
    match fuel with
    | 0 => None
    | S fuel' =>
        match replace_calls fuel' block_text cb (index + 1) max_index with
        | Some r =>
            Some {| text := text r; printed := out ++ printed r;
                    passes := S (passes r) |}
        | None => None
        end
    end
  else Some {| text := block_text; printed := out; passes := 1 |}.
Proof. by destruct fuel. Qed.

(** Expanding a text in which the end-of-pass test finds no marker
    returns the text, whatever the registry, the index and the limit. *)
Lemma replace_calls_fixed_point (fuel : nat) (content : string)
    (cb : pydict FileBlock) (index max_index : Z) :
  Re.re_search call_search_re content = None ->
  replace_calls fuel content cb index max_index =
  Some {| text := content; printed := []; passes := 1 |}.
Proof.
  intros H. rewrite replace_calls_unfold.
  rewrite one_pass_no_marker by (by apply search_none_no_marker).
  by rewrite H, andb_false_r.
Qed.

(** The expansion depends on the registry only through the content
    stored under each name. *)
Lemma call_step_same_contents (cb1 cb2 : pydict FileBlock) (w : Z)
    (st : string * list string) (call : string) :
  same_contents cb1 cb2 -> call_step cb1 w st call = call_step cb2 w st call.
Proof.
  intros H. unfold call_step. destruct st as [u p].
  specialize (H (PyStr.strip call)).
  destruct (dict_get cb1 _) as [b1|], (dict_get cb2 _) as [b2|]; simpl in H;
    try done. by injection H as ->.
Qed.

Lemma process_line_same_contents (cb1 cb2 : pydict FileBlock) (line : string) :
  same_contents cb1 cb2 -> process_line cb1 line = process_line cb2 line.
Proof.
  intros H. unfold process_line.
  generalize (line, @nil string) as st.
  induction (Re.findall1 call_re line) as [|c l IH]; intros st; [done|].
  simpl. rewrite (call_step_same_contents cb1 cb2) by done. apply IH.
Qed.

Lemma one_pass_same_contents (cb1 cb2 : pydict FileBlock) (content : string) :
  same_contents cb1 cb2 -> one_pass cb1 content = one_pass cb2 content.
Proof.
  intros H. unfold one_pass.
  replace (map (process_line cb1) (PyStr.split nl content))
    with (map (process_line cb2) (PyStr.split nl content)); [done|].
  apply map_ext. intros line. symmetry. by apply process_line_same_contents.
Qed.

Lemma replace_calls_same_contents (cb1 cb2 : pydict FileBlock) :
  same_contents cb1 cb2 ->
  forall fuel content index max_index,
    replace_calls fuel content cb1 index max_index =
    replace_calls fuel content cb2 index max_index.
Proof.
  intros H fuel. induction fuel as [|fuel IH]; intros content index max_index;
    rewrite !replace_calls_unfold, (one_pass_same_contents cb1 cb2) by done;
    destruct (one_pass cb2 content) as [bt out]; [done|].
  by rewrite IH.
Qed.

(** With a limit that is not the sentinel, the recursion ends within
    [max_index - index] calls, whatever the registry holds. *)
Lemma replace_calls_bounded (cb : pydict FileBlock) (max_index : Z) :
  forall n fuel content index,
    (index <= max_index)%Z -> n = Z.to_nat (max_index - index) -> n <= fuel ->
    (0 <= max_index)%Z ->
    exists r, replace_calls fuel content cb index max_index = Some r
              /\ passes r <= S n.
Proof.
  induction n as [|n IH]; intros fuel content index Hle Hn Hfuel Hmax;
    rewrite replace_calls_unfold; destruct (one_pass cb content) as [bt out].
  - assert ((max_index =? -1)%Z = false) as -> by lia.
    assert ((index <? max_index)%Z = false) as -> by lia.
    simpl. eexists. split; [done|simpl; lia].
  - destruct (_ && _); [|eexists; split; [done|simpl; lia]].
    destruct fuel as [|fuel]; [lia|].
    destruct (IH fuel bt (index + 1)%Z) as (r & -> & Hp); try lia.
    eexists. split; [done|simpl; lia].
Qed.

(** ** Termination of the expander *)

(** With a limit [max_index >= 0], a recursion depth of [max_index] is
    enough for [replace_calls] to return, after at most [max_index + 1]
    passes. *)
Lemma replace_calls_returns (content : string)
    (code_blocks : pydict FileBlock) (max_index : Z) (fuel : nat) :
  (0 <= max_index)%Z ->
  Z.to_nat max_index <= fuel ->
  exists r, replace_calls fuel content code_blocks 0 max_index = Some r
            /\ passes r <= Z.to_nat max_index + 1.
Proof.
  intros Hmax Hfuel.
  assert (Hn : Z.to_nat max_index = Z.to_nat (max_index - 0))
    by (by rewrite Z.sub_0_r).
  destruct (replace_calls_bounded code_blocks max_index (Z.to_nat max_index)
              fuel content 0 Hmax Hn Hfuel Hmax) as (r & Hr & Hp).
  exists r. split; [done|lia].
Qed.

(** C4, as amended. For every content and every registry, cyclic or
    not, [replace_calls] called with a limit [max_index >= 0] returns: a
    recursion depth of [max_index] is enough, and the number of passes is
    at most [max_index + 1], the first pass and at most [max_index]
    repetitions. Reaching the limit is not an error: a text is returned in
    every case. *)
Theorem replace_calls_terminates (content : string)
    (code_blocks : pydict FileBlock) (max_index : Z) (fuel : nat) :
  (0 <= max_index)%Z ->
  Z.to_nat max_index <= fuel ->
  exists r, replace_calls fuel content code_blocks 0 max_index = Some r
            /\ passes r <= Z.to_nat max_index + 1.
Proof.
  intros Hmax Hfuel.
  destruct (replace_calls_bounded code_blocks max_index (Z.to_nat max_index)
              fuel content 0) as (r & Hr & Hp);
    [done|by rewrite Z.sub_0_r|done|done|].
  exists r. split; [exact Hr|]. rewrite Nat.add_1_r. exact Hp.
Qed.

Lemma replace_calls_terminates_witness :
  exists r, replace_calls 12 "@call{a}" cyclic_registry 0 12 = Some r
            /\ passes r <= Z.to_nat 12 + 1.
Proof. apply (replace_calls_terminates "@call{a}" cyclic_registry 12 12); lia. Defined.

(** C4 as stated fails: on two fragments that reference each other the
    default limit 12 lets 13 passes run, and the text returned still has
    a marker in it. *)
Lemma replace_calls_passes_exceed_limit :
  exists r, replace_calls 12 "@call{a}" cyclic_registry 0 default_max_index = Some r
            /\ passes r = 13
            /\ ~ (passes r <= Z.to_nat default_max_index)
            /\ text r = "A B A B A B A B A B A B A @call{b}".
Proof.
  eexists. split; [vm_compute; reflexivity|]. cbn [passes text].
  split; [done|]. split; [|done]. unfold default_max_index. lia.
Qed.

(** ** Determinism and the fixed point *)

(** C5. The result of [replace_calls] is a function of the content and
    of the contents the registry holds under each name; and when the
    returned text is fully expanded (the end-of-pass test finds no marker
    in it), expanding it again returns it unchanged, in one pass, printing
    nothing. *)
Theorem replace_calls_deterministic_idempotent (fuel : nat) (content : string)
    (cb1 cb2 : pydict FileBlock) (index max_index : Z) (r : expansion) :
  same_contents cb1 cb2 ->
  replace_calls fuel content cb1 index max_index = Some r ->
  Re.re_search call_search_re (text r) = None ->
  replace_calls fuel content cb2 index max_index = Some r
  /\ forall fuel' index' max_index',
       replace_calls fuel' (text r) cb2 index' max_index' =
       Some {| text := text r; printed := []; passes := 1 |}.
Proof.
  intros Hsame Hr Hfull. split.
  - by rewrite <- (replace_calls_same_contents cb1 cb2).
  - intros fuel' index' max_index'. by apply replace_calls_fixed_point.
Qed.

Lemma replace_calls_deterministic_idempotent_witness :
  replace_calls 12 main_content helper_registry' 0 12 =
    Some {| text := "print(1)
print(2)"; printed := []; passes := 1 |}
  /\ forall fuel' index' max_index',
       replace_calls fuel' "print(1)
print(2)" helper_registry' index' max_index' =
       Some {| text := "print(1)
print(2)"; printed := []; passes := 1 |}.
Proof.
  apply (replace_calls_deterministic_idempotent 12 main_content
           helper_registry helper_registry' 0 12
           {| text := "print(1)
print(2)"; printed := []; passes := 1 |}).
  - intros k. unfold helper_registry, helper_registry'. simpl.
    by destruct (String.eqb "helper" k).
  - vm_compute. reflexivity.
  - vm_compute. reflexivity.
Defined.

(** ** The directory setters *)

(** C6, as amended. A non-empty value that does not end in the separator
    makes both setters raise [ValueError]; a value that ends in it is
    stored as it is. *)
Theorem set_dir_checks_separator (c : Container) (dir : string) :
  dir <> "" ->
  if PyStr.endswith dir "/" then
    set_code_dir c dir = ret (with_code_dir c dir)
    /\ code_dir (with_code_dir c dir) = dir
    /\ set_doc_dir c dir = ret (with_doc_dir c dir)
    /\ doc_dir (with_doc_dir c dir) = dir
  else
    set_code_dir c dir = raise (ValueError "Code directory must end with a '/'")
    /\ set_doc_dir c dir = raise (ValueError "Documentation directory must end with a '/'").
Proof.
  intros Hne. unfold set_code_dir, set_doc_dir.
  apply String.eqb_neq in Hne. rewrite Hne.
  by destruct (PyStr.endswith dir "/").
Qed.

Lemma set_dir_checks_separator_witness :
  (set_code_dir (fresh_container "doc") "code/"
     = ret (with_code_dir (fresh_container "doc") "code/")
   /\ code_dir (with_code_dir (fresh_container "doc") "code/") = "code/"
   /\ set_doc_dir (fresh_container "doc") "code/"
     = ret (with_doc_dir (fresh_container "doc") "code/")
   /\ doc_dir (with_doc_dir (fresh_container "doc") "code/") = "code/")
  /\ (set_code_dir (fresh_container "doc") "code"
        = raise (ValueError "Code directory must end with a '/'")
      /\ set_doc_dir (fresh_container "doc") "code"
        = raise (ValueError "Documentation directory must end with a '/'")).
Proof.
  split.
  - apply (set_dir_checks_separator (fresh_container "doc") "code/"). discriminate.
  - apply (set_dir_checks_separator (fresh_container "doc") "code"). discriminate.
Defined.

(** C6 as stated fails on the empty value: it does not end in the
    separator, and neither setter raises. *)
Lemma set_dir_empty_does_not_raise :
  ~ (forall (c : Container) (dir : string),
       PyStr.endswith dir "/" = false ->
       (exists msg, set_code_dir c dir = raise (ValueError msg))
       /\ (exists msg, set_doc_dir c dir = raise (ValueError msg))).
Proof.
  intros H. destruct (H (fresh_container "doc") "" eq_refl) as [[msg Hc] _].
  discriminate Hc.
Qed.

Lemma add_local_links_dirs (fs : FileSystem) (links : list string) :
  forall c,
    match add_local_links fs c links with
    | inl (ValueError _) => False
    | inl _ => True
    | inr c' => code_dir c' = code_dir c /\ doc_dir c' = doc_dir c
    end.
Proof.
  unfold add_local_links.
  induction links as [|link links IH]; intros c; simpl; [done|].
  unfold list_item.
  destruct (PyStr.split_ws link !! 0) as [t|]; simpl; [|done].
  destruct (PyStr.split_ws link !! 1) as [a|]; simpl; [|done].
  unfold add_llink. destruct (negb (exists_ fs a)); simpl; [done|].
  apply (IH (with_local_link c (local_link c ++ [[t; a]]))).
Qed.

Lemma add_web_links_dirs (links : list string) :
  forall c,
    match add_web_links c links with
    | inl (ValueError _) => False
    | inl _ => True
    | inr c' => code_dir c' = code_dir c /\ doc_dir c' = doc_dir c
    end.
Proof.
  unfold add_web_links.
  induction links as [|link links IH]; intros c; simpl; [done|].
  unfold list_item.
  destruct (PyStr.split_ws link !! 0) as [t|]; simpl; [|done].
  destruct (PyStr.split_ws link !! 1) as [a|]; simpl; [|done].
  apply (IH (add_wlink c t a)).
Qed.

(** C9. With the empty string the setters return without raising and
    leave the container as it is, although the empty string does not end
    in the separator. So when a document has no directory directive, or
    an empty one, the metadata pass raises no [ValueError] and the
    directories keep their initial value, the empty string. *)
Theorem empty_dir_is_accepted (fs : FileSystem) (filename text : string)
    (c : Container) :
  Container_init fs filename = ret c ->
  extract_last_match (directive_re "documentation_folder") text = "" ->
  extract_last_match (directive_re "code_folder") text = "" ->
  PyStr.endswith "" "/" = false
  /\ set_code_dir c "" = ret c /\ set_doc_dir c "" = ret c
  /\ code_dir c = "" /\ doc_dir c = ""
  /\ (forall msg, parse_metadata fs c text <> raise (ValueError msg))
  /\ (forall c', parse_metadata fs c text = ret c' ->
        code_dir c' = "" /\ doc_dir c' = "").
Proof.
  intros Hinit Hdoc Hcode.
  assert (Hc : code_dir c = "" /\ doc_dir c = "").
  { unfold Container_init in Hinit.
    destruct (isdir fs filename); [done|].
    destruct (negb (exists_ fs filename)); [done|]. by injection Hinit as <-. }
  destruct Hc as [Hc1 Hc2].
  do 5 (split; [done|]).
  unfold parse_metadata. rewrite Hdoc, Hcode.
  unfold set_doc_dir, set_code_dir. cbn [String.eqb bind ret].
  change (String.eqb "" "") with true. cbn [bind ret].
  set (c1 := with_web_script _ _).
  pose proof (add_local_links_dirs fs
                (Re.findall1 (directive_re "local_link") text) c1) as Hl.
  destruct (add_local_links fs c1 _) as [e|c2] eqn:E2; cbn [bind].
  - split; [|done]. intros msg [= ->]. done.
  - pose proof (add_web_links_dirs
                  (Re.findall1 (directive_re "web_link") text) c2) as Hw.
    destruct (add_web_links c2 _) as [e|c3] eqn:E3.
    + split; [|done]. intros msg [= ->]. done.
    + split; [done|]. intros c' [= <-].
      destruct Hw as [Hw1 Hw2], Hl as [Hl1 Hl2]. rewrite Hw1, Hw2, Hl1, Hl2.
      subst c1. cbn. by rewrite Hc1, Hc2.
Qed.

Lemma empty_dir_is_accepted_witness :
  PyStr.endswith "" "/" = false
  /\ set_code_dir (fresh_container "doc") "" = ret (fresh_container "doc")
  /\ set_doc_dir (fresh_container "doc") "" = ret (fresh_container "doc")
  /\ code_dir (fresh_container "doc") = "" /\ doc_dir (fresh_container "doc") = ""
  /\ (forall msg,
        parse_metadata (sample_fs "@code_folder{} text") (fresh_container "doc")
          "@code_folder{} text" <> raise (ValueError msg))
  /\ (forall c',
        parse_metadata (sample_fs "@code_folder{} text") (fresh_container "doc")
          "@code_folder{} text" = ret c' ->
        code_dir c' = "" /\ doc_dir c' = "").
Proof.
  apply (empty_dir_is_accepted (sample_fs "@code_folder{} text") "doc.md"
           "@code_folder{} text" (fresh_container "doc")).
  - vm_compute. reflexivity.
  - vm_compute. reflexivity.
  - vm_compute. reflexivity.
Defined.

(** ** Replacing a text that ends in its only closing brace

    [o] and [e] have no closing brace; the text [o}] is replaced by
    [e}], where [e] is longer than [o] and does not end in [o]. After the
    replacement no [o}] is left. *)

Section ReplaceClosed.
Context (o e : string).
Hypothesis Ho : PyStr.has_char "}"%char o = false.
Hypothesis He : PyStr.has_char "}"%char e = false.
Hypothesis Hlen : String.length o < String.length e.
Hypothesis Hsuf : forall u v, e = u +:+ v -> v <> o.

Let old : string := o +:+ "}".
Let new : string := e +:+ "}".







End ReplaceClosed.

(** ** Markers in a line *)


(** The opening of a marker cannot start inside text that has no
    opening and run over into a following marker. *)
Lemma prefix_open_border (a x : string) :
  a <> "" -> PyStr.occurs "@call{" a = false ->
  String.prefix "@call{" (a +:+ "@call{" +:+ x) = false.
Proof.
  intros Ha Hocc.
  assert (Hp : String.prefix "@call{" a = false).
  { destruct a; [done|]. cbn [PyStr.occurs] in Hocc.
    by apply orb_false_iff in Hocc as [-> _]. }
  destruct (String.prefix "@call{" (a +:+ "@call{" +:+ x)) eqn:E; [|done].
  exfalso. clear Hocc.
  destruct a as [|c1 [|c2 [|c3 [|c4 [|c5 [|c6 a]]]]]]; [done|..];
    str_norm_in E; rewrite ?prefix_cons in E, Hp;
    repeat match type of E with
           | (_ && _) = true => apply andb_true_iff in E as [? E]
           end;
    repeat match goal with
           | H : Ascii.eqb ?u ?v = true |- _ =>
               first [ by vm_compute in H
                     | rewrite H in Hp; clear H ]
           end;
    try done.
  rewrite prefix_nil in Hp. done.
Qed.

Lemma no_open_tail (c : ascii) (s : string) :
  PyStr.occurs "@call{" (String c s) = false -> PyStr.occurs "@call{" s = false.
Proof. cbn [PyStr.occurs]. intros H. by apply orb_false_iff in H as [_ H]. Qed.

Lemma no_open_no_marker (s : string) :
  PyStr.occurs "@call{" s = false -> no_marker "call" s.
Proof.
  induction s as [|c s IH]; intros H a t Ht.
  - destruct a; [|done]. by rewrite str_app_nil_l in Ht; subst t.
  - destruct a as [|c' a].
    + rewrite str_app_nil_l in Ht. subst t. unfold marker_at.
      change ("@" +:+ "call" +:+ "{") with "@call{".
      cbn [PyStr.occurs] in H. by apply orb_false_iff in H as [-> _].
    + rewrite str_app_cons in Ht. injection Ht as _ ->.
      apply (IH (no_open_tail _ _ H) a t eq_refl).
Qed.

Lemma marker_at_none_before (a x : string) :
  a <> "" -> PyStr.occurs "@call{" a = false ->
  marker_at "call" (a +:+ "@call{" +:+ x) = None.
Proof.
  intros Ha Hocc. unfold marker_at.
  change ("@" +:+ "call" +:+ "{") with "@call{".
  by rewrite prefix_open_border.
Qed.

Lemma call_marker_app (n b : string) :
  call_marker n +:+ b = "@call{" +:+ n +:+ "}" +:+ b.
Proof. unfold call_marker. by rewrite !str_app_assoc. Qed.

(** A line with one marker: [findall] returns its name. *)
Lemma findall1_single_marker (a n b : string) :
  PyStr.occurs "@call{" a = false -> PyStr.occurs "@call{" b = false ->
  PyStr.has_char "}"%char n = false -> PyStr.has_char nl n = false ->
  Re.findall1 call_re (a +:+ call_marker n +:+ b) = [n].
Proof.
  intros Ha Hb Hn1 Hn2. unfold call_re.
  induction a as [|c a IH].
  - rewrite str_app_nil_l, call_marker_app.
    change ("@call{" +:+ n +:+ "}" +:+ b)
      with (String "@" ("call{" +:+ n +:+ "}" +:+ b)).
    rewrite findall1_directive_cons.
    change (String "@" ("call{" +:+ n +:+ "}" +:+ b))
      with ("@" +:+ "call" +:+ "{" +:+ n +:+ "}" +:+ b).
    rewrite marker_at_app by done. f_equal.
    apply findall1_no_marker. by apply no_open_no_marker.
  - rewrite str_app_cons, findall1_directive_cons, <- str_app_cons.
    rewrite call_marker_app, marker_at_none_before by done.
    rewrite <- call_marker_app. apply IH. by eapply no_open_tail.
Qed.

(** A line with one marker: [replace] puts the new text in its place. *)
Lemma replace_single_marker (a n b new : string) :
  PyStr.occurs "@call{" a = false -> PyStr.occurs "@call{" b = false ->
  PyStr.replace (a +:+ call_marker n +:+ b) (call_marker n) new = a +:+ new +:+ b.
Proof.
  intros Ha Hb. rewrite replace_nonempty by done.
  assert (Hpre : String.prefix "@call{" (call_marker n) = true)
    by (unfold call_marker; apply prefix_app).
  induction a as [|c a IH].
  - rewrite !str_app_nil_l.
    rewrite replace_go_match by (done || apply prefix_app).
    rewrite drop_app. f_equal. apply replace_go_absent.
    by apply (occurs_prefix "@call{").
  - rewrite !str_app_cons. rewrite replace_go_nomatch.
    + f_equal. apply IH. by eapply no_open_tail.
    + destruct (String.prefix (call_marker n) _) eqn:E; [|done].
      apply (prefix_trans _ _ _ Hpre) in E. rewrite <- str_app_cons in E.
      rewrite call_marker_app in E. by rewrite prefix_open_border in E.
Qed.

(** ** The loop over the markers of a line *)

Lemma process_line_split (cb : pydict FileBlock) (line : string)
    (calls1 calls2 : list string) (call : string) :
  Re.findall1 call_re line = calls1 ++ call :: calls2 ->
  process_line cb line =
  fold_left (call_step cb (indent_of line)) calls2
    (call_step cb (indent_of line)
       (fold_left (call_step cb (indent_of line)) calls1 (line, [])) call).
Proof. intros H. unfold process_line. by rewrite H, fold_left_app. Qed.

Lemma call_step_printed (cb : pydict FileBlock) (w : Z)
    (st : string * list string) (call d : string) :
  In d (snd st) -> In d (snd (call_step cb w st call)).
Proof.
  unfold call_step. destruct st as [u p]. simpl.
  destruct (dict_get cb _); simpl; [done|]. intros H. apply in_or_app. by left.
Qed.

Lemma fold_call_step_printed (cb : pydict FileBlock) (w : Z) (calls : list string) :
  forall st d, In d (snd st) -> In d (snd (fold_left (call_step cb w) calls st)).
Proof.
  induction calls as [|c calls IH]; intros st d H; [done|].
  simpl. apply IH. by apply call_step_printed.
Qed.

Lemma one_pass_printed (cb : pydict FileBlock) (content line d : string) :
  In line (PyStr.split nl content) -> In d (snd (process_line cb line)) ->
  In d (snd (one_pass cb content)).
Proof.
  intros Hl Hd. unfold one_pass. simpl. apply in_concat.
  exists (snd (process_line cb line)). split; [|done].
  rewrite map_map. apply in_map_iff. by exists line.
Qed.

Lemma replace_calls_printed (cb : pydict FileBlock) (fuel : nat)
    (content : string) (index max_index : Z) (r : expansion) (d : string) :
  replace_calls fuel content cb index max_index = Some r ->
  In d (snd (one_pass cb content)) -> In d (printed r).
Proof.
  rewrite replace_calls_unfold. destruct (one_pass cb content) as [bt out]. simpl.
  destruct (_ && _).
  - destruct fuel as [|fuel]; [done|].
    destruct (replace_calls fuel bt cb (index + 1) max_index) as [r'|]; [|done].
    intros [= <-] Hd. simpl. apply in_or_app. by left.
  - by intros [= <-].
Qed.

(** The step taken for an unresolved marker. *)
Lemma call_step_unresolved (cb : pydict FileBlock) (w : Z)
    (st : string * list string) (call : string) :
  dict_get cb (PyStr.strip call) = None ->
  call_step cb w st call =
  (PyStr.replace (fst st) (call_marker call) (error_marker call),
   snd st ++ [diagnostic call]).
Proof. intros H. unfold call_step. destruct st. by rewrite H. Qed.

(** [add_indent(content, w + 1)]: the first line as it is, every other
    line behind [w] spaces. *)
Lemma add_indent_lines (block_content l0 : string) (rest : list string) (w : nat) :
  PyStr.split nl block_content = l0 :: rest ->
  add_indent block_content (Z.of_nat w + 1) =
  PyStr.join (String nl "") (l0 :: map (fun l => PyStr.spaces w +:+ l) rest).
Proof.
  intros H. unfold add_indent. rewrite H. simpl hd. simpl tl.
  by replace (Z.to_nat (Z.of_nat w + 1 - 1)) with w by lia.
Qed.

Lemma indent_of_nonneg (line : string) : (0 <= indent_of line)%Z.
Proof.
  unfold indent_of.
  assert (String.length (PyStr.lstrip line) <= String.length line); [|lia].
  unfold PyStr.lstrip. induction line as [|c s IH]; simpl; [done|].
  destruct (is_space c); simpl; lia.
Qed.

Lemma app_cons_single {A} (l1 l2 : list A) (x y : A) :
  l1 ++ x :: l2 = [y] -> l1 = [] /\ l2 = [] /\ x = y.
Proof.
  destruct l1 as [|a l1]; simpl; intros H.
  - by injection H as -> ->.
  - injection H as _ H. by destruct l1.
Qed.

(** ** Resolved markers: the spliced content and its indentation *)

(** C2, as amended. On a line whose leading white space is [w]
    characters wide, the text spliced in for a resolvable marker is the
    fragment's content with its first line as it is and every other line
    behind [w] more spaces (not [w + 1]). When the marker is the only one
    on the line, the line becomes what came before the marker, the
    spliced text, and what came after. *)
Theorem resolved_marker_is_indented (code_blocks : pydict FileBlock)
    (line call : string) (calls1 calls2 : list string) (block : FileBlock)
    (l0 : string) (rest : list string) (w : nat) :
  Re.findall1 call_re line = calls1 ++ call :: calls2 ->
  dict_get code_blocks (PyStr.strip call) = Some block ->
  PyStr.split nl (content block) = l0 :: rest ->
  indent_of line = Z.of_nat w ->
  let st := fold_left (call_step code_blocks (indent_of line)) calls1 (line, []) in
  let spliced :=
    PyStr.join (String nl "") (l0 :: map (fun l => PyStr.spaces w +:+ l) rest) in
  call_step code_blocks (indent_of line) st call =
    (PyStr.replace (fst st) (call_marker call) spliced, snd st)
  /\ process_line code_blocks line =
     fold_left (call_step code_blocks (indent_of line)) calls2
       (PyStr.replace (fst st) (call_marker call) spliced, snd st)
  /\ forall a b,
       line = a +:+ call_marker call +:+ b ->
       PyStr.occurs "@call{" a = false -> PyStr.occurs "@call{" b = false ->
       process_line code_blocks line = (a +:+ spliced +:+ b, []).
Proof.
  intros Hcalls Hget Hsplit Hw st spliced.
  assert (Hstep : call_step code_blocks (indent_of line) st call =
                  (PyStr.replace (fst st) (call_marker call) spliced, snd st)).
  { unfold call_step. destruct st as [u p]. rewrite Hget, Hw.
    by rewrite (add_indent_lines _ l0 rest). }
  split; [done|]. split.
  - rewrite (process_line_split _ _ _ _ _ Hcalls). fold st. by rewrite Hstep.
  - intros a b Hline Ha Hb.
    assert (Hin : In call (Re.findall1 call_re line)).
    { rewrite Hcalls. apply in_or_app. right. by left. }
    apply findall1_directive_elem in Hin as (_ & Hc1 & Hc2).
    pose proof (findall1_single_marker a call b Ha Hb Hc1 Hc2) as Hone.
    rewrite <- Hline, Hcalls in Hone.
    apply app_cons_single in Hone as (H1 & H2 & _).
    rewrite (process_line_split _ _ _ _ _ Hcalls). fold st. rewrite Hstep.
    subst st. rewrite H1, H2. simpl. f_equal.
    rewrite Hline. by apply replace_single_marker.
Qed.

Lemma resolved_marker_is_indented_witness :
  call_step two_line_registry 4 ("    @call{b}", []) "b" = ("    x
    y", [])
  /\ process_line two_line_registry "    @call{b}" = ("    x
    y", [])
  /\ forall a b,
       "    @call{b}" = a +:+ call_marker "b" +:+ b ->
       PyStr.occurs "@call{" a = false -> PyStr.occurs "@call{" b = false ->
       process_line two_line_registry "    @call{b}" =
       (a +:+ PyStr.join (String nl "") ["x"; "    y"] +:+ b, []).
Proof.
  apply (resolved_marker_is_indented two_line_registry "    @call{b}" "b" [] []
           (sample_block "code" "b" "x
y") "x" ["y"] 4); vm_compute; reflexivity.
Defined.

(** C2 as stated fails: a marker four spaces deep whose target has two
    lines puts four spaces, not five, before the second line. *)
Lemma indent_is_not_w_plus_1 :
  indent_of "    @call{b}" = 4%Z
  /\ dict_mem two_line_registry "b" = true
  /\ fst (process_line two_line_registry "    @call{b}") = "    x
    y"
  /\ fst (process_line two_line_registry "    @call{b}") <> "    x
     y".
Proof. vm_compute. repeat split; discriminate. Qed.

(** ** A text with a single unresolved marker *)

Ltac eqb_cases E Hp :=
  rewrite ?prefix_cons in E, Hp;
  repeat match type of E with
         | (_ && _) = true => apply andb_true_iff in E as [? E]
         end;
  repeat match goal with
         | H : Ascii.eqb ?u ?v = true |- _ =>
             first [ by vm_compute in H | rewrite H in Hp; clear H ]
         end;
  try done.

(** Comparisons of two given characters, computed. *)
Ltac eqb_closed :=
  repeat match goal with
         | |- context [Ascii.eqb (Ascii ?a0 ?a1 ?a2 ?a3 ?a4 ?a5 ?a6 ?a7)
                                 (Ascii ?b0 ?b1 ?b2 ?b3 ?b4 ?b5 ?b6 ?b7)] =>
             let r := eval vm_compute in
               (Ascii.eqb (Ascii a0 a1 a2 a3 a4 a5 a6 a7)
                          (Ascii b0 b1 b2 b3 b4 b5 b6 b7)) in
             change (Ascii.eqb (Ascii a0 a1 a2 a3 a4 a5 a6 a7)
                               (Ascii b0 b1 b2 b3 b4 b5 b6 b7)) with r
         end.

(** The opening of a marker cannot run over into text that starts with
    a character the opening has only in first place, or does not have. *)
Lemma prefix_open_border_char (c : ascii) (a y : string) :
  (c = "@" \/ c = "}")%char ->
  a <> "" -> PyStr.occurs "@call{" a = false ->
  String.prefix "@call{" (a +:+ String c y) = false.
Proof.
  intros Hc Ha Hocc.
  assert (Hp : String.prefix "@call{" a = false).
  { destruct a; [done|]. cbn [PyStr.occurs] in Hocc.
    by apply orb_false_iff in Hocc as [-> _]. }
  destruct (String.prefix "@call{" (a +:+ String c y)) eqn:E; [|done].
  exfalso. clear Hocc.
  destruct Hc as [-> | ->];
    (destruct a as [|c1 [|c2 [|c3 [|c4 [|c5 [|c6 a]]]]]]; [done|..];
     str_norm_in E; eqb_cases E Hp; rewrite prefix_nil in Hp; done).
Qed.

Lemma occurs_app_char (c : ascii) (a y : string) :
  (c = "@" \/ c = "}")%char ->
  PyStr.occurs "@call{" a = false ->
  PyStr.occurs "@call{" (String c y) = false ->
  PyStr.occurs "@call{" (a +:+ String c y) = false.
Proof.
  intros Hc Ha Hy. induction a as [|x a IH]; [done|].
  rewrite str_app_cons. cbn [PyStr.occurs]. rewrite <- str_app_cons.
  rewrite (prefix_open_border_char c) by done. simpl.
  apply IH. by eapply no_open_tail.
Qed.

Lemma occurs_error_marker (n b : string) :
  PyStr.occurs "@call{" n = false -> PyStr.occurs "@call{" b = false ->
  PyStr.occurs "@call{" (error_marker n +:+ b) = false.
Proof.
  intros Hn Hb. unfold error_marker. rewrite !str_app_assoc.
  assert (H1 : PyStr.occurs "@call{" (n +:+ "}" +:+ b) = false).
  { apply (occurs_app_char "}"); [by right|done|].
    str_norm. cbn [PyStr.occurs]. by rewrite prefix_cons, Hb. }
  str_norm. cbn [PyStr.occurs]. rewrite !prefix_cons. eqb_closed. simpl.
  by str_norm_in H1.
Qed.

Lemma occurs_with_error_marker (a n b : string) :
  PyStr.occurs "@call{" a = false -> PyStr.occurs "@call{" n = false ->
  PyStr.occurs "@call{" b = false ->
  PyStr.occurs "@call{" (a +:+ error_marker n +:+ b) = false.
Proof.
  intros Ha Hn Hb. pose proof (occurs_error_marker n b Hn Hb) as H.
  change (error_marker n +:+ b) with (String "@" ("error{" +:+ n +:+ "}") +:+ b) in *.
  rewrite str_app_cons in *. apply (occurs_app_char "@"); [by left|done..].
Qed.

(** A pass works line by line. *)
Lemma one_pass_app_nl (cb : pydict FileBlock) (x y : string) :
  one_pass cb (x +:+ String nl y) =
  (fst (one_pass cb x) +:+ String nl (fst (one_pass cb y)),
   snd (one_pass cb x) ++ snd (one_pass cb y)).
Proof.
  unfold one_pass. rewrite split_app_sep, !map_app, concat_app. simpl. f_equal.
  rewrite join_app.
  - done.
  - pose proof (split_not_nil nl x). by destruct (PyStr.split nl x).
  - pose proof (split_not_nil nl y). by destruct (PyStr.split nl y).
Qed.

Lemma one_pass_line (cb : pydict FileBlock) (line : string) :
  PyStr.has_char nl line = false -> one_pass cb line = process_line cb line.
Proof.
  intros H. unfold one_pass. rewrite split_no_sep by done. simpl.
  rewrite app_nil_r. by destruct (process_line cb line).
Qed.

(** A text is one line, or a first line, a newline and a shorter text. *)
Lemma first_line_split (s : string) :
  PyStr.has_char nl s = false
  \/ exists x s', s = x +:+ String nl s' /\ PyStr.has_char nl x = false
                  /\ String.length s' < String.length s.
Proof.
  induction s as [|c s IH]; [by left|]. simpl.
  destruct (Ascii.eqb c nl) eqn:E.
  - apply ascii_eqb_true in E as ->. right. exists "", s. simpl. split; [done|].
    split; [done|lia].
  - destruct IH as [H|(x & s' & -> & Hx & Hl)]; [by left|].
    right. exists (String c x), s'. simpl. rewrite E, Hx.
    rewrite str_length_app in *. simpl in *. split; [done|]. split; [done|lia].
Qed.

Lemma occurs_app_l (p a b : string) :
  PyStr.occurs p (a +:+ b) = false -> PyStr.occurs p a = false.
Proof.
  induction a as [|c a IH].
  - rewrite str_app_nil_l. destruct p; [by destruct b|done].
  - rewrite str_app_cons. cbn [PyStr.occurs]. rewrite <- str_app_cons.
    intros H. apply orb_false_iff in H as [H1 H2]. rewrite IH by done.
    destruct (String.prefix p (String c a)) eqn:E; [|done].
    by rewrite (prefix_app_r _ _ b E) in H1.
Qed.

Lemma occurs_app_r (p a b : string) :
  PyStr.occurs p (a +:+ b) = false -> PyStr.occurs p b = false.
Proof.
  induction a as [|c a IH]; [done|].
  rewrite str_app_cons. cbn [PyStr.occurs]. intros H.
  apply orb_false_iff in H as [_ H]. by apply IH.
Qed.

(** One pass over a text whose only marker is unresolved. *)
Lemma one_pass_single_unresolved (cb : pydict FileBlock) (n : string) :
  PyStr.has_char "}"%char n = false -> PyStr.has_char nl n = false ->
  dict_get cb (PyStr.strip n) = None ->
  forall a b,
    PyStr.occurs "@call{" a = false -> PyStr.occurs "@call{" b = false ->
    one_pass cb (a +:+ call_marker n +:+ b) =
    (a +:+ error_marker n +:+ b, [diagnostic n]).
Proof.
  intros Hn1 Hn2 Hget.
  assert (Hline : forall a b,
            PyStr.has_char nl a = false -> PyStr.has_char nl b = false ->
            PyStr.occurs "@call{" a = false -> PyStr.occurs "@call{" b = false ->
            one_pass cb (a +:+ call_marker n +:+ b) =
            (a +:+ error_marker n +:+ b, [diagnostic n])).
  { intros a b Ha' Hb' Ha Hb. rewrite one_pass_line.
    - unfold process_line. rewrite findall1_single_marker by done.
      cbn [fold_left]. rewrite call_step_unresolved by done.
      cbn [fst snd app]. f_equal. by apply replace_single_marker.
    - rewrite !has_char_app, Ha', Hb'. unfold call_marker.
      rewrite !has_char_app, Hn2. done. }
  assert (Hright : forall a b,
            PyStr.has_char nl a = false ->
            PyStr.occurs "@call{" a = false -> PyStr.occurs "@call{" b = false ->
            one_pass cb (a +:+ call_marker n +:+ b) =
            (a +:+ error_marker n +:+ b, [diagnostic n])).
  { intros a b Ha' Ha Hb.
    destruct (first_line_split b) as [Hb'|(y & b' & -> & Hy & _)]; [by apply Hline|].
    replace (a +:+ call_marker n +:+ y +:+ String nl b')
      with ((a +:+ call_marker n +:+ y) +:+ String nl b')
      by (by rewrite !str_app_assoc).
    rewrite one_pass_app_nl.
    rewrite Hline by (done || by apply occurs_app_l in Hb).
    rewrite (one_pass_no_marker cb b').
    - simpl. by rewrite !str_app_assoc.
    - apply no_open_no_marker. apply occurs_app_r in Hb.
      by eapply no_open_tail. }
  intros a. remember (String.length a) as len eqn:Hlen. revert a Hlen.
  induction len as [len IH] using lt_wf_ind. intros a -> b Ha Hb.
  destruct (first_line_split a) as [Ha'|(x & a' & -> & Hx & Hl)]; [by apply Hright|].
  rewrite !str_app_assoc. rewrite str_app_cons, one_pass_app_nl.
  rewrite (one_pass_no_marker cb x)
    by (apply no_open_no_marker; by apply occurs_app_l in Ha).
  rewrite (IH _ Hl a' eq_refl b); [done| |done].
  apply occurs_app_r in Ha. by eapply no_open_tail.
Qed.

(** Expanding a text whose only marker is unresolved: one pass, the
    error marker in place of the marker, one diagnostic. *)
Lemma replace_calls_single_unresolved (cb : pydict FileBlock) (fuel : nat)
    (index max_index : Z) (a n b : string) :
  PyStr.has_char "}"%char n = false -> PyStr.has_char nl n = false ->
  PyStr.occurs "@call{" n = false ->
  dict_get cb (PyStr.strip n) = None ->
  PyStr.occurs "@call{" a = false -> PyStr.occurs "@call{" b = false ->
  replace_calls fuel (a +:+ call_marker n +:+ b) cb index max_index =
  Some {| text := a +:+ error_marker n +:+ b; printed := [diagnostic n];
          passes := 1 |}.
Proof.
  intros Hn1 Hn2 Hn3 Hget Ha Hb. rewrite replace_calls_unfold.
  rewrite one_pass_single_unresolved by done.
  rewrite no_marker_search_none; [by rewrite andb_false_r|].
  apply no_open_no_marker. by apply occurs_with_error_marker.
Qed.

(** ** Unresolved markers *)

Lemma split_lines_no_sep (c : ascii) (s line : string) :
  In line (PyStr.split c s) -> PyStr.has_char c line = false.
Proof.
  revert line. induction s as [|a s IH]; intros line; cbn [PyStr.split].
  - by intros [<-|[]].
  - destruct (Ascii.eqb a c) eqn:E.
    + intros [<-|H]; [done|]. by apply IH.
    + destruct (PyStr.split c s) as [|l ls] eqn:Es.
      * by intros [<-|[]]; cbn [PyStr.has_char]; rewrite E.
      * intros [<-|H].
        -- cbn [PyStr.has_char]. rewrite E. apply IH. by left.
        -- apply IH. by right.
Qed.







(** The sample text, expanded: the line with the unresolved marker is
    returned with the error marker in it. *)
Example unresolved_marker_sample :
  replace_calls 12 ("print(1)" +:+ String nl "x = @call{ missing }")
    helper_registry 0 12 =
  Some {| text := "print(1)
x = @error{ missing }";
          printed := ["ERROR: callblock not found:  missing "]; passes := 1 |}.
Proof. vm_compute. reflexivity. Qed.


(** ** Tangling *)

Lemma unresolved_marker_printed (cb : pydict FileBlock) (fuel : nat)
    (content : string) (index max_index : Z) (r : expansion)
    (line call : string) (calls1 calls2 : list string) :
  replace_calls fuel content cb index max_index = Some r ->
  In line (PyStr.split nl content) ->
  Re.findall1 call_re line = calls1 ++ call :: calls2 ->
  dict_get cb (PyStr.strip call) = None ->
  In (diagnostic call) (printed r).
Proof.
  intros Hr Hline Hcalls Hget.
  apply (replace_calls_printed _ _ _ _ _ _ _ Hr).
  apply (one_pass_printed _ _ line); [done|].
  rewrite (process_line_split _ _ _ _ _ Hcalls).
  apply fold_call_step_printed. rewrite call_step_unresolved by done.
  simpl. apply in_or_app. right. by left.
Qed.

(** C10. [write_code] expands a file fragment against the code fragments
    only. A marker whose trimmed name is the name of a file fragment, and
    of no code fragment, is therefore handled as unresolved: its step
    puts the error marker in its place and prints the diagnostic, the
    file is written all the same, and when the marker is the only one in
    the content, the text written is the content with the error marker in
    place of the marker: nothing of the file fragment is spliced in. *)
Theorem file_fragment_is_not_a_target (l : Litera) (block : string)
    (fb target : FileBlock) (c : Container) (line call : string)
    (calls1 calls2 : list string) :
  dict_get (file_blocks l) block = Some fb ->
  dict_get (containers l) (container fb) = Some c ->
  In line (PyStr.split nl (content fb)) ->
  Re.findall1 call_re line = calls1 ++ call :: calls2 ->
  dict_get (file_blocks l) (PyStr.strip call) = Some target ->
  dict_get (code_blocks l) (PyStr.strip call) = None ->
  let st := fold_left (call_step (code_blocks l) (indent_of line)) calls1 (line, []) in
  call_step (code_blocks l) (indent_of line) st call =
    (PyStr.replace (fst st) (call_marker call) (error_marker call),
     snd st ++ [diagnostic call])
  /\ exists w,
       write_block l block = ret w
       /\ w_path w = code_dir c +:+ location fb
       /\ In (diagnostic call) (w_printed w)
       /\ forall a b,
            content fb = a +:+ call_marker call +:+ b ->
            PyStr.occurs "@call{" a = false -> PyStr.occurs "@call{" b = false ->
            PyStr.occurs "@call{" call = false ->
            w_text w = a +:+ error_marker call +:+ b
            /\ w_printed w = [diagnostic call].
Proof.
  intros Hfb Hc Hline Hcalls Htarget Hget st.
  split; [by apply call_step_unresolved|].
  unfold write_block, dict_item. rewrite Hfb. cbn [bind ret].
  destruct (replace_calls_returns (content fb) (code_blocks l)
              default_max_index (Z.to_nat default_max_index))
    as (r & Hr & _); [done|done|].
  rewrite Hr, Hc. cbn [bind ret].
  eexists. split; [done|]. cbn [w_path w_text w_printed].
  split; [done|]. split.
  - by apply (unresolved_marker_printed _ _ _ _ _ _ _ _ _ _ Hr Hline Hcalls).
  - intros a b Hcontent Ha Hb Hcall.
    assert (Hin : In call (Re.findall1 call_re line)).
    { rewrite Hcalls. apply in_or_app. right. by left. }
    apply findall1_directive_elem in Hin as (_ & Hc1 & Hc2).
    rewrite Hcontent, replace_calls_single_unresolved in Hr by done.
    by injection Hr as <-.
Qed.

Lemma file_fragment_is_not_a_target_witness :
  call_step helper_registry 0 ("a = @call{other} + 1", []) "other" =
    ("a = @error{other} + 1", ["ERROR: callblock not found: other"])
  /\ exists w,
       write_block sample_litera "main" = ret w
       /\ w_path w = "main"
       /\ In "ERROR: callblock not found: other" (w_printed w)
       /\ forall a b,
            "a = @call{other} + 1" = a +:+ call_marker "other" +:+ b ->
            PyStr.occurs "@call{" a = false -> PyStr.occurs "@call{" b = false ->
            PyStr.occurs "@call{" "other" = false ->
            w_text w = a +:+ error_marker "other" +:+ b
            /\ w_printed w = [diagnostic "other"].
Proof.
  apply (file_fragment_is_not_a_target sample_litera "main"
           (sample_block "file" "main" "a = @call{other} + 1")
           (sample_block "file" "other" "print(3)")
           (fresh_container "doc") "a = @call{other} + 1" "other" [] []).
  - vm_compute. reflexivity.
  - vm_compute. reflexivity.
  - vm_compute. by left.
  - vm_compute. reflexivity.
  - vm_compute. reflexivity.
  - vm_compute. reflexivity.
Defined.

(** ** The scenario *)

Lemma demo_parse_file (fs : FileSystem) (filename : string) :
  isdir fs filename = false -> exists_ fs filename = true ->
  read fs filename = demo_text ->
  isdir fs "main.py" = false -> isdir fs "helper" = false ->
  parse_file fs filename = ret (demo_container (stem filename)).
Proof.
  intros H1 H2 H3 H4 H5.
  destruct fs as [isd ex rd]. cbn [isdir exists_ read] in *.
  unfold parse_file, Container_init. cbn [isdir exists_ read].
  rewrite H1, H2, H3. cbn [negb bind ret].
  vm_compute. rewrite ?H1, ?H2, ?H4, ?H5. vm_compute. reflexivity.
Qed.

Lemma demo_expansion (cont : string) (fuel : nat) (index max_index : Z) :
  replace_calls fuel main_content [("helper", demo_helper cont)] index max_index =
  Some {| text := demo_output; printed := []; passes := 1 |}.
Proof.
  rewrite replace_calls_unfold.
  assert (one_pass [("helper", demo_helper cont)] main_content = (demo_output, []))
    as -> by (vm_compute; reflexivity).
  assert (Re.re_search call_search_re demo_output = None) as ->
    by (vm_compute; reflexivity).
  by rewrite andb_false_r.
Qed.

(** C1. The document of the scenario, read from any file that exists,
    parses into a prose block and exactly two fragments: the file
    fragment [main] with content [print(1)], newline, [@call{helper}], and
    the code fragment [helper] with content [print(2)]. The driver
    registers [main] as the only file fragment and [helper] as the only
    code fragment, and expanding [main] against that registry yields
    [print(1)], newline, [print(2)], which is what [write_code] writes to
    [main.py]. *)
Theorem demo_scenario (fs : FileSystem) (filename : string) :
  isdir fs filename = false -> exists_ fs filename = true ->
  read fs filename = demo_text ->
  isdir fs "main.py" = false -> isdir fs "helper" = false ->
  let cont := stem filename in
  parse_file fs filename = ret (demo_container cont)
  /\ filter (fun b => String.eqb (block_type b) "file") (blocks (demo_container cont))
     = [FragmentBlock (demo_main cont)]
  /\ filter (fun b => String.eqb (block_type b) "code") (blocks (demo_container cont))
     = [FragmentBlock (demo_helper cont)]
  /\ name (demo_main cont) = "main" /\ content (demo_main cont) = main_content
  /\ name (demo_helper cont) = "helper" /\ content (demo_helper cont) = "print(2)"
  /\ (exists l,
        Litera_init fs [filename] = ret l
        /\ file_blocks l = [("main", demo_main cont)]
        /\ code_blocks l = [("helper", demo_helper cont)]
        /\ write_code l =
           ret [{| w_path := "main.py"; w_text := demo_output; w_printed := [] |}])
  /\ forall fuel max_index,
       replace_calls fuel (content (demo_main cont)) [("helper", demo_helper cont)]
         0 max_index =
       Some {| text := demo_output; printed := []; passes := 1 |}.
Proof.
  intros H1 H2 H3 H4 H5 cont.
  pose proof (demo_parse_file fs filename H1 H2 H3 H4 H5) as Hparse. fold cont in Hparse.
  split; [done|]. do 6 (split; [done|]). split.
  - unfold Litera_init, parse_files. cbn [foldM bind ret]. rewrite Hparse.
    cbn [foldM bind ret].
    set (l := make_blocks _).
    assert (Hf : file_blocks l = [("main", demo_main cont)]) by done.
    assert (Hc : code_blocks l = [("helper", demo_helper cont)]) by done.
    assert (Hk : containers l = [(cont, demo_container cont)]) by done.
    exists l. split; [done|]. split; [done|]. split; [done|].
    unfold write_code, write_block. rewrite Hf, Hc, Hk.
    cbn [dict_keys map fst foldM]. unfold dict_item. cbn [dict_get].
    change (String.eqb "main" "main") with true.
    cbn [bind ret content demo_main].
    rewrite demo_expansion. cbn [container].
    by rewrite String.eqb_refl.
  - intros fuel max_index. apply demo_expansion.
Qed.

Lemma demo_scenario_witness :
  parse_file demo_fs "demo.md" = ret (demo_container "demo")
  /\ filter (fun b => String.eqb (block_type b) "file") (blocks (demo_container "demo"))
     = [FragmentBlock (demo_main "demo")]
  /\ filter (fun b => String.eqb (block_type b) "code") (blocks (demo_container "demo"))
     = [FragmentBlock (demo_helper "demo")]
  /\ name (demo_main "demo") = "main" /\ content (demo_main "demo") = main_content
  /\ name (demo_helper "demo") = "helper" /\ content (demo_helper "demo") = "print(2)"
  /\ (exists l,
        Litera_init demo_fs ["demo.md"] = ret l
        /\ file_blocks l = [("main", demo_main "demo")]
        /\ code_blocks l = [("helper", demo_helper "demo")]
        /\ write_code l =
           ret [{| w_path := "main.py"; w_text := demo_output; w_printed := [] |}])
  /\ forall fuel max_index,
       replace_calls fuel (content (demo_main "demo")) [("helper", demo_helper "demo")]
         0 max_index =
       Some {| text := demo_output; printed := []; passes := 1 |}.
Proof.
  apply (demo_scenario demo_fs "demo.md"); vm_compute; reflexivity.
Defined.

(** ** Metadata *)

Lemma add_local_links_ok (fs : FileSystem) (links : list string) :
  forall c c',
    add_local_links fs c links = ret c' ->
    c' = with_local_link c (local_link c ++ map link_pair links).
Proof.
  unfold add_local_links.
  induction links as [|link links IH]; intros c c'; simpl.
  - intros [= <-]. rewrite app_nil_r. by destruct c.
  - unfold list_item, link_pair.
    destruct (PyStr.split_ws link) as [|t [|a ws]]; simpl; try done.
    unfold add_llink. destruct (negb (exists_ fs a)); simpl; [done|].
    intros H. apply IH in H as ->. simpl. by rewrite <- app_assoc.
Qed.

Lemma add_web_links_ok (links : list string) :
  forall c c',
    add_web_links c links = ret c' ->
    c' = with_web_link c (web_link c ++ map link_pair links).
Proof.
  unfold add_web_links.
  induction links as [|link links IH]; intros c c'; simpl.
  - intros [= <-]. rewrite app_nil_r. by destruct c.
  - unfold list_item, link_pair.
    destruct (PyStr.split_ws link) as [|t [|a ws]]; simpl; try done.
    intros H. apply IH in H as ->. simpl. by rewrite <- app_assoc.
Qed.

Lemma set_doc_dir_ok (c c' : Container) (dir : string) :
  set_doc_dir c dir = ret c' ->
  c' = with_doc_dir c (if String.eqb dir "" then doc_dir c else dir).
Proof.
  unfold set_doc_dir. destruct (String.eqb dir "").
  - intros [= <-]. by destruct c.
  - destruct (negb _); [done|]. by intros [= <-].
Qed.

Lemma set_code_dir_ok (c c' : Container) (dir : string) :
  set_code_dir c dir = ret c' ->
  c' = with_code_dir c (if String.eqb dir "" then code_dir c else dir).
Proof.
  unfold set_code_dir. destruct (String.eqb dir "").
  - intros [= <-]. by destruct c.
  - destruct (negb _); [done|]. by intros [= <-].
Qed.

Lemma extract_last_match_last (d text : string) :
  extract_last_match (directive_re d) text = last_or_empty (occurrences d text).
Proof.
  unfold extract_last_match, last_or_empty, occurrences.
  by destruct (last _).
Qed.

(** A match of a pattern whose name has no newline lies within a line. *)
Lemma prefix_within_line (m x y : string) :
  PyStr.has_char nl m = false ->
  String.prefix m (x +:+ String nl y) = true -> String.prefix m x = true.
Proof.
  revert x. induction m as [|c m IH]; intros x Hm H; [apply prefix_nil|].
  simpl in Hm. apply orb_false_iff in Hm as [Hc Hm].
  destruct x as [|b x].
  - rewrite str_app_nil_l, prefix_cons, Hc in H. done.
  - rewrite str_app_cons, prefix_cons in H. rewrite prefix_cons.
    apply andb_true_iff in H as [-> H]. simpl. by apply IH.
Qed.

Lemma marker_at_line (d x y : string) :
  PyStr.has_char nl d = false ->
  marker_at d (x +:+ String nl y) =
  match marker_at d x with
  | Some (n, rest) => Some (n, rest +:+ String nl y)
  | None => None
  end.
Proof.
  intros Hd. destruct (marker_at d x) as [[n rest]|] eqn:Ex.
  { by apply marker_at_app_r. }
  destruct (marker_at d (x +:+ String nl y)) as [[n rest]|] eqn:E; [|done].
  exfalso. apply marker_at_split in E as (E & H1 & H2).
  assert (Hm : String.prefix ("@" +:+ d +:+ "{" +:+ n +:+ "}") x = true).
  { apply (prefix_within_line _ _ y).
    - rewrite !has_char_app, Hd, H2. done.
    - rewrite E.
      replace ("@" +:+ d +:+ "{" +:+ n +:+ "}" +:+ rest)
        with (("@" +:+ d +:+ "{" +:+ n +:+ "}") +:+ rest)
        by (by rewrite !str_app_assoc).
      apply prefix_app. }
  apply prefix_split in Hm. rewrite Hm in Ex.
  rewrite !str_app_assoc in Ex. rewrite marker_at_app in Ex; done.
Qed.

(** The occurrences in a text are those of its first line, then those
    of the rest. *)
Lemma occurrences_app_nl (d : string) (y : string) :
  PyStr.has_char nl d = false ->
  forall x, occurrences d (x +:+ String nl y) = occurrences d x ++ occurrences d y.
Proof.
  intros Hd x. unfold occurrences.
  remember (String.length x) as len eqn:Hlen. revert x Hlen.
  induction len as [len IH] using lt_wf_ind. intros x ->.
  destruct x as [|c x].
  - rewrite str_app_nil_l, findall1_directive_cons, findall1_directive_nil.
    pose proof (marker_at_line d "" y Hd) as H. rewrite str_app_nil_l in H.
    rewrite H. unfold marker_at at 1. by destruct d.
  - rewrite str_app_cons, !findall1_directive_cons, <- str_app_cons.
    rewrite marker_at_line by done.
    destruct (marker_at d (String c x)) as [[n rest]|] eqn:E.
    + simpl. f_equal. apply (IH (String.length rest)); [|done].
      by apply marker_at_shorter in E.
    + apply (IH (String.length x)); [simpl; lia|done].
Qed.

(** The occurrences in a text are the occurrences in its lines, from the
    first line to the last. *)
Lemma occurrences_lines (d text : string) :
  PyStr.has_char nl d = false ->
  occurrences d text = concat (map (occurrences d) (PyStr.split nl text)).
Proof.
  intros Hd. remember (String.length text) as len eqn:Hlen. revert text Hlen.
  induction len as [len IH] using lt_wf_ind. intros text ->.
  destruct (first_line_split text) as [H|(x & s' & -> & Hx & Hl)].
  - rewrite split_no_sep by done. simpl. by rewrite app_nil_r.
  - rewrite occurrences_app_nl, split_app_sep, map_app, concat_app by done.
    rewrite split_no_sep by done. simpl. rewrite app_nil_r. f_equal.
    by apply (IH _ Hl).
Qed.

(** A line that is one directive has one occurrence, its value. *)
Lemma occurrences_one (d v : string) :
  PyStr.has_char "}"%char v = false -> PyStr.has_char nl v = false ->
  occurrences d ("@" +:+ d +:+ "{" +:+ v +:+ "}") = [v].
Proof.
  intros H1 H2. unfold occurrences.
  change ("@" +:+ d +:+ "{" +:+ v +:+ "}") with (String "@" (d +:+ "{" +:+ v +:+ "}")).
  rewrite findall1_directive_cons.
  change (String "@" (d +:+ "{" +:+ v +:+ "}")) with ("@" +:+ d +:+ "{" +:+ v +:+ "}").
  rewrite <- (str_app_nil_r ("@" +:+ d +:+ "{" +:+ v +:+ "}")).
  rewrite !str_app_assoc. rewrite marker_at_app by done.
  by rewrite findall1_directive_nil.
Qed.

(** C8. When the metadata pass over a freshly created container
    succeeds, the title and the two directories hold the value of the last
    occurrence of their directive (the empty string when there is none),
    and the lists hold every occurrence of theirs in encounter order; a
    link is stored as the first two tokens of its value. The occurrences
    are those of the lines of the text, from the first line to the last. *)
Theorem metadata_last_and_all (fs : FileSystem) (filename text : string)
    (c c' : Container) :
  Container_init fs filename = ret c ->
  parse_metadata fs c text = ret c' ->
  title c' = last_or_empty (occurrences "title" text)
  /\ code_dir c' = last_or_empty (occurrences "code_folder" text)
  /\ doc_dir c' = last_or_empty (occurrences "documentation_folder" text)
  /\ execute c' = occurrences "execute_end" text
  /\ local_script c' = occurrences "local_script" text
  /\ web_script c' = occurrences "web_script" text
  /\ local_link c' = map link_pair (occurrences "local_link" text)
  /\ web_link c' = map link_pair (occurrences "web_link" text)
  /\ forall d, PyStr.has_char nl d = false ->
       occurrences d text = concat (map (occurrences d) (PyStr.split nl text)).
Proof.
  intros Hinit Hmeta.
  assert (Hc : c = fresh_container (stem filename)).
  { unfold Container_init in Hinit.
    destruct (isdir fs filename); [done|].
    destruct (negb (exists_ fs filename)); [done|]. by injection Hinit as <-. }
  subst c. unfold parse_metadata in Hmeta.
  rewrite !extract_last_match_last in Hmeta.
  fold (occurrences "execute_end" text) (occurrences "local_script" text)
       (occurrences "web_script" text) (occurrences "local_link" text)
       (occurrences "web_link" text) in Hmeta.
  remember (last_or_empty (occurrences "title" text)) as t eqn:Ht.
  remember (last_or_empty (occurrences "code_folder" text)) as cd eqn:Hcd.
  remember (last_or_empty (occurrences "documentation_folder" text)) as dd eqn:Hdd.
  remember (occurrences "execute_end" text) as ex eqn:Hex.
  remember (occurrences "local_script" text) as ls eqn:Hls.
  remember (occurrences "web_script" text) as ws eqn:Hws.
  remember (occurrences "local_link" text) as ll eqn:Hll.
  remember (occurrences "web_link" text) as wl eqn:Hwl.
  destruct (set_doc_dir _ _) as [e|c2] eqn:E2; [done|]. cbn [bind] in Hmeta.
  destruct (set_code_dir _ _) as [e|c3] eqn:E3; [done|]. cbn [bind] in Hmeta.
  destruct (add_local_links _ _ _) as [e|c7] eqn:E7; [done|]. cbn [bind] in Hmeta.
  apply add_web_links_ok in Hmeta. apply add_local_links_ok in E7.
  apply set_code_dir_ok in E3. apply set_doc_dir_ok in E2.
  subst c' c7 c3 c2. cbn.
  repeat split; try done.
  - by destruct (String.eqb_spec cd "").
  - by destruct (String.eqb_spec dd "").
  - intros d Hd. by apply occurrences_lines.
Qed.

Lemma metadata_last_and_all_witness :
  title metadata_container = last_or_empty (occurrences "title" metadata_text)
  /\ code_dir metadata_container = last_or_empty (occurrences "code_folder" metadata_text)
  /\ doc_dir metadata_container
     = last_or_empty (occurrences "documentation_folder" metadata_text)
  /\ execute metadata_container = occurrences "execute_end" metadata_text
  /\ local_script metadata_container = occurrences "local_script" metadata_text
  /\ web_script metadata_container = occurrences "web_script" metadata_text
  /\ local_link metadata_container = map link_pair (occurrences "local_link" metadata_text)
  /\ web_link metadata_container = map link_pair (occurrences "web_link" metadata_text)
  /\ forall d, PyStr.has_char nl d = false ->
       occurrences d metadata_text
       = concat (map (occurrences d) (PyStr.split nl metadata_text)).
Proof.
  apply (metadata_last_and_all (sample_fs metadata_text) "doc.md" metadata_text
           (fresh_container "doc") metadata_container); vm_compute; reflexivity.
Defined.

(** The occurrences of the scenario above, evaluated. *)
Example metadata_occurrences :
  occurrences "title" metadata_text = ["First"; "Second"]
  /\ occurrences "code_folder" metadata_text = ["code/"; "src/"]
  /\ occurrences "execute_end" metadata_text = ["make"; "make test"]
  /\ occurrences "web_script" metadata_text = ["a.js"; "b.js"].
Proof. vm_compute. done. Qed.

(** ** The cross-reference builder *)

Lemma dict_set_same {V} (d : pydict V) (k : string) (v : V) :
  dict_get d k = Some v -> dict_set d k v = d.
Proof.
  induction d as [|[k' v'] d IH]; simpl; [done|].
  destruct (String.eqb k' k); [by intros [= ->]|].
  intros H. by rewrite IH.
Qed.

Lemma foldM_app {A B} (f : A -> B -> result A) (l1 l2 : list B) (acc : A) :
  foldM f (l1 ++ l2) acc = bind (foldM f l1 acc) (foldM f l2).
Proof.
  revert acc. induction l1 as [|x l1 IH]; intros acc; simpl; [done|].
  destruct (f acc x); simpl; [done|]. apply IH.
Qed.

(** The two nested loops of [find_calls] are one loop over the
    references of the block. *)
Lemma foldM_concat {A B C} (f : A -> C -> result A) (g : B -> list C)
    (ls : list B) (acc : A) :
  foldM (fun st l => foldM f (g l) st) ls acc = foldM f (concat (map g ls)) acc.
Proof.
  revert acc. induction ls as [|l ls IH]; intros acc; simpl; [done|].
  rewrite foldM_app. destruct (foldM f (g l) acc); simpl; [done|]. apply IH.
Qed.

Lemma blocks_from_length (heap : list FileBlock) : forall i,
  length (blocks_from i heap) = length heap.
Proof. induction heap as [|b heap IH]; intros i; simpl; [done|]. by rewrite IH. Qed.

Lemma blocks_from_lookup (heap : list FileBlock) : forall i j b,
  heap !! j = Some b -> blocks_from i heap !! j = Some (name b, i + j).
Proof.
  induction heap as [|b0 heap IH]; intros i j b H; [done|].
  destruct j as [|j]; simpl in *.
  - injection H as ->. by rewrite Nat.add_0_r.
  - replace (i + S j) with (S i + j) by lia. by apply IH.
Qed.

Lemma blocks_from_get (heap : list FileBlock) : forall i k t,
  dict_get (blocks_from i heap) k = Some t ->
  exists j b, t = i + j /\ heap !! j = Some b /\ name b = k.
Proof.
  induction heap as [|b0 heap IH]; intros i k t H; [done|]. simpl in H.
  destruct (String.eqb (name b0) k) eqn:E.
  - injection H as <-. apply String.eqb_eq in E.
    exists 0, b0. split; [lia|done].
  - apply IH in H as (j & b & -> & Hj & Hb). exists (S j), b.
    split; [lia|done].
Qed.

Lemma blocks_from_get_name (heap : list FileBlock) : forall i j b,
  NoDup (map name heap) -> heap !! j = Some b ->
  dict_get (blocks_from i heap) (name b) = Some (i + j).
Proof.
  induction heap as [|b0 heap IH]; intros i j b Hnd H; [done|].
  simpl in Hnd. apply NoDup_cons in Hnd as [Hnotin Hnd].
  destruct j as [|j]; simpl in *.
  - injection H as ->. by rewrite String.eqb_refl, Nat.add_0_r.
  - destruct (String.eqb (name b0) (name b)) eqn:E.
    + apply String.eqb_eq in E. exfalso. apply Hnotin. rewrite E.
      apply list_elem_of_In, in_map. apply list_elem_of_In.
      by eapply list_elem_of_lookup_2.
    + replace (i + S j) with (S i + j) by lia. by apply IH.
Qed.

Lemma mk_block_id (cd : pydict Container) (b : FileBlock) :
  mk_block cd b [] [] false = b.
Proof. destruct b. unfold mk_block. simpl. by rewrite !app_nil_r. Qed.

Lemma heap_is_ext (cd : pydict Container) (heap0 heap : list FileBlock)
    (cs cs' bs bs' : nat -> list string) (nm nm' : nat -> bool) :
  (forall j, j < length heap0 -> cs j = cs' j /\ bs j = bs' j /\ nm j = nm' j) ->
  heap_is cd heap0 heap cs bs nm -> heap_is cd heap0 heap cs' bs' nm'.
Proof.
  intros Hext [Hlen H]. split; [done|]. intros j b Hj.
  destruct (Hext j) as (<- & <- & <-); [by eapply lookup_lt_Some|]. by apply H.
Qed.

Section FindCalls.
Context (cd : pydict Container) (heap0 : list FileBlock).
Hypothesis Hnames : NoDup (map name heap0).
Hypothesis Hconts : forall b, In b heap0 -> dict_mem cd (container b) = true.

Lemma container_item (b : FileBlock) :
  In b heap0 ->
  exists c, dict_item cd (container b) = ret c /\ doc_dir c = doc_dir_of cd (container b).
Proof.
  intros Hb. apply Hconts in Hb. unfold dict_mem, dict_item, doc_dir_of in *.
  destruct (dict_get cd (container b)) as [c|]; [|done]. by exists c.
Qed.

Lemma lookup_In (j : nat) (b : FileBlock) : heap0 !! j = Some b -> In b heap0.
Proof. intros H. apply list_elem_of_In. by eapply list_elem_of_lookup_2. Qed.

Lemma target_Some (r : string) (t : nat) :
  target heap0 r = Some t -> exists bt, heap0 !! t = Some bt /\ name bt = PyStr.strip r.
Proof.
  unfold target, blocks_of. intros H.
  apply blocks_from_get in H as (j & b & -> & Hj & Hb). by exists b.
Qed.

(** One marker of block [a]. *)
Lemma fc_call_spec (heap : list FileBlock) (cs bs : nat -> list string)
    (nm : nat -> bool) (a : nat) (ba : FileBlock) (r : string) :
  heap_is cd heap0 heap cs bs nm -> heap0 !! a = Some ba -> nm a = true ->
  exists heap',
    fc_call cd a (heap, blocks_of heap0) r = ret (heap', blocks_of heap0)
    /\ heap_is cd heap0 heap'
         (fst (acc_call cd heap0 ba a (cs, bs) r))
         (snd (acc_call cd heap0 ba a (cs, bs) r)) nm.
Proof.
  intros [Hlen Hheap] Ha Hnm. unfold fc_call, acc_call.
  fold (target heap0 r).
  destruct (target heap0 r) as [t|] eqn:Et; [|by exists heap].
  destruct (target_Some _ _ Et) as (bt & Ht & Hname). rewrite Ht.
  unfold deref. rewrite (Hheap _ _ Ht). cbn [bind ret container mk_block].
  destruct (container_item bt (lookup_In _ _ Ht)) as (c & -> & Hc).
  cbn [bind ret]. rewrite (Hheap _ _ Ha). cbn [bind ret].
  pose proof (lookup_lt_Some _ _ _ Ha) as Hla.
  pose proof (lookup_lt_Some _ _ _ Ht) as Hlt.
  set (bt1 := with_called_by _ _).
  assert (Hbt1 : bt1 = mk_block cd bt (cs t) (bs t ++ [anchor_of cd ba]) (nm t)).
  { subst bt1. unfold with_called_by, mk_block. cbn. rewrite Hnm.
    by rewrite <- app_assoc. }
  assert (H1 : forall j b, heap0 !! j = Some b ->
            <[t:=bt1]> heap !! j =
            Some (mk_block cd b (cs j)
                    (fn_upd bs t (bs t ++ [anchor_of cd ba]) j) (nm j))).
  { intros j b Hj. unfold fn_upd. destruct (Nat.eqb_spec j t) as [->|Hne].
    - rewrite list_lookup_insert_eq by lia. rewrite Ht in Hj. injection Hj as <-.
      by rewrite Hbt1.
    - rewrite list_lookup_insert_ne by done. by apply Hheap. }
  rewrite (H1 _ _ Ha). cbn [bind ret].
  rewrite dict_set_same by exact Et.
  eexists. split; [reflexivity|]. cbn [fst snd]. split.
  - rewrite !length_insert. exact Hlen.
  - intros j b Hj. destruct (Nat.eqb_spec j a) as [->|Hne].
    + rewrite list_lookup_insert_eq by (rewrite length_insert; lia).
      rewrite Ha in Hj. injection Hj as <-. f_equal.
      unfold with_calling, mk_block, code_anchor_of, fn_upd. cbn.
      rewrite Hc, Nat.eqb_refl. f_equal. by rewrite <- app_assoc.
    + rewrite list_lookup_insert_ne by done. rewrite (H1 _ _ Hj).
      unfold fn_upd. by rewrite (proj2 (Nat.eqb_neq j a) Hne).
Qed.

(** All the markers of block [a]. *)
Lemma fc_calls_spec (nm : nat -> bool) (a : nat) (ba : FileBlock) (rs : list string) :
  heap0 !! a = Some ba -> nm a = true ->
  forall heap cs bs,
    heap_is cd heap0 heap cs bs nm ->
    exists heap',
      foldM (fc_call cd a) rs (heap, blocks_of heap0) = ret (heap', blocks_of heap0)
      /\ heap_is cd heap0 heap'
           (fst (fold_left (acc_call cd heap0 ba a) rs (cs, bs)))
           (snd (fold_left (acc_call cd heap0 ba a) rs (cs, bs))) nm.
Proof.
  intros Ha Hnm. induction rs as [|r rs IH]; intros heap cs bs Hheap.
  - by exists heap.
  - destruct (fc_call_spec heap cs bs nm a ba r Hheap Ha Hnm) as (heap1 & E1 & H1).
    destruct (IH heap1 _ _ H1) as (heap2 & E2 & H2).
    exists heap2. cbn [foldM fold_left]. rewrite E1. cbn [bind].
    split; [exact E2|]. by rewrite <- surjective_pairing in H2.
Qed.

(** What the markers of a block add, in closed form. *)
Lemma acc_calls_closed (a : nat) (ba : FileBlock) (rs : list string) :
  forall cs bs j,
    fst (fold_left (acc_call cd heap0 ba a) rs (cs, bs)) j
      = (if j =? a then cs a ++ callees cd heap0 rs else cs j)
    /\ snd (fold_left (acc_call cd heap0 ba a) rs (cs, bs)) j
      = bs j ++ calls_to cd heap0 ba rs j.
Proof.
  induction rs as [|r rs IH]; intros cs bs j.
  - cbn. rewrite !app_nil_r. split; [|done]. by destruct (Nat.eqb_spec j a) as [->|].
  - cbn [fold_left]. unfold acc_call at 2 4. unfold callees, calls_to.
    cbn [omap list_omap]. fold (callees cd heap0 rs) (calls_to cd heap0 ba rs j).
    destruct (target heap0 r) as [t|] eqn:Et; [|apply IH].
    destruct (target_Some _ _ Et) as (bt & Ht & _). rewrite Ht. cbn [option_map fst snd].
    destruct (IH (fn_upd cs a (cs a ++ [code_anchor_of cd bt]))
                 (fn_upd bs t (bs t ++ [anchor_of cd ba])) j) as [-> ->].
    unfold fn_upd. rewrite Nat.eqb_refl. split.
    + destruct (j =? a); [|done]. by rewrite <- app_assoc.
    + rewrite (Nat.eqb_sym t j). destruct (Nat.eqb_spec j t) as [->|]; [|done].
      by rewrite <- app_assoc.
Qed.

(** The scan of one block. *)
Lemma fc_block_spec (heap : list FileBlock) (cs bs : nat -> list string)
    (nm : nat -> bool) (a : nat) (ba : FileBlock) :
  heap_is cd heap0 heap cs bs nm -> heap0 !! a = Some ba ->
  exists heap',
    fc_block cd a (heap, blocks_of heap0) = ret (heap', blocks_of heap0)
    /\ heap_is cd heap0 heap'
         (fst (fold_left (acc_call cd heap0 ba a) (references ba) (cs, bs)))
         (snd (fold_left (acc_call cd heap0 ba a) (references ba) (cs, bs)))
         (fn_upd nm a true).
Proof.
  intros [Hlen Hheap] Ha. unfold fc_block, deref.
  rewrite (Hheap _ _ Ha). cbn [bind ret container mk_block content type name].
  destruct (container_item ba (lookup_In _ _ Ha)) as (c & -> & Hc). cbn [bind ret].
  pose proof (lookup_lt_Some _ _ _ Ha) as Hla.
  set (heap1 := <[a:=_]> heap).
  assert (H1 : heap_is cd heap0 heap1 cs bs (fn_upd nm a true)).
  { split; [subst heap1; rewrite length_insert; exact Hlen|].
    intros j b Hj. subst heap1. unfold fn_upd.
    destruct (Nat.eqb_spec j a) as [->|Hne].
    - rewrite list_lookup_insert_eq by lia. rewrite Ha in Hj. injection Hj as <-.
      f_equal. unfold with_calling_name, mk_block, anchor_of. cbn. by rewrite Hc.
    - rewrite list_lookup_insert_ne by done. by apply Hheap. }
  rewrite foldM_concat. fold (references ba).
  destruct (fc_calls_spec (fn_upd nm a true) a ba (references ba) Ha
              ltac:(unfold fn_upd; by rewrite Nat.eqb_refl) heap1 cs bs H1)
    as (heap2 & E2 & H2).
  rewrite E2. cbn [bind ret fst snd].
  destruct H2 as [Hlen2 Hheap2]. rewrite (Hheap2 _ _ Ha). cbn [bind ret name mk_block].
  rewrite dict_set_same.
  - exists heap2. split; [done|]. by split.
  - unfold blocks_of. by rewrite (blocks_from_get_name heap0 0 a ba Hnames Ha).
Qed.

(** The scan of the first [i] blocks, then of the [n] that remain. *)
Lemma fc_iter_spec : forall n i heap cs bs nm,
  i + n = length heap0 ->
  heap_is cd heap0 heap cs bs nm -> scanned_upto cd heap0 i cs bs nm ->
  exists heap' cs' bs' nm',
    fc_iter cd (length heap0) n i (heap, blocks_of heap0)
      = ret (heap', blocks_of heap0)
    /\ heap_is cd heap0 heap' cs' bs' nm'
    /\ scanned_upto cd heap0 (length heap0) cs' bs' nm'.
Proof.
  induction n as [|n IH]; intros i heap cs bs nm Hin Hheap Hscan;
    cbn [fc_iter snd]; unfold blocks_of at 1; rewrite blocks_from_length,
    Nat.eqb_refl; cbn [negb].
  - exists heap, cs, bs, nm. split; [done|]. split; [done|].
    by replace (length heap0) with i by lia.
  - destruct (lookup_lt_is_Some_2 heap0 i) as [bi Hi]; [lia|].
    unfold blocks_of at 1. rewrite (blocks_from_lookup heap0 0 i bi Hi).
    cbn [Nat.add].
    destruct (fc_block_spec heap cs bs nm i bi Hheap Hi) as (heap1 & E1 & H1).
    rewrite E1. cbn [bind].
    apply (IH (S i) heap1 _ _ _ ltac:(lia) H1).
    intros j b Hj. destruct (acc_calls_closed i bi (references bi) cs bs j) as [-> ->].
    destruct (Hscan j b Hj) as (-> & -> & Hnm).
    rewrite (take_S_r heap0 i bi Hi). unfold callers at 2.
    rewrite map_app, concat_app. cbn [map concat]. rewrite app_nil_r.
    fold (callers cd heap0 (take i heap0) j). unfold fn_upd.
    destruct (Hscan i bi Hi) as (Hci & _ & _). rewrite Nat.ltb_irrefl in Hci.
    rewrite Hci, Hnm.
    destruct (Nat.eqb_spec j i) as [->|Hne].
    + rewrite Hi in Hj. injection Hj as <-.
      assert ((i <? S i) = true) as -> by (apply Nat.ltb_lt; lia). done.
    + destruct (Nat.ltb_spec j i), (Nat.ltb_spec j (S i)); try lia; done.
Qed.

End FindCalls.

Lemma find_calls_linked (cd : pydict Container) (heap : list FileBlock) :
  NoDup (map name heap) ->
  (forall b, In b heap -> dict_mem cd (container b) = true) ->
  find_calls cd (heap, blocks_of heap) = ret (imap (linked cd heap) heap, blocks_of heap).
Proof.
  intros Hnames Hconts. unfold find_calls. cbn [snd].
  unfold blocks_of at 1 2. rewrite blocks_from_length.
  destruct (fc_iter_spec cd heap Hnames Hconts (length heap) 0 heap
              (fun _ => []) (fun _ => []) (fun _ => false))
    as (heap' & cs & bs & nm & E & [Hlen Hheap] & Hscan).
  - done.
  - split; [done|]. intros j b Hj. by rewrite mk_block_id.
  - intros j b Hj. by destruct j.
  - rewrite E. f_equal. f_equal. apply list_eq. intros j.
    rewrite list_lookup_imap.
    destruct (heap !! j) as [b|] eqn:Hj.
    + rewrite (Hheap _ _ Hj). destruct (Hscan _ _ Hj) as (-> & -> & ->).
      pose proof (lookup_lt_Some _ _ _ Hj) as Hlt.
      apply Nat.ltb_lt in Hlt. rewrite Hlt. by rewrite take_ge.
    + apply lookup_ge_None. apply lookup_ge_None in Hj. lia.
Qed.

Lemma callees_elem (cd : pydict Container) (heap : list FileBlock)
    (rs : list string) (r : string) (t : nat) (bt : FileBlock) :
  In r rs -> target heap r = Some t -> heap !! t = Some bt ->
  In (code_anchor_of cd bt) (callees cd heap rs).
Proof.
  intros Hr Ht Hbt. unfold callees. apply list_elem_of_In, list_elem_of_omap.
  exists r. split; [by apply list_elem_of_In|]. by rewrite Ht, Hbt.
Qed.

Lemma calls_to_elem (cd : pydict Container) (heap : list FileBlock)
    (b : FileBlock) (rs : list string) (r : string) (t : nat) :
  In r rs -> target heap r = Some t ->
  In (anchor_of cd b) (calls_to cd heap b rs t).
Proof.
  intros Hr Ht. unfold calls_to. apply list_elem_of_In, list_elem_of_omap.
  exists r. split; [by apply list_elem_of_In|]. by rewrite Ht, Nat.eqb_refl.
Qed.

Lemma unresolved_no_edge (cd : pydict Container) (heap : list FileBlock)
    (b : FileBlock) (rs : list string) (j : nat) :
  (forall r, In r rs -> target heap r = None) ->
  callees cd heap rs = [] /\ calls_to cd heap b rs j = [].
Proof.
  unfold callees, calls_to. induction rs as [|r rs IH]; intros H; [done|].
  cbn [omap list_omap]. rewrite (H r) by (by left).
  apply IH. intros r' Hr'. apply H. by right.
Qed.

(** C7. Given blocks with distinct names, each stored under its name,
    and the documents they belong to, [find_calls] raises nothing and
    leaves every block with its anchor [<doc-path>#<kind>::<name>] set,
    with the code anchors of the targets of its resolvable markers
    appended to its calls list, and with the anchors of its callers
    appended to its called-by list, in scan order. So when a marker of [A]
    resolves to [B], the anchor of [A] is in the called-by list of [B] and
    the anchor of [B], written with the kind [code] whatever the kind of
    [B], is in the calls list of [A]; markers that resolve to no block
    add nothing. *)
Theorem find_calls_builds_call_graph (cd : pydict Container) (heap : list FileBlock) :
  NoDup (map name heap) ->
  (forall b, In b heap -> dict_mem cd (container b) = true) ->
  find_calls cd (heap, blocks_of heap) = ret (imap (linked cd heap) heap, blocks_of heap)
  /\ (forall i j A B r,
        heap !! i = Some A -> heap !! j = Some B ->
        In r (references A) -> PyStr.strip r = name B ->
        In (anchor_of cd A) (called_by (linked cd heap j B))
        /\ In (code_anchor_of cd B) (calling (linked cd heap i A))
        /\ anchor_of cd A =
           OsPath.join (doc_dir_of cd (container A)) (container A +:+ ".html")
             +:+ "#" +:+ type A +:+ "::" +:+ name A
        /\ code_anchor_of cd B =
           OsPath.join (doc_dir_of cd (container B)) (container B +:+ ".html")
             +:+ "#code::" +:+ name B)
  /\ (forall i A,
        heap !! i = Some A ->
        (forall r, In r (references A) -> target heap r = None) ->
        calling (linked cd heap i A) = calling A
        /\ forall j, calls_to cd heap A (references A) j = []).
Proof.
  intros Hnames Hconts. split; [by apply find_calls_linked|]. split.
  - intros i j A B r Hi Hj Hr Hname.
    assert (Ht : target heap r = Some j).
    { unfold target, blocks_of. rewrite Hname.
      by rewrite (blocks_from_get_name heap 0 j B Hnames Hj). }
    split; [|split; [|done]].
    + cbn [linked mk_block called_by]. apply in_or_app. right.
      unfold callers. apply in_concat.
      exists (calls_to cd heap A (references A) j). split.
      * apply in_map_iff. exists A. split; [done|].
        apply list_elem_of_In. by eapply list_elem_of_lookup_2.
      * by apply (calls_to_elem _ _ _ _ r).
    + cbn [linked mk_block calling]. apply in_or_app. right.
      by apply (callees_elem _ _ _ r j).
  - intros i A Hi Hnone.
    destruct (unresolved_no_edge cd heap A (references A) 0 Hnone) as [Hc _].
    split.
    + cbn [linked mk_block calling]. by rewrite Hc, app_nil_r.
    + intros j. by destruct (unresolved_no_edge cd heap A (references A) j Hnone).
Qed.

Lemma find_calls_builds_call_graph_witness :
  find_calls graph_containers (graph_heap, blocks_of graph_heap)
    = ret (imap (linked graph_containers graph_heap) graph_heap, blocks_of graph_heap)
  /\ (forall i j A B r,
        graph_heap !! i = Some A -> graph_heap !! j = Some B ->
        In r (references A) -> PyStr.strip r = name B ->
        In (anchor_of graph_containers A)
           (called_by (linked graph_containers graph_heap j B))
        /\ In (code_anchor_of graph_containers B)
              (calling (linked graph_containers graph_heap i A))
        /\ anchor_of graph_containers A =
           OsPath.join (doc_dir_of graph_containers (container A))
             (container A +:+ ".html") +:+ "#" +:+ type A +:+ "::" +:+ name A
        /\ code_anchor_of graph_containers B =
           OsPath.join (doc_dir_of graph_containers (container B))
             (container B +:+ ".html") +:+ "#code::" +:+ name B)
  /\ (forall i A,
        graph_heap !! i = Some A ->
        (forall r, In r (references A) -> target graph_heap r = None) ->
        calling (linked graph_containers graph_heap i A) = calling A
        /\ forall j, calls_to graph_containers graph_heap A (references A) j = []).
Proof.
  apply (find_calls_builds_call_graph graph_containers graph_heap).
  - change (NoDup ["main"; "helper"]).
    apply (bool_decide_unpack (NoDup ["main"; "helper"])). vm_compute. exact I.
  - intros b [<-|[<-|[]]]; vm_compute; reflexivity.
Defined.

(** The graph of the sample blocks, evaluated: [helper], a code
    fragment, calls the file fragment [main], whose anchor in the calls
    list of [helper] still says [code]. *)
Example find_calls_sample :
  find_calls graph_containers (graph_heap, blocks_of graph_heap) =
  ret ([mk_block graph_containers (sample_block "file" "main" "@call{helper}
  @call{nothing}")
          ["docs/doc.html#code::helper"] ["docs/doc.html#code::helper"] true;
        mk_block graph_containers (sample_block "code" "helper" "@call{ main }")
          ["docs/doc.html#code::main"] ["docs/doc.html#file::main"] true],
       [("main", 0); ("helper", 1)]).
Proof. vm_compute. reflexivity. Qed.

(** ** What the driver hands to [find_calls] *)

Lemma dict_set_In {V} (d : pydict V) (k : string) (v : V) (k1 : string) (v1 : V) :
  In (k1, v1) (dict_set d k v) -> In (k1, v1) d \/ (k1 = k /\ v1 = v).
Proof.
  induction d as [|[k' v'] d IH]; simpl.
  - intros [[= <- <-]|[]]. by right.
  - destruct (String.eqb k' k) eqn:E; simpl.
    + apply String.eqb_eq in E as ->. intros [[= <- <-]|H]; [by right|].
      left. by right.
    + intros [H|H]; [left; by left|]. destruct (IH H) as [?|?]; [|by right].
      left. by right.
Qed.

Lemma dict_set_keys {V} (d : pydict V) (k : string) (v : V) :
  dict_keys (dict_set d k v) =
  if dict_mem d k then dict_keys d else dict_keys d ++ [k].
Proof.
  unfold dict_mem. induction d as [|[k' v'] d IH]; simpl; [done|].
  destruct (String.eqb k' k) eqn:E; simpl; [done|].
  rewrite IH. by destruct (dict_get d k).
Qed.

Lemma dict_mem_keys {V} (d : pydict V) (k : string) :
  dict_mem d k = false -> ~ In k (dict_keys d).
Proof.
  unfold dict_mem. induction d as [|[k' v'] d IH]; simpl; [by intros _ []|].
  destruct (String.eqb k' k) eqn:E; [done|].
  apply String.eqb_neq in E. intros H [?|?]; [done|]. by apply IH.
Qed.

Lemma dict_In_mem {V} (d : pydict V) (k : string) (v : V) :
  In (k, v) d -> dict_mem d k = true.
Proof.
  unfold dict_mem. induction d as [|[k' v'] d IH]; simpl; [done|].
  destruct (String.eqb k' k) eqn:E; [done|].
  apply String.eqb_neq in E. intros [[= -> ->]|H]; [done|]. by apply IH.
Qed.

Lemma dict_set_NoDup {V} (d : pydict V) (k : string) (v : V) :
  NoDup (dict_keys d) -> NoDup (dict_keys (dict_set d k v)).
Proof.
  intros H. rewrite dict_set_keys. destruct (dict_mem d k) eqn:E; [done|].
  apply NoDup_app. split; [done|]. split.
  - intros x Hx Hk. apply list_elem_of_singleton in Hk as ->.
    apply (dict_mem_keys d k E). by apply list_elem_of_In.
  - apply NoDup_singleton.
Qed.

Lemma dict_set_named (d : pydict FileBlock) (b : FileBlock) :
  keys_named d -> keys_named (dict_set d (name b) b).
Proof.
  intros H k b' Hin. apply dict_set_In in Hin as [Hin|[-> ->]]; [|done].
  by apply H.
Qed.

Lemma dict_merge_spec (d2 : pydict FileBlock) : forall d1,
  keys_named d1 -> keys_named d2 -> NoDup (dict_keys d1) ->
  keys_named (dict_merge d1 d2) /\ NoDup (dict_keys (dict_merge d1 d2))
  /\ forall k b, In (k, b) (dict_merge d1 d2) -> In (k, b) d1 \/ In (k, b) d2.
Proof.
  unfold dict_merge. induction d2 as [|[k v] d2 IH]; intros d1 H1 H2 Hnd; simpl.
  - split; [done|]. split; [done|]. intros k b Hin. by left.
  - assert (Hk : k = name v) by (apply H2; by left). subst k.
    destruct (IH (dict_set d1 (name v) v)) as (Hn & Hd & Hin).
    + by apply dict_set_named.
    + intros k b Hb. apply H2. by right.
    + by apply dict_set_NoDup.
    + split; [done|]. split; [done|]. intros k b Hb.
      destruct (Hin k b Hb) as [Hb'|Hb']; [|right; by right].
      apply dict_set_In in Hb' as [?|[-> ->]]; [by left|]. right. by left.
Qed.

Lemma addresses_blocks_from (d : pydict FileBlock) : forall i,
  keys_named d -> addresses i d = blocks_from i (dict_values d).
Proof.
  induction d as [|[k b] d IH]; intros i H; simpl; [done|].
  rewrite (H k b) by (by left). f_equal. apply IH.
  intros k' b' Hin. apply H. by right.
Qed.

Lemma named_values_keys (d : pydict FileBlock) :
  keys_named d -> map name (dict_values d) = dict_keys d.
Proof.
  induction d as [|[k b] d IH]; intros H; simpl; [done|].
  rewrite (H k b) by (by left). f_equal. apply IH.
  intros k' b' Hin. apply H. by right.
Qed.

(** The registries [make_blocks] builds. *)
Lemma register_block_spec (l : Litera) (block : Block) :
  keys_named (file_blocks l) -> keys_named (code_blocks l) ->
  NoDup (dict_keys (file_blocks l)) -> NoDup (dict_keys (code_blocks l)) ->
  let l' := register_block l block in
  keys_named (file_blocks l') /\ keys_named (code_blocks l')
  /\ NoDup (dict_keys (file_blocks l')) /\ NoDup (dict_keys (code_blocks l'))
  /\ containers l' = containers l
  /\ forall k b, In (k, b) (file_blocks l') \/ In (k, b) (code_blocks l') ->
       In (k, b) (file_blocks l) \/ In (k, b) (code_blocks l)
       \/ block = FragmentBlock b.
Proof.
  intros H1 H2 H3 H4. unfold register_block.
  destruct block as [dc dn|fb]; [by repeat split; auto; intros k b [?|?]; auto|].
  destruct (String.eqb (type fb) "file"); [|destruct (String.eqb (type fb) "code")];
    cbn [file_blocks code_blocks containers].
  - repeat split; auto using dict_set_named, dict_set_NoDup.
    intros k b [H|H]; [|auto].
    apply dict_set_In in H as [?|[-> ->]]; auto.
  - repeat split; auto using dict_set_named, dict_set_NoDup.
    intros k b [H|H]; [auto|].
    apply dict_set_In in H as [?|[-> ->]]; auto.
  - repeat split; auto. intros k b [?|?]; auto.
Qed.

Lemma register_blocks_spec (bs : list Block) : forall l,
  keys_named (file_blocks l) -> keys_named (code_blocks l) ->
  NoDup (dict_keys (file_blocks l)) -> NoDup (dict_keys (code_blocks l)) ->
  let l' := fold_left register_block bs l in
  keys_named (file_blocks l') /\ keys_named (code_blocks l')
  /\ NoDup (dict_keys (file_blocks l')) /\ NoDup (dict_keys (code_blocks l'))
  /\ containers l' = containers l
  /\ forall k b, In (k, b) (file_blocks l') \/ In (k, b) (code_blocks l') ->
       In (k, b) (file_blocks l) \/ In (k, b) (code_blocks l)
       \/ In (FragmentBlock b) bs.
Proof.
  induction bs as [|block bs IH]; intros l H1 H2 H3 H4; cbn [fold_left].
  - repeat split; auto. intros k b [?|?]; auto.
  - destruct (register_block_spec l block H1 H2 H3 H4) as (A1 & A2 & A3 & A4 & A5 & A6).
    destruct (IH _ A1 A2 A3 A4) as (B1 & B2 & B3 & B4 & B5 & B6).
    repeat split; auto; [congruence|].
    intros k b Hb. destruct (B6 k b Hb) as [H|[H|H]].
    + destruct (A6 k b (or_introl H)) as [?|[?| -> ]]; auto. right. right. by left.
    + destruct (A6 k b (or_intror H)) as [?|[?| -> ]]; auto. right. right. by left.
    + right. right. by right.
Qed.

Lemma make_blocks_spec (cs : pydict Container) :
  let l := make_blocks {| containers := cs; code_blocks := []; file_blocks := [] |} in
  keys_named (file_blocks l) /\ keys_named (code_blocks l)
  /\ NoDup (dict_keys (file_blocks l)) /\ NoDup (dict_keys (code_blocks l))
  /\ containers l = cs
  /\ forall k b, In (k, b) (file_blocks l) \/ In (k, b) (code_blocks l) ->
       exists c, In c (dict_values cs) /\ In (FragmentBlock b) (blocks c).
Proof.
  unfold make_blocks. cbn [containers].
  set (l0 := {| containers := cs; code_blocks := []; file_blocks := [] |}).
  assert (Hgen : forall (vs : list Container) l,
            keys_named (file_blocks l) -> keys_named (code_blocks l) ->
            NoDup (dict_keys (file_blocks l)) -> NoDup (dict_keys (code_blocks l)) ->
            let l' := fold_left (fun l c => fold_left register_block (blocks c) l) vs l in
            keys_named (file_blocks l') /\ keys_named (code_blocks l')
            /\ NoDup (dict_keys (file_blocks l')) /\ NoDup (dict_keys (code_blocks l'))
            /\ containers l' = containers l
            /\ forall k b, In (k, b) (file_blocks l') \/ In (k, b) (code_blocks l') ->
                 In (k, b) (file_blocks l) \/ In (k, b) (code_blocks l)
                 \/ exists c, In c vs /\ In (FragmentBlock b) (blocks c)).
  { induction vs as [|c vs IH]; intros l H1 H2 H3 H4; cbn [fold_left].
    - repeat split; auto. intros k b [?|?]; auto.
    - destruct (register_blocks_spec (blocks c) l H1 H2 H3 H4)
        as (A1 & A2 & A3 & A4 & A5 & A6).
      destruct (IH _ A1 A2 A3 A4) as (B1 & B2 & B3 & B4 & B5 & B6).
      repeat split; auto; [congruence|].
      intros k b Hb. destruct (B6 k b Hb) as [H|[H|(c' & Hc' & H)]].
      + destruct (A6 k b (or_introl H)) as [?|[?|?]]; auto.
        right. right. exists c. split; [by left|done].
      + destruct (A6 k b (or_intror H)) as [?|[?|?]]; auto.
        right. right. exists c. split; [by left|done].
      + right. right. exists c'. split; [by right|done]. }
  destruct (Hgen (dict_values cs) l0) as (B1 & B2 & B3 & B4 & B5 & B6);
    try (by intros ? ? []); try apply NoDup_nil_2.
  repeat split; auto. intros k b Hb.
  destruct (B6 k b Hb) as [H|[H|H]]; [destruct H..|exact H].
Qed.

Lemma foldM_inv {A B} (f : A -> B -> result A) (P : A -> Prop) :
  (forall a x a', f a x = ret a' -> P a -> P a') ->
  forall l a a', foldM f l a = ret a' -> P a -> P a'.
Proof.
  intros Hf l. induction l as [|x l IH]; intros a a'; simpl.
  - by intros [= <-].
  - destruct (f a x) as [e|a1] eqn:E; simpl; [done|].
    intros H Pa. apply (IH _ _ H). by eapply Hf.
Qed.

Lemma make_block_container (fs : FileSystem)
    (block_type content filename language nm : string) (fb : FileBlock) :
  make_block fs block_type content filename language nm = ret (FragmentBlock fb) ->
  container fb = stem filename.
Proof.
  unfold make_block, DocumentationBlock_init, CodeBlock_init, FileBlock_init, Block_init.
  destruct (String.eqb block_type "doc").
  { destruct (isdir fs filename); [done|].
    destruct (negb (exists_ fs filename)); done. }
  destruct (String.eqb block_type "file").
  { destruct (isdir fs filename); [done|].
    destruct (negb (exists_ fs filename)); [done|]. cbn [bind ret].
    destruct (isdir fs nm); [done|].
    destruct (String.eqb _ ""); [done|]. cbn [bind ret]. by intros [= <-]. }
  destruct (String.eqb block_type "code"); [|done].
  destruct (isdir fs filename); [done|].
  destruct (negb (exists_ fs filename)); [done|]. cbn [bind ret].
  destruct (isdir fs nm); [done|]. cbn [bind ret]. by intros [= <-].
Qed.

Lemma add_sound (c : Container) (b : Block) (n : string) :
  cname c = n -> container_sound c ->
  (forall fb, b = FragmentBlock fb -> container fb = n) ->
  cname (add c b) = n /\ container_sound (add c b).
Proof.
  intros Hn Hc Hb. split; [done|]. intros fb Hin.
  unfold add in Hin. cbn in Hin. apply in_app_or in Hin as [Hin|[Heq|[]]].
  - by apply Hc.
  - cbn. rewrite Hn. by apply Hb.
Qed.

Lemma seg_line_sound (fs : FileSystem) (filename : string) (st st' : seg_state)
    (line : string) :
  seg_line fs filename st line = ret st' ->
  cname (sg_container st) = stem filename /\ container_sound (sg_container st) ->
  cname (sg_container st') = stem filename /\ container_sound (sg_container st').
Proof.
  intros H [Hn Hc]. unfold seg_line in H.
  assert (Hadd : forall b,
            make_block fs (sg_block_type st) (sg_content st) filename
              (sg_language st) (sg_name st) = ret b ->
            cname (add (sg_container st) b) = stem filename
            /\ container_sound (add (sg_container st) b)).
  { intros b Eb. apply add_sound; [done..|].
    intros fb Hfb. rewrite Hfb in Eb. by eapply make_block_container. }
  destruct (Re.re_match pattern1 line).
  - destruct (negb _).
    + destruct (make_block _ _ _ _ _ _) as [e|b] eqn:Eb; [done|].
      cbn [bind ret] in H. injection H as <-. cbn [sg_container]. by apply Hadd.
    + cbn [bind ret] in H. by injection H as <-.
  - destruct (Re.re_match pattern2 line).
    + destruct (_ && _).
      * destruct (make_block _ _ _ _ _ _) as [e|b] eqn:Eb; [done|].
        cbn [bind ret] in H. injection H as <-. cbn [sg_container]. by apply Hadd.
      * cbn [bind ret] in H. by injection H as <-.
    + by injection H as <-.
Qed.

Lemma parse_metadata_keeps (fs : FileSystem) (c c' : Container) (text : string) :
  parse_metadata fs c text = ret c' -> blocks c' = blocks c /\ cname c' = cname c.
Proof.
  unfold parse_metadata. intros H.
  destruct (set_doc_dir _ _) as [e|c2] eqn:E2; [done|]. cbn [bind] in H.
  destruct (set_code_dir _ _) as [e|c3] eqn:E3; [done|]. cbn [bind] in H.
  destruct (add_local_links _ _ _) as [e|c7] eqn:E7; [done|]. cbn [bind] in H.
  apply add_web_links_ok in H. apply add_local_links_ok in E7.
  apply set_code_dir_ok in E3. apply set_doc_dir_ok in E2.
  by subst c' c7 c3 c2.
Qed.

(** A parsed document carries its own name, and so do its fragments. *)
Lemma parse_file_sound (fs : FileSystem) (filename : string) (c : Container) :
  parse_file fs filename = ret c ->
  cname c = stem filename /\ container_sound c.
Proof.
  unfold parse_file, Container_init.
  destruct (isdir fs filename); [done|].
  destruct (negb (exists_ fs filename)); [done|]. cbn [bind ret].
  destruct (String.eqb _ ""); [done|].
  destruct (parse_metadata _ _ _) as [e|c1] eqn:E1; [done|]. cbn [bind].
  apply parse_metadata_keeps in E1 as [Hb Hn]. cbn in Hb, Hn.
  destruct (foldM _ _ _) as [e|st] eqn:Est; [done|]. cbn [bind].
  assert (Hst : cname (sg_container st) = stem filename
                /\ container_sound (sg_container st)).
  { eapply (foldM_inv (seg_line fs filename)
              (fun st => cname (sg_container st) = stem filename
                         /\ container_sound (sg_container st))); [|exact Est|].
    - intros a x a' Ha. exact (seg_line_sound fs filename a a' x Ha).
    - cbn [sg_container]. split; [done|]. intros fb Hin. by rewrite Hb in Hin. }
  destruct (_ && _).
  - destruct (make_block _ _ _ _ _ _) as [e|b] eqn:Eb; [done|]. cbn [bind ret].
    intros [= <-]. destruct Hst as [Hn' Hc']. apply add_sound; [done..|].
    intros fb Hfb. rewrite Hfb in Eb. by eapply make_block_container.
  - by intros [= <-].
Qed.

Lemma parse_files_sound (fs : FileSystem) (filenames : list string)
    (cs : pydict Container) :
  parse_files fs filenames = ret cs ->
  forall k c, In (k, c) cs -> k = cname c /\ container_sound c.
Proof.
  unfold parse_files. intros H.
  refine (foldM_inv _ (fun cs => forall k c, In (k, c) cs ->
                                 k = cname c /\ container_sound c) _ _ _ _ H _);
    [|done].
  intros a x a' Ha Hinv k c Hin.
  destruct (parse_file fs x) as [e|c0] eqn:E0; [done|]. cbn [bind ret] in Ha.
  injection Ha as <-. apply dict_set_In in Hin as [Hin|[-> ->]]; [by apply Hinv|].
  split; [done|]. by apply parse_file_sound in E0 as [_ ?].
Qed.

(** X22. For the state [Litera.__init__] builds, the call of
    [find_calls] in [write_documentation] meets the conditions of the
    call-graph theorem: it raises nothing and links every block as
    [linked] says. *)
Lemma write_documentation_graph (fs : FileSystem) (filenames : list string)
    (l : Litera) :
  Litera_init fs filenames = ret l ->
  find_calls (containers l) (blocks_dict l) =
  ret (imap (linked (containers l) (fst (blocks_dict l))) (fst (blocks_dict l)),
       snd (blocks_dict l)).
Proof.
  unfold Litera_init. destruct (parse_files fs filenames) as [e|cs] eqn:Ecs; [done|].
  cbn [bind ret]. intros [= <-].
  destruct (make_blocks_spec cs) as (H1 & H2 & H3 & H4 & H5 & H6).
  set (l := make_blocks _) in *.
  destruct (dict_merge_spec (code_blocks l) (file_blocks l) H1 H2 H3)
    as (Hn & Hd & Hin).
  unfold blocks_dict. cbn [fst snd].
  rewrite (addresses_blocks_from _ 0 Hn). fold (blocks_of (dict_values
    (dict_merge (file_blocks l) (code_blocks l)))).
  apply find_calls_linked.
  - by rewrite named_values_keys.
  - intros b Hb. apply in_map_iff in Hb as ([k b'] & Hk & Hb). cbn in Hk. subst b'.
    destruct (H6 k b) as (c & Hc & Hfb).
    { destruct (Hin k b Hb); auto. }
    apply in_map_iff in Hc as ([kc c'] & Hkc & Hc). cbn in Hkc. subst c'.
    destruct (parse_files_sound _ _ _ Ecs kc c Hc) as [-> Hsound].
    rewrite H5, (Hsound b Hfb). by eapply dict_In_mem.
Qed.

(** ** When the expander stops *)

(** X1. [replace_calls] gives up only at the limit: when the text it
    returns still has a marker in it, the limit was not the sentinel [-1]
    and the last pass ran at an index that had reached [max_index]. So
    with the sentinel a returned text has no marker left, and below the
    limit the expander never returns an unexpanded marker. *)
Theorem leftover_marker_means_limit_reached (fuel : nat) (content : string)
    (cb : pydict FileBlock) (index max_index : Z) (r : expansion) :
  replace_calls fuel content cb index max_index = Some r ->
  Re.found (Re.re_search call_search_re (text r)) = true ->
  max_index <> (-1)%Z /\ (max_index <= index + Z.of_nat (passes r) - 1)%Z.
Proof.
  revert content index r.
  induction fuel as [|fuel IH]; intros content index r H Hfound;
    rewrite replace_calls_unfold in H;
    destruct (one_pass cb content) as [block_text out];
    destruct (((max_index =? -1)%Z || (index <? max_index)%Z)
              && Re.found (Re.re_search call_search_re block_text)) eqn:E.
  - done.
  - injection H as <-. cbn [text passes] in *. rewrite Hfound, andb_true_r in E.
    apply orb_false_iff in E as [E1 E2]. lia.
  - destruct (replace_calls fuel block_text cb (index + 1) max_index) as [r'|] eqn:Er;
      [|done].
    injection H as <-. cbn [text passes] in *.
    destruct (IH _ _ _ Er Hfound) as [H1 H2]. lia.
  - injection H as <-. cbn [text passes] in *. rewrite Hfound, andb_true_r in E.
    apply orb_false_iff in E as [E1 E2]. lia.
Qed.

Lemma leftover_marker_means_limit_reached_witness :
  (12 <> -1)%Z
  /\ (12 <= 0 + Z.of_nat (passes {| text := "A B A B A B A B A B A B A @call{b}";
                                     printed := []; passes := 13 |}) - 1)%Z.
Proof.
  apply (leftover_marker_means_limit_reached 12 "@call{a}" cyclic_registry 0 12);
    vm_compute; reflexivity.
Defined.

(** X2. The sentinel [-1] switches the protection against cycles off: on
    a text that holds a marker and that a pass maps to itself (a fragment
    whose content is its own marker, say) the recursion never ends,
    whatever depth it is given. *)
Theorem sentinel_disables_cycle_protection (cb : pydict FileBlock)
    (content : string) (fuel : nat) (index : Z) :
  fst (one_pass cb content) = content ->
  Re.found (Re.re_search call_search_re content) = true ->
  replace_calls fuel content cb index (-1) = None.
Proof.
  intros Hfix Hfound. revert index.
  induction fuel as [|fuel IH]; intros index; rewrite replace_calls_unfold;
    destruct (one_pass cb content) as [block_text out]; cbn [fst] in Hfix;
    subst block_text; rewrite Hfound; cbn [Z.eqb orb andb]; [done|].
  by rewrite IH.
Qed.

Lemma sentinel_disables_cycle_protection_witness :
  replace_calls 1000 "@call{loop}" self_registry 0 (-1) = None.
Proof.
  apply (sentinel_disables_cycle_protection self_registry "@call{loop}" 1000 0);
    vm_compute; reflexivity.
Defined.

(** ** What the parser builds *)

Lemma take_drop (n : nat) : forall s, PyStr.take n s +:+ PyStr.drop n s = s.
Proof.
  induction n as [|n IH]; intros [|c s]; simpl; str_norm; try done.
  by rewrite IH.
Qed.

Lemma endswith_char (s : string) (c : ascii) :
  PyStr.endswith s (String c "") = true -> exists s0, s = s0 +:+ String c "".
Proof.
  unfold PyStr.endswith. intros H. apply andb_true_iff in H as [_ H].
  apply String.eqb_eq in H. exists (PyStr.take (String.length s - 1) s).
  cbn [String.length] in H. rewrite <- H. by rewrite take_drop.
Qed.

Lemma rstrip_by_last (p : ascii -> bool) (c : ascii) : forall s s0,
  PyStr.rstrip_by p s = s0 +:+ String c "" -> p c = false.
Proof.
  induction s as [|a s IH]; intros s0 H; cbn [PyStr.rstrip_by] in H.
  - by destruct s0.
  - destruct (PyStr.rstrip_by p s) as [|x r] eqn:E.
    + destruct (p a) eqn:Ea; [by destruct s0|].
      destruct s0 as [|y s0]; str_norm_in H.
      * by injection H as <-.
      * injection H as _ H. by destruct s0.
    + destruct s0 as [|y s0]; str_norm_in H; [done|].
      injection H as _ H. by apply (IH s0).
Qed.

Lemma rstrip_newlines (s : string) :
  PyStr.endswith (PyStr.rstrip_by (Ascii.eqb nl) s) (String nl "") = false.
Proof.
  destruct (PyStr.endswith _ _) eqn:E; [|done].
  apply endswith_char in E as [s0 E]. apply rstrip_by_last in E.
  by rewrite Ascii.eqb_refl in E.
Qed.

(** A line that does not begin with three backquotes is no fence. *)
Lemma no_fence (line : string) :
  String.prefix "```" line = false ->
  Re.re_match pattern1 line = None /\ Re.re_match pattern2 line = None.
Proof.
  intros H. unfold Re.re_match, pattern1, pattern2. cbn [Re.exec].
  by rewrite !exec_Str, H.
Qed.

Lemma make_block_spec (fs : FileSystem) (bt content filename lang nm : string)
    (b : Block) :
  make_block fs bt content filename lang nm = ret b ->
  isdir fs filename = false /\ exists_ fs filename = true
  /\ ((bt = "doc"
       /\ b = DocumentationBlock (PyStr.rstrip_by (Ascii.eqb nl) content) (stem filename))
      \/ (isdir fs nm = false
          /\ ((bt = "file" /\ OsPath.splitext_ext nm <> "") \/ bt = "code")
          /\ b = FragmentBlock
                   {| content := PyStr.rstrip_by (Ascii.eqb nl) content;
                      container := stem filename; language := lang; location := nm;
                      calling := []; called_by := []; name := stem nm; type := bt;
                      calling_name := "" |})).
Proof.
  unfold make_block, DocumentationBlock_init, CodeBlock_init, FileBlock_init, Block_init.
  destruct (String.eqb bt "doc") eqn:E1.
  { apply String.eqb_eq in E1 as ->.
    destruct (isdir fs filename); [done|].
    destruct (exists_ fs filename); [|done]. cbn [negb bind ret].
    intros [= <-]. split; [done|]. split; [done|]. by left. }
  destruct (String.eqb bt "file") eqn:E2.
  { apply String.eqb_eq in E2 as ->.
    destruct (isdir fs filename); [done|].
    destruct (exists_ fs filename); [|done]. cbn [negb bind ret].
    destruct (isdir fs nm); [done|].
    destruct (String.eqb _ "") eqn:E; [done|]. cbn [bind ret]. intros [= <-].
    apply String.eqb_neq in E. split; [done|]. split; [done|]. right.
    split; [done|]. split; [by left|done]. }
  destruct (String.eqb bt "code") eqn:E3; [|done].
  apply String.eqb_eq in E3 as ->.
  destruct (isdir fs filename); [done|].
  destruct (exists_ fs filename); [|done]. cbn [negb bind ret].
  destruct (isdir fs nm); [done|]. cbn [bind ret]. intros [= <-].
  split; [done|]. split; [done|]. right. split; [done|]. split; [by right|done].
Qed.

Lemma kind_of_name_cases (nm : string) :
  kind_of_name nm = "file" \/ kind_of_name nm = "code".
Proof. unfold kind_of_name. destruct (Re.found _); auto. Qed.

Lemma make_block_fresh (fs : FileSystem) (bt raw filename lang nm : string)
    (b : Block) :
  make_block fs bt raw filename lang nm = ret b ->
  bt = "doc" \/ bt = kind_of_name nm ->
  fresh_block fs (stem filename) b.
Proof.
  intros H Hbt. apply make_block_spec in H as (_ & _ & [[-> ->]|(Hd & Hk & ->)]).
  - split; [done|]. apply rstrip_newlines.
  - cbn [fresh_block type location name container calling called_by calling_name
         content].
    assert (Hbt' : bt = kind_of_name nm).
    { destruct Hbt as [->|]; [|done]. by destruct Hk as [[? _]|?]. }
    split; [done|]. split.
    + intros ->. by destruct Hk as [[_ ?]|?].
    + repeat split; try done. apply rstrip_newlines.
Qed.

Lemma add_fresh (fs : FileSystem) (filename : string) (c : Container) (b : Block) :
  blocks_fresh fs filename c -> fresh_block fs (stem filename) b ->
  blocks_fresh fs filename (add c b).
Proof.
  intros Hc Hb b' Hin. unfold add in Hin. cbn in Hin.
  apply in_app_or in Hin as [Hin|[<-|[]]]; [by apply Hc|done].
Qed.

Lemma seg_line_fresh (fs : FileSystem) (filename : string) (st st' : seg_state)
    (line : string) :
  seg_line fs filename st line = ret st' ->
  seg_inv st /\ blocks_fresh fs filename (sg_container st) ->
  seg_inv st' /\ blocks_fresh fs filename (sg_container st').
Proof.
  intros H [Hi Hc]. unfold seg_line in H.
  assert (Hadd : forall b,
            make_block fs (sg_block_type st) (sg_content st) filename
              (sg_language st) (sg_name st) = ret b ->
            blocks_fresh fs filename (add (sg_container st) b)).
  { intros b Eb. apply add_fresh; [done|]. by eapply make_block_fresh. }
  destruct (Re.re_match pattern1 line) as [m|].
  - assert (Hi' : forall c, seg_inv
              {| sg_container := c; sg_content := "";
                 sg_language := PyStr.strip (Re.group m 1);
                 sg_name := PyStr.strip (Re.group m 2);
                 sg_block_type :=
                   match Re.re_search extension_re (PyStr.strip (Re.group m 2)) with
                   | Some _ => "file"
                   | None => "code"
                   end |}).
    { intros c. right. cbn [sg_block_type sg_name]. unfold kind_of_name.
      by destruct (Re.re_search _ _). }
    destruct (negb _).
    + destruct (make_block _ _ _ _ _ _) as [e|b] eqn:Eb; [done|].
      cbn [bind ret] in H. injection H as <-. split; [apply Hi'|].
      cbn [sg_container]. by apply Hadd.
    + cbn [bind ret] in H. injection H as <-. split; [apply Hi'|done].
  - destruct (Re.re_match pattern2 line).
    + destruct (_ && _).
      * destruct (make_block _ _ _ _ _ _) as [e|b] eqn:Eb; [done|].
        cbn [bind ret] in H. injection H as <-. split; [by left|].
        cbn [sg_container]. by apply Hadd.
      * cbn [bind ret] in H. injection H as <-. split; [by left|done].
    + injection H as <-. split; [exact Hi|done].
Qed.

(** Every block of a parsed document is as [make_block] made it. *)
Lemma parse_file_fresh (fs : FileSystem) (filename : string) (c : Container) :
  parse_file fs filename = ret c -> blocks_fresh fs filename c.
Proof.
  unfold parse_file, Container_init.
  destruct (isdir fs filename); [done|].
  destruct (negb (exists_ fs filename)); [done|]. cbn [bind ret].
  destruct (String.eqb _ ""); [done|].
  destruct (parse_metadata _ _ _) as [e|c1] eqn:E1; [done|]. cbn [bind].
  apply parse_metadata_keeps in E1 as [Hb Hn]. cbn in Hb, Hn.
  destruct (foldM _ _ _) as [e|st] eqn:Est; [done|]. cbn [bind].
  assert (Hst : seg_inv st /\ blocks_fresh fs filename (sg_container st)).
  { refine (foldM_inv (seg_line fs filename)
              (fun st => seg_inv st /\ blocks_fresh fs filename (sg_container st))
              _ _ _ _ Est _).
    - intros a x a' Ha. exact (seg_line_fresh fs filename a a' x Ha).
    - split; [by left|]. intros b Hin. cbn [sg_container] in Hin. by rewrite Hb in Hin. }
  destruct Hst as [Hi Hc]. destruct (_ && _).
  - destruct (make_block _ _ _ _ _ _) as [e|b] eqn:Eb; [done|]. cbn [bind ret].
    intros [= <-]. apply add_fresh; [done|]. by eapply make_block_fresh.
  - by intros [= <-].
Qed.

Lemma dict_get_set {V} (d : pydict V) (k : string) (v : V) (k' : string) :
  dict_get (dict_set d k v) k' = if String.eqb k k' then Some v else dict_get d k'.
Proof.
  induction d as [|[k0 v0] d IH]; simpl; [done|].
  destruct (String.eqb k0 k) eqn:E; simpl.
  - apply String.eqb_eq in E as ->. by destruct (String.eqb k k').
  - rewrite IH. destruct (String.eqb k0 k') eqn:E'; [|done].
    apply String.eqb_eq in E' as ->. by rewrite String.eqb_sym, E.
Qed.

Lemma foldM_inv_In {A B} (f : A -> B -> result A) (P : A -> Prop) (l : list B) :
  (forall a x a', In x l -> f a x = ret a' -> P a -> P a') ->
  forall a a', foldM f l a = ret a' -> P a -> P a'.
Proof.
  induction l as [|x l IH]; intros Hf a a'; simpl.
  - by intros [= <-].
  - destruct (f a x) as [e|a1] eqn:E; simpl; [done|].
    intros H Pa. apply (IH (fun a x a' Hx => Hf a x a' (or_intror Hx)) _ _ H).
    eapply Hf; [by left|exact E|exact Pa].
Qed.

(** Lines that are no fences are gathered, and nothing else changes. *)
Lemma seg_lines_prose (fs : FileSystem) (filename : string) (lines : list string) :
  (forall line, In line lines -> String.prefix "```" line = false) ->
  forall st, exists gathered,
    foldM (seg_line fs filename) lines st =
    ret {| sg_container := sg_container st; sg_content := gathered;
           sg_language := sg_language st; sg_name := sg_name st;
           sg_block_type := sg_block_type st |}.
Proof.
  induction lines as [|line lines IH]; intros Hl st; cbn [foldM].
  - exists (sg_content st). by destruct st.
  - destruct (no_fence line (Hl line (or_introl eq_refl))) as [H1 H2].
    unfold seg_line at 1. rewrite H1, H2. cbn [bind ret].
    destruct (IH (fun l H => Hl l (or_intror H))
                {| sg_container := sg_container st;
                   sg_content := sg_content st +:+ line +:+ String nl "";
                   sg_language := sg_language st; sg_name := sg_name st;
                   sg_block_type := sg_block_type st |}) as [g Hg].
    exists g. exact Hg.
Qed.

(** X3. Prose is kept only when a fence follows it: a document in which
    no line begins with three backquotes parses to a container with no
    block at all, whatever its prose. *)
Theorem prose_only_document_has_no_blocks (fs : FileSystem) (filename : string)
    (c : Container) :
  parse_file fs filename = ret c ->
  (forall line, In line (PyStr.split nl (read fs filename)) ->
     String.prefix "```" line = false) ->
  blocks c = [].
Proof.
  unfold parse_file, Container_init. intros H Hl.
  destruct (isdir fs filename); [done|].
  destruct (negb (exists_ fs filename)); [done|]. cbn [bind ret] in H.
  destruct (String.eqb _ ""); [done|].
  destruct (parse_metadata _ _ _) as [e|c1] eqn:E1; [done|]. cbn [bind] in H.
  apply parse_metadata_keeps in E1 as [Hb _]. cbn in Hb.
  destruct (seg_lines_prose fs filename _ Hl
              {| sg_container := c1; sg_content := ""; sg_language := "";
                 sg_name := ""; sg_block_type := "doc" |}) as [g Hg].
  rewrite Hg in H. cbn [bind ret sg_content sg_block_type sg_container] in H.
  change (negb (String.eqb "doc" "doc")) with false in H. rewrite andb_false_r in H.
  by injection H as <-.
Qed.

Lemma prose_only_document_has_no_blocks_witness :
  parse_file (sample_fs prose_text) "doc.md"
    = ret (with_title (fresh_container "doc") "Notes")
  /\ blocks (with_title (fresh_container "doc") "Notes") = [].
Proof.
  assert (H : parse_file (sample_fs prose_text) "doc.md"
              = ret (with_title (fresh_container "doc") "Notes"))
    by (vm_compute; reflexivity).
  split; [exact H|].
  apply (prose_only_document_has_no_blocks (sample_fs prose_text) "doc.md" _ H).
  intros line Hin. vm_compute in Hin. destruct Hin as [<-|[<-|[]]]; reflexivity.
Defined.

(** X4. Every block the parser stores has the newlines at the end of its
    content removed. *)
Theorem parsed_content_has_no_trailing_newline (fs : FileSystem)
    (filename : string) (c : Container) (b : Block) :
  parse_file fs filename = ret c -> In b (blocks c) ->
  PyStr.endswith (block_content b) (String nl "") = false.
Proof.
  intros H Hb. apply parse_file_fresh in H. specialize (H b Hb).
  destruct b as [dc dn|fb]; cbn [fresh_block block_content] in *; [by destruct H|].
  by destruct H as (_ & _ & _ & _ & _ & _ & _ & _ & H).
Qed.

Lemma parsed_content_has_no_trailing_newline_witness :
  PyStr.endswith (block_content (FragmentBlock (demo_main "demo"))) (String nl "")
    = false.
Proof.
  apply (parsed_content_has_no_trailing_newline demo_fs "demo.md"
           (demo_container "demo")).
  - vm_compute; reflexivity.
  - right. by left.
Defined.

(** X5. Every fragment of a parsed document is a file fragment when its
    name token ends in a dot and word characters, and a code fragment
    otherwise; a file fragment's name token has an extension that
    [os.path.splitext] sees; the name is the token without directory and
    extension; the fragment carries the name of its document; and it
    is not linked to any other block yet. *)
Theorem parsed_fragment_kind_and_name (fs : FileSystem) (filename : string)
    (c : Container) (fb : FileBlock) :
  parse_file fs filename = ret c -> In (FragmentBlock fb) (blocks c) ->
  type fb = (if Re.found (Re.re_search extension_re (location fb))
             then "file" else "code")
  /\ (type fb = "file" -> OsPath.splitext_ext (location fb) <> "")
  /\ name fb = stem (location fb)
  /\ container fb = cname c
  /\ calling fb = [] /\ called_by fb = [] /\ calling_name fb = "".
Proof.
  intros H Hb. destruct (parse_file_sound _ _ _ H) as [Hn _].
  apply parse_file_fresh in H. specialize (H _ Hb). cbn [fresh_block] in H.
  destruct H as (H1 & H2 & H3 & H4 & H5 & H6 & H7 & _ & _).
  rewrite Hn. by repeat split.
Qed.

Lemma parsed_fragment_kind_and_name_witness :
  type (demo_main "demo") =
    (if Re.found (Re.re_search extension_re (location (demo_main "demo")))
     then "file" else "code")
  /\ (type (demo_main "demo") = "file" ->
      OsPath.splitext_ext (location (demo_main "demo")) <> "")
  /\ name (demo_main "demo") = stem (location (demo_main "demo"))
  /\ container (demo_main "demo") = cname (demo_container "demo")
  /\ calling (demo_main "demo") = [] /\ called_by (demo_main "demo") = []
  /\ calling_name (demo_main "demo") = "".
Proof.
  apply (parsed_fragment_kind_and_name demo_fs "demo.md").
  - vm_compute; reflexivity.
  - right. by left.
Defined.

(** ** The dictionary of documents *)

Lemma parse_files_step (fs : FileSystem) (cs cs' : pydict Container) (f : string) :
  (do container <- parse_file fs f;
   ret (dict_set cs (cname container) container)) = ret cs' ->
  exists c, parse_file fs f = ret c /\ cs' = dict_set cs (stem f) c.
Proof.
  destruct (parse_file fs f) as [e|c] eqn:E; [done|]. cbn [bind ret].
  intros [= <-]. exists c. split; [done|].
  by destruct (parse_file_sound _ _ _ E) as [-> _].
Qed.

(** X6. The dictionary of documents is keyed by base name without
    extension, so of several files with the same such name the last one
    listed is the one kept: looking a file's name up gives the container
    parsed from that file, provided no later file has the same name. *)
Theorem later_document_with_same_stem_wins (fs : FileSystem)
    (before after : list string) (f : string) (cs : pydict Container) :
  parse_files fs (before ++ f :: after) = ret cs ->
  (forall g, In g after -> stem g <> stem f) ->
  exists c, parse_file fs f = ret c /\ dict_get cs (stem f) = Some c.
Proof.
  unfold parse_files. rewrite foldM_app. intros H Hafter.
  destruct (foldM _ before _) as [e|cs1]; [done|]. cbn [bind foldM] in H.
  destruct (bind (parse_file fs f) _) as [e|cs2] eqn:E2; [done|]. cbn [bind] in H.
  apply parse_files_step in E2 as (c & Ec & ->). exists c. split; [done|].
  refine (foldM_inv_In _ (fun cs => dict_get cs (stem f) = Some c) after _ _ _ H _).
  - intros a g a' Hg Ha Hinv. apply parse_files_step in Ha as (c' & _ & ->).
    rewrite dict_get_set.
    destruct (String.eqb_spec (stem g) (stem f)) as [Heq|_]; [|done].
    by destruct (Hafter g Hg).
  - by rewrite dict_get_set, String.eqb_refl.
Qed.

Lemma later_document_with_same_stem_wins_witness :
  exists c, parse_file two_dirs_fs "b/doc.md" = ret c
            /\ dict_get [("doc", with_title (fresh_container "doc") "B")]
                 (stem "b/doc.md") = Some c.
Proof.
  apply (later_document_with_same_stem_wins two_dirs_fs ["a/doc.md"] [] "b/doc.md").
  - vm_compute; reflexivity.
  - intros g [].
Defined.

(** X7. [parse_files] returns a dictionary only when every file could be
    parsed: each file listed exists, is no directory and has more than
    white space in it. One file that fails makes the whole call raise. *)
Theorem parse_files_all_or_nothing (fs : FileSystem) (filenames : list string)
    (cs : pydict Container) (f : string) :
  parse_files fs filenames = ret cs -> In f filenames ->
  isdir fs f = false /\ exists_ fs f = true
  /\ PyStr.strip (read fs f) <> ""
  /\ exists c, parse_file fs f = ret c.
Proof.
  unfold parse_files. generalize (@nil (string * Container)).
  induction filenames as [|g filenames IH]; intros acc H Hf; [done|].
  cbn [foldM] in H.
  destruct (bind (parse_file fs g) _) as [e|cs1] eqn:E; [done|]. cbn [bind] in H.
  destruct Hf as [->|Hf]; [|by apply (IH cs1)].
  apply parse_files_step in E as (c & Ec & _).
  assert (Hc := Ec). unfold parse_file, Container_init in Ec.
  destruct (isdir fs f); [done|].
  destruct (exists_ fs f); [|done]. cbn [negb bind ret] in Ec.
  destruct (String.eqb_spec (PyStr.strip (read fs f)) ""); [done|].
  repeat split; try done. by exists c.
Qed.

Lemma parse_files_all_or_nothing_witness :
  isdir demo_fs "demo.md" = false /\ exists_ demo_fs "demo.md" = true
  /\ PyStr.strip (read demo_fs "demo.md") <> ""
  /\ exists c, parse_file demo_fs "demo.md" = ret c.
Proof.
  apply (parse_files_all_or_nothing demo_fs ["demo.md"]
           [("demo", demo_container "demo")]).
  - vm_compute; reflexivity.
  - by left.
Defined.

(** ** The metadata of a parsed document *)

Lemma add_local_links_pairs (fs : FileSystem) (links : list string) :
  forall c c',
    add_local_links fs c links = ret c' ->
    forall link, In link (local_link c') ->
      In link (local_link c) \/ exists t a, link = [t; a] /\ exists_ fs a = true.
Proof.
  unfold add_local_links.
  induction links as [|l links IH]; intros c c'; simpl.
  - intros [= <-] link Hin. by left.
  - unfold list_item.
    destruct (PyStr.split_ws l) as [|t [|a ws]]; simpl; try done.
    unfold add_llink. destruct (exists_ fs a) eqn:Ea; simpl; [|done].
    intros H link Hin. destruct (IH _ _ H link Hin) as [Hl|Hl]; [|by right].
    cbn in Hl. apply in_app_or in Hl as [?|[<-|[]]]; [by left|].
    right. by exists t, a.
Qed.

Lemma add_web_links_pairs (links : list string) :
  forall c c',
    add_web_links c links = ret c' ->
    forall link, In link (web_link c') ->
      In link (web_link c) \/ exists t a, link = [t; a].
Proof.
  unfold add_web_links.
  induction links as [|l links IH]; intros c c'; simpl.
  - intros [= <-] link Hin. by left.
  - unfold list_item.
    destruct (PyStr.split_ws l) as [|t [|a ws]]; simpl; try done.
    intros H link Hin. destruct (IH _ _ H link Hin) as [Hl|Hl]; [|by right].
    cbn in Hl. apply in_app_or in Hl as [?|[<-|[]]]; [by left|].
    right. by exists t, a.
Qed.

Lemma set_doc_dir_dir_ok (c c' : Container) (dir : string) :
  set_doc_dir c dir = ret c' -> dir_ok (doc_dir c) -> dir_ok (doc_dir c').
Proof.
  unfold set_doc_dir. destruct (String.eqb dir ""); [by intros [= <-]|].
  destruct (PyStr.endswith dir "/") eqn:E; [|done]. cbn [negb].
  intros [= <-] _. by right.
Qed.

Lemma set_code_dir_dir_ok (c c' : Container) (dir : string) :
  set_code_dir c dir = ret c' -> dir_ok (code_dir c) -> dir_ok (code_dir c').
Proof.
  unfold set_code_dir. destruct (String.eqb dir ""); [by intros [= <-]|].
  destruct (PyStr.endswith dir "/") eqn:E; [|done]. cbn [negb].
  intros [= <-] _. by right.
Qed.

Lemma parse_metadata_ok (fs : FileSystem) (c c' : Container) (text : string) :
  parse_metadata fs c text = ret c' -> meta_ok fs c -> meta_ok fs c'.
Proof.
  unfold parse_metadata. intros H (Hcd & Hdd & Hll & Hwl).
  destruct (set_doc_dir _ _) as [e|c2] eqn:E2; [done|]. cbn [bind] in H.
  destruct (set_code_dir _ _) as [e|c3] eqn:E3; [done|]. cbn [bind] in H.
  destruct (add_local_links _ _ _) as [e|c7] eqn:E7; [done|]. cbn [bind] in H.
  pose proof (add_web_links_pairs _ _ _ H) as Hw.
  pose proof (add_local_links_pairs _ _ _ _ E7) as Hl.
  pose proof (set_code_dir_dir_ok _ _ _ E3) as Hc3.
  pose proof (set_doc_dir_dir_ok _ _ _ E2) as Hc2.
  apply add_web_links_ok in H. apply add_local_links_ok in E7.
  apply set_code_dir_ok in E3. apply set_doc_dir_ok in E2.
  assert (D2 : dir_ok (doc_dir c2)) by (by apply Hc2).
  assert (D3 : dir_ok (code_dir c3)).
  { apply Hc3. by subst c2. }
  split; [|split; [|split]].
  - by subst c' c7.
  - subst c' c7 c3. exact D2.
  - intros link Hin. subst c'. cbn in Hin.
    destruct (Hl link Hin) as [Hin'|?]; [|done]. subst c3 c2. by apply Hll.
  - intros link Hin. destruct (Hw link Hin) as [Hin'|?]; [|done].
    subst c7 c3 c2. by apply Hwl.
Qed.

Lemma add_meta_ok (fs : FileSystem) (c : Container) (b : Block) :
  meta_ok fs c -> meta_ok fs (add c b).
Proof. done. Qed.

Lemma seg_line_meta_ok (fs : FileSystem) (filename : string) (st st' : seg_state)
    (line : string) :
  seg_line fs filename st line = ret st' ->
  meta_ok fs (sg_container st) -> meta_ok fs (sg_container st').
Proof.
  intros H Hc. unfold seg_line in H.
  destruct (Re.re_match pattern1 line).
  - destruct (negb _).
    + destruct (make_block _ _ _ _ _ _) as [e|b] eqn:Eb; [done|].
      cbn [bind ret] in H. by injection H as <-.
    + cbn [bind ret] in H. by injection H as <-.
  - destruct (Re.re_match pattern2 line).
    + destruct (_ && _).
      * destruct (make_block _ _ _ _ _ _) as [e|b] eqn:Eb; [done|].
        cbn [bind ret] in H. by injection H as <-.
      * cbn [bind ret] in H. by injection H as <-.
    + by injection H as <-.
Qed.

Lemma parse_file_meta_ok (fs : FileSystem) (filename : string) (c : Container) :
  parse_file fs filename = ret c -> meta_ok fs c.
Proof.
  unfold parse_file, Container_init.
  destruct (isdir fs filename); [done|].
  destruct (negb (exists_ fs filename)); [done|]. cbn [bind ret].
  destruct (String.eqb _ ""); [done|].
  destruct (parse_metadata _ _ _) as [e|c1] eqn:E1; [done|]. cbn [bind].
  apply parse_metadata_ok in E1.
  2:{ split; [by left|]. split; [by left|]. split; by intros link []. }
  destruct (foldM _ _ _) as [e|st] eqn:Est; [done|]. cbn [bind].
  assert (Hst : meta_ok fs (sg_container st)).
  { refine (foldM_inv (seg_line fs filename) (fun st => meta_ok fs (sg_container st))
              _ _ _ _ Est E1).
    intros a x a' Ha. exact (seg_line_meta_ok fs filename a a' x Ha). }
  destruct (_ && _).
  - destruct (make_block _ _ _ _ _ _) as [e|b] eqn:Eb; [done|]. cbn [bind ret].
    by intros [= <-].
  - by intros [= <-].
Qed.

Lemma parse_files_In (fs : FileSystem) (filenames : list string)
    (cs : pydict Container) (k : string) (c : Container) :
  parse_files fs filenames = ret cs -> In (k, c) cs ->
  exists f, In f filenames /\ parse_file fs f = ret c.
Proof.
  unfold parse_files. intros H.
  refine (foldM_inv_In _ (fun cs => forall k c, In (k, c) cs ->
            exists f, In f filenames /\ parse_file fs f = ret c)
            filenames _ _ _ H _ k c); [|done].
  intros a x a' Hx Ha Hinv k' c' Hin.
  apply parse_files_step in Ha as (c0 & Ec0 & ->).
  apply dict_set_In in Hin as [Hin|[-> ->]]; [by eapply Hinv|]. by exists x.
Qed.

(** X8. The metadata of every parsed document is well formed: the code
    and the documentation directory are empty or end in the separator, so
    that a file name can be appended to them; every local link is a pair of
    a type and the address of an existing file; every web link is a pair of
    a type and an address. *)
Theorem parsed_metadata_is_well_formed (fs : FileSystem) (filenames : list string)
    (cs : pydict Container) (k : string) (c : Container) :
  parse_files fs filenames = ret cs -> In (k, c) cs ->
  (code_dir c = "" \/ PyStr.endswith (code_dir c) "/" = true)
  /\ (doc_dir c = "" \/ PyStr.endswith (doc_dir c) "/" = true)
  /\ (forall link, In link (local_link c) ->
        exists t a, link = [t; a] /\ exists_ fs a = true)
  /\ (forall link, In link (web_link c) -> exists t a, link = [t; a]).
Proof.
  intros H Hin. destruct (parse_files_In _ _ _ _ _ H Hin) as (f & _ & Hf).
  exact (parse_file_meta_ok _ _ _ Hf).
Qed.

Lemma parsed_metadata_is_well_formed_witness :
  (code_dir metadata_container = ""
   \/ PyStr.endswith (code_dir metadata_container) "/" = true)
  /\ (doc_dir metadata_container = ""
      \/ PyStr.endswith (doc_dir metadata_container) "/" = true)
  /\ (forall link, In link (local_link metadata_container) ->
        exists t a, link = [t; a] /\ exists_ (sample_fs metadata_text) a = true)
  /\ (forall link, In link (web_link metadata_container) -> exists t a, link = [t; a]).
Proof.
  apply (parsed_metadata_is_well_formed (sample_fs metadata_text) ["doc.md"]
           [("doc", metadata_container)] "doc").
  - vm_compute; reflexivity.
  - by left.
Defined.

(** ** The registries of the driver *)

Lemma fold_left_concat {A B C} (f : A -> C -> A) (g : B -> list C) (xs : list B) :
  forall acc,
    fold_left (fun acc x => fold_left f (g x) acc) xs acc
    = fold_left f (concat (map g xs)) acc.
Proof.
  induction xs as [|x xs IH]; intros acc; cbn [fold_left concat map]; [done|].
  by rewrite fold_left_app, IH.
Qed.

Lemma register_block_lookup (k : string) (l : Litera) (b : Block) :
  dict_get (file_blocks (register_block l b)) k =
    match last_named "file" k [b] with
    | Some fb => Some fb
    | None => dict_get (file_blocks l) k
    end
  /\ dict_get (code_blocks (register_block l b)) k =
    match last_named "code" k [b] with
    | Some fb => Some fb
    | None => dict_get (code_blocks l) k
    end.
Proof.
  destruct b as [dc dn|fb]; [done|]. cbn [last_named]. unfold register_block.
  destruct (String.eqb_spec (type fb) "file") as [E|E].
  - rewrite E. change (String.eqb "file" "code") with false.
    cbn [file_blocks code_blocks andb]. rewrite dict_get_set.
    by destruct (String.eqb (name fb) k).
  - destruct (String.eqb_spec (type fb) "code") as [E'|E'];
      cbn [file_blocks code_blocks andb]; [|done].
    rewrite dict_get_set. by destruct (String.eqb (name fb) k).
Qed.

Lemma register_blocks_lookup (k : string) (bs : list Block) : forall l,
  dict_get (file_blocks (fold_left register_block bs l)) k =
    match last_named "file" k bs with
    | Some fb => Some fb
    | None => dict_get (file_blocks l) k
    end
  /\ dict_get (code_blocks (fold_left register_block bs l)) k =
    match last_named "code" k bs with
    | Some fb => Some fb
    | None => dict_get (code_blocks l) k
    end.
Proof.
  induction bs as [|b bs IH]; intros l; [done|].
  cbn [fold_left]. destruct (IH (register_block l b)) as [-> ->].
  destruct (register_block_lookup k l b) as [-> ->].
  cbn [last_named].
  by destruct (last_named "file" k bs), (last_named "code" k bs).
Qed.

(** X9. [make_blocks] keeps, for each name, the last file fragment and
    the last code fragment of that name, in the order of the documents
    and, in a document, of the blocks: a fragment defined again replaces
    the earlier one without notice, and the two kinds do not compete. *)
Theorem make_blocks_last_fragment_wins (cs : pydict Container) (k : string) :
  let l := make_blocks {| containers := cs; code_blocks := []; file_blocks := [] |} in
  dict_get (file_blocks l) k = last_named "file" k (all_blocks cs)
  /\ dict_get (code_blocks l) k = last_named "code" k (all_blocks cs).
Proof.
  unfold make_blocks, all_blocks. cbn [containers].
  rewrite (fold_left_concat register_block blocks).
  destruct (register_blocks_lookup k (concat (map blocks (dict_values cs)))
              {| containers := cs; code_blocks := []; file_blocks := [] |}) as [-> ->].
  cbn [file_blocks code_blocks dict_get].
  by destruct (last_named "file" k _), (last_named "code" k _).
Qed.

(** ** The dictionary handed to the cross-reference builder *)

Lemma dict_get_None {V} (d : pydict V) (k : string) :
  ~ In k (dict_keys d) -> dict_get d k = None.
Proof.
  induction d as [|[k0 v0] d IH]; simpl; [done|]. intros H.
  destruct (String.eqb_spec k0 k) as [->|_]; [by destruct H; left|].
  apply IH. intros Hin. apply H. by right.
Qed.

Lemma dict_merge_get {V} (d2 : pydict V) (k : string) : forall d1,
  NoDup (dict_keys d2) ->
  dict_get (dict_merge d1 d2) k =
  match dict_get d2 k with
  | Some v => Some v
  | None => dict_get d1 k
  end.
Proof.
  unfold dict_merge. induction d2 as [|[k0 v0] d2 IH]; intros d1 Hnd; [done|].
  cbn [fold_left fst snd dict_get]. cbn [dict_keys map fst] in Hnd.
  apply NoDup_cons in Hnd as [Hnotin Hnd]. rewrite (IH _ Hnd), dict_get_set.
  destruct (String.eqb_spec k0 k) as [->|_]; [|done].
  rewrite dict_get_None; [done|]. intros Hin. apply Hnotin. by apply list_elem_of_In.
Qed.

Lemma addresses_lookup {V} (d : pydict V) (k : string) : forall i,
  match dict_get (addresses i d) k with
  | Some a => i <= a /\ dict_values d !! (a - i) = dict_get d k
  | None => dict_get d k = None
  end.
Proof.
  induction d as [|[k0 v0] d IH]; intros i; [done|].
  cbn [addresses dict_get dict_values map snd].
  destruct (String.eqb k0 k).
  - split; [lia|]. by rewrite Nat.sub_diag.
  - specialize (IH (S i)). destruct (dict_get (addresses (S i) d) k) as [a|]; [|done].
    destruct IH as [Hle IH]. split; [lia|].
    replace (a - i) with (S (a - S i)) by lia. exact IH.
Qed.

(** X10. In the dictionary [write_documentation] hands to [find_calls],
    [{**file_blocks, **code_blocks}], a name that both registries have
    stands for the code fragment: the file fragment of that name is not
    among the blocks whose references are followed. *)
Theorem merged_registry_prefers_code_fragment (l : Litera) (k : string) :
  NoDup (dict_keys (code_blocks l)) ->
  resolve (blocks_dict l) k =
  match dict_get (code_blocks l) k with
  | Some b => Some b
  | None => dict_get (file_blocks l) k
  end.
Proof.
  intros Hnd. unfold resolve, blocks_dict. cbn [fst snd].
  rewrite <- (dict_merge_get (code_blocks l) k (file_blocks l) Hnd).
  pose proof (addresses_lookup (dict_merge (file_blocks l) (code_blocks l)) k 0) as H.
  destruct (dict_get (addresses 0 _) k) as [a|]; [|done].
  destruct H as [_ H]. by rewrite Nat.sub_0_r in H.
Qed.

Lemma merged_registry_prefers_code_fragment_witness :
  resolve (blocks_dict shadow_litera) "main"
  = Some (sample_block "code" "main" "print(2)").
Proof.
  apply (merged_registry_prefers_code_fragment shadow_litera "main").
  apply (bool_decide_unpack (NoDup ["main"])). vm_compute. exact I.
Defined.

(** ** Tangling *)

Lemma dict_get_In {V} (d : pydict V) (k : string) :
  In k (dict_keys d) -> exists v, dict_get d k = Some v /\ In (k, v) d.
Proof.
  induction d as [|[k0 v0] d IH]; simpl; [done|]. intros H.
  destruct (String.eqb_spec k0 k) as [->|Hne].
  - exists v0. split; [done|]. by left.
  - destruct H as [?|H]; [done|]. destruct (IH H) as (v & ? & ?).
    exists v. split; [done|]. by right.
Qed.

(** The blocks of the registries belong to documents of the
    dictionary. *)
Lemma Litera_init_containers (fs : FileSystem) (filenames : list string) (l : Litera)
    (k : string) (b : FileBlock) :
  Litera_init fs filenames = ret l ->
  In (k, b) (file_blocks l) \/ In (k, b) (code_blocks l) ->
  dict_mem (containers l) (container b) = true.
Proof.
  unfold Litera_init. destruct (parse_files fs filenames) as [e|cs] eqn:Ecs; [done|].
  cbn [bind ret]. intros [= <-] Hb.
  destruct (make_blocks_spec cs) as (_ & _ & _ & _ & H5 & H6).
  destruct (H6 k b Hb) as (c & Hc & Hfb).
  apply in_map_iff in Hc as ([kc c'] & Hkc & Hc). cbn in Hkc. subst c'.
  destruct (parse_files_sound _ _ _ Ecs kc c Hc) as [-> Hsound].
  rewrite H5, (Hsound b Hfb). by eapply dict_In_mem.
Qed.

(** An error of a list of writes is an error of the file system. *)
Lemma store_all_raise (D : Disk) (e : pyerror) (js : list job) :
  forall d, store_all D js d = raise e -> disk_error D e.
Proof.
  unfold store_all. induction js as [|j js IH]; intros d; cbn [foldM]; [done|].
  unfold store at 1, ensure_dir.
  destruct (negb (path_exists D d (j_dir j)) && negb (String.eqb (j_dir j) "")).
  - destruct (makedirs D d (j_dir j)) as [e'|d1] eqn:E1; cbn [bind].
    + intros [= ->]. left. by exists d, (j_dir j).
    + destruct (write_file D d1 (j_path j) (j_text j)) as [e'|d2] eqn:E2; cbn [bind].
      * intros [= ->]. right. by exists d1, (j_path j), (j_text j).
      * apply IH.
  - cbn [bind ret].
    destruct (write_file D d (j_path j) (j_text j)) as [e'|d2] eqn:E2; cbn [bind].
    + intros [= ->]. right. by exists d, (j_path j), (j_text j).
    + apply IH.
Qed.

(** After [Litera.__init__] the body of the loop of [write_code] finds
    its fragment and its document: what is left of it is the write. *)
Lemma write_block_after_init (fs : FileSystem) (filenames : list string)
    (l : Litera) (k : string) :
  Litera_init fs filenames = ret l ->
  In k (dict_keys (file_blocks l)) ->
  exists w, write_block l k = ret w /\ tangled l k w
    /\ forall (D : Disk) (acc : disk_state D * list written),
         write_block_io D l acc k =
         do d' <- store D (fst acc)
                    {| j_dir := code_dir_of l k; j_path := w_path w;
                       j_text := w_text w |};
         ret (d', snd acc ++ [w]).
Proof.
  intros Hl Hk. destruct (dict_get_In _ _ Hk) as (fb & Hget & Hin).
  destruct (replace_calls_returns (content fb) (code_blocks l) default_max_index
              (Z.to_nat default_max_index)) as (r & Er & _);
    [unfold default_max_index; lia|done|].
  pose proof (Litera_init_containers _ _ _ _ _ Hl (or_introl Hin)) as Hc.
  unfold dict_mem in Hc.
  destruct (dict_get (containers l) (container fb)) as [c|] eqn:Ec; [|done].
  exists {| w_path := code_dir c +:+ location fb; w_text := text r;
            w_printed := printed r |}.
  split; [|split].
  - unfold write_block, dict_item. rewrite Hget. cbn [bind ret]. rewrite Er, Ec. done.
  - exists fb, c, r. by repeat split.
  - intros D acc. unfold write_block_io, dict_item, store, code_dir_of.
    rewrite Hget. cbn [bind ret]. rewrite Er, Ec. cbn [bind ret j_dir j_path j_text
      w_path w_text].
    destruct (ensure_dir D (fst acc) (code_dir c)) as [e|d1]; [done|]. cbn [bind].
    by destruct (write_file D d1 _ _).
Qed.

(** The loop of [write_code], with and without its effects. *)
Lemma write_code_io_fold (D : Disk) (l : Litera) (ks : list string) :
  (forall k, In k ks ->
     exists w, write_block l k = ret w /\ tangled l k w
       /\ forall acc : disk_state D * list written,
            write_block_io D l acc k =
            do d' <- store D (fst acc)
                       {| j_dir := code_dir_of l k; j_path := w_path w;
                          j_text := w_text w |};
            ret (d', snd acc ++ [w])) ->
  forall d acc, exists ws,
    foldM (fun ws block => do w <- write_block l block; ret (ws ++ [w])) ks acc
      = ret (acc ++ ws)
    /\ Forall2 (tangled l) ks ws
    /\ foldM (write_block_io D l) ks (d, acc) =
       do d' <- store_all D
                  (zip_with (fun k w => {| j_dir := code_dir_of l k;
                                           j_path := w_path w; j_text := w_text w |})
                     ks ws) d;
       ret (d', acc ++ ws).
Proof.
  induction ks as [|k ks IH]; intros H d acc.
  - exists []. rewrite app_nil_r. by repeat split.
  - destruct (H k (or_introl eq_refl)) as (w & Ew & Hw & Hio).
    cbn [foldM]. rewrite Ew, Hio. cbn [bind ret fst snd].
    destruct (store D d _) as [e|d1] eqn:Es.
    + destruct (IH (fun y Hy => H y (or_intror Hy)) d (acc ++ [w]))
        as (ws & E & Hws & _).
      exists (w :: ws). rewrite E, <- app_assoc. split; [done|].
      split; [by constructor|].
      cbn [zip_with]. unfold store_all. cbn [foldM]. by rewrite Es.
    + destruct (IH (fun y Hy => H y (or_intror Hy)) d1 (acc ++ [w]))
        as (ws & E & Hws & Eio).
      exists (w :: ws). rewrite E, <- app_assoc. split; [done|].
      split; [by constructor|].
      cbn [zip_with bind]. unfold store_all. cbn [foldM]. rewrite Es.
      cbn [bind ret]. rewrite Eio. unfold store_all. by rewrite <- app_assoc.
Qed.

(** X11. After a successful parse [write_code] raises nothing but what
    the file system raises, whatever the fragments refer to. For each
    file fragment of the registry, in the order of the registry, it
    makes the code directory of the fragment's document when that
    directory is named and missing, and writes the expansion of the
    fragment's content to the path made of the code directory and of the
    fragment's location. It ends at the first write that raises, with
    the error of [os.makedirs] or of [open]; when none raises, all the
    files are written. *)
Theorem write_code_writes_every_file_fragment (D : Disk) (fs : FileSystem)
    (filenames : list string) (l : Litera) (d : disk_state D) :
  Litera_init fs filenames = ret l ->
  exists ws,
    write_code l = ret ws
    /\ Forall2 (tangled l) (dict_keys (file_blocks l)) ws
    /\ write_code_io D l d =
       (do d' <- store_all D (code_jobs l ws) d; ret (d', ws))
    /\ forall e, write_code_io D l d = raise e -> disk_error D e.
Proof.
  intros Hl.
  destruct (write_code_io_fold D l (dict_keys (file_blocks l))
              (fun k Hk =>
                 match write_block_after_init fs filenames l k Hl Hk with
                 | ex_intro _ w (conj H1 (conj H2 H3)) =>
                     ex_intro _ w (conj H1 (conj H2 (H3 D)))
                 end) d []) as (ws & E & Hws & Eio).
  exists ws. split; [exact E|]. split; [exact Hws|].
  assert (Eio' : write_code_io D l d =
                 (do d' <- store_all D (code_jobs l ws) d; ret (d', ws)))
    by exact Eio.
  split; [exact Eio'|]. intros e He. rewrite Eio' in He.
  destruct (store_all D (code_jobs l ws) d) as [e'|d'] eqn:Es; [|done].
  injection He as ->. by eapply store_all_raise.
Qed.

Lemma write_code_writes_every_file_fragment_witness :
  exists ws,
    write_code demo_litera = ret ws
    /\ Forall2 (tangled demo_litera) (dict_keys (file_blocks demo_litera)) ws
    /\ write_code_io sample_disk demo_litera [] =
       (do d' <- store_all sample_disk (code_jobs demo_litera ws) []; ret (d', ws))
    /\ forall e, write_code_io sample_disk demo_litera [] = raise e ->
                 disk_error sample_disk e.
Proof.
  apply (write_code_writes_every_file_fragment sample_disk demo_fs ["demo.md"]).
  vm_compute; reflexivity.
Defined.

(** A document that names a code directory: on an empty file system the
    directory is made and the file written in it; when a file has the
    name of the directory, [os.makedirs] raises and [write_code] with
    it. *)
Example write_code_makes_directory :
  (do l <- Litera_init dirs_fs ["doc.md"]; write_code_io sample_disk l []) =
  ret ([("out/", ""); ("out/main.py", "print(1)")],
       [{| w_path := "out/main.py"; w_text := "print(1)"; w_printed := [] |}]).
Proof. vm_compute. reflexivity. Qed.

Example write_code_raises_on_taken_name :
  (do l <- Litera_init dirs_fs ["doc.md"];
   write_code_io sample_disk l [("out", "a file")]) =
  raise (OSError "File exists").
Proof. vm_compute. reflexivity. Qed.

(** ** The cross-reference builder: errors and repeated runs *)

Lemma deref_Some (heap : list FileBlock) (a : nat) (b : FileBlock) :
  heap !! a = Some b -> deref heap a = ret b.
Proof. unfold deref. by intros ->. Qed.

Lemma same_static_refl (heap : list FileBlock) : same_static heap heap.
Proof. split; [done|]. intros j b Hj. by exists b. Qed.

Lemma same_static_insert (heap0 heap : list FileBlock) (i : nat) (x y : FileBlock) :
  same_static heap0 heap -> heap !! i = Some x ->
  container y = container x -> name y = name x -> content y = content x ->
  same_static heap0 (<[i:=y]> heap).
Proof.
  intros [Hlen H] Hi Hc Hn Hct. split; [by rewrite length_insert|].
  intros j b Hj. destruct (H j b Hj) as (b' & Hb' & ? & ? & ?).
  destruct (Nat.eq_dec j i) as [->|Hne].
  - exists y. rewrite list_lookup_insert_eq by (by eapply lookup_lt_Some).
    rewrite Hi in Hb'. injection Hb' as <-. repeat split; congruence.
  - exists b'. by rewrite list_lookup_insert_ne.
Qed.

Section FindCallsErrors.
Context (cd : pydict Container) (heap0 : list FileBlock).
Hypothesis Hnames : NoDup (map name heap0).

Lemma fc_call_cases (heap : list FileBlock) (a : nat) (r : string) :
  same_static heap0 heap -> a < length heap0 ->
  match fc_call cd a (heap, blocks_of heap0) r with
  | inr st' => snd st' = blocks_of heap0 /\ same_static heap0 (fst st')
  | inl e => missing_document cd heap0 e
  end.
Proof.
  intros Hs Ha. unfold fc_call.
  destruct (dict_get (blocks_of heap0) (PyStr.strip r)) as [t|] eqn:Et; [|by split].
  destruct (blocks_from_get _ _ _ _ Et) as (j & bt & -> & Hj & Hname). cbn [Nat.add].
  cbn [Nat.add] in Et.
  destruct (proj2 Hs j bt Hj) as (bt' & Hbt' & Hc & Hn & Hct).
  rewrite (deref_Some _ _ _ Hbt'). cbn [bind ret].
  unfold dict_item. destruct (dict_get cd (container bt')) as [c|] eqn:Ec;
    cbn [bind ret raise].
  2:{ exists bt. split; [by eapply lookup_In|]. rewrite <- Hc. split; [|done].
      unfold dict_mem. by rewrite Ec. }
  destruct (lookup_lt_is_Some_2 heap a) as [ba' Hba']; [rewrite (proj1 Hs); lia|].
  rewrite (deref_Some _ _ _ Hba'). cbn [bind ret].
  set (heap1 := <[j := _]> heap).
  assert (Hs1 : same_static heap0 heap1) by (by eapply same_static_insert).
  destruct (lookup_lt_is_Some_2 heap1 a) as [ba1 Hba1]; [rewrite (proj1 Hs1); lia|].
  rewrite (deref_Some _ _ _ Hba1). cbn [bind ret fst snd].
  split; [by apply dict_set_same|]. by eapply same_static_insert.
Qed.

Lemma fc_calls_cases (a : nat) (rs : list string) : forall heap,
  same_static heap0 heap -> a < length heap0 ->
  match foldM (fc_call cd a) rs (heap, blocks_of heap0) with
  | inr st' => snd st' = blocks_of heap0 /\ same_static heap0 (fst st')
  | inl e => missing_document cd heap0 e
  end.
Proof.
  induction rs as [|r rs IH]; intros heap Hs Ha; cbn [foldM]; [by split|].
  pose proof (fc_call_cases heap a r Hs Ha) as H.
  destruct (fc_call cd a (heap, blocks_of heap0) r) as [e|[heap1 blocks1]];
    cbn [bind]; [done|].
  cbn [fst snd] in H. destruct H as [-> Hs1]. by apply IH.
Qed.

Lemma fc_block_cases (heap : list FileBlock) (a : nat) (ba : FileBlock) :
  same_static heap0 heap -> heap0 !! a = Some ba ->
  match fc_block cd a (heap, blocks_of heap0) with
  | inr st' => snd st' = blocks_of heap0 /\ same_static heap0 (fst st')
               /\ dict_mem cd (container ba) = true
  | inl e => missing_document cd heap0 e
  end.
Proof.
  intros Hs Ha. unfold fc_block.
  pose proof (lookup_lt_Some _ _ _ Ha) as Hlt.
  destruct (proj2 Hs a ba Ha) as (ba' & Hba' & Hc & Hn & Hct).
  rewrite (deref_Some _ _ _ Hba'). cbn [bind ret].
  unfold dict_item. destruct (dict_get cd (container ba')) as [c|] eqn:Ec;
    cbn [bind ret raise].
  2:{ exists ba. split; [by eapply lookup_In|]. rewrite <- Hc. split; [|done].
      unfold dict_mem. by rewrite Ec. }
  set (heap1 := <[a := _]> heap).
  assert (Hs1 : same_static heap0 heap1) by (by eapply same_static_insert).
  rewrite foldM_concat.
  pose proof (fc_calls_cases a
                (concat (map (Re.findall1 call_re) (PyStr.split nl (content ba'))))
                heap1 Hs1 Hlt) as H.
  destruct (foldM (fc_call cd a) _ (heap1, blocks_of heap0)) as [e|[heap2 blocks2]];
    cbn [bind]; [done|].
  cbn [fst snd] in *. destruct H as [-> Hs2].
  destruct (proj2 Hs2 a ba Ha) as (ba2 & Hba2 & _ & Hn2 & _).
  rewrite (deref_Some _ _ _ Hba2). cbn [bind ret fst snd].
  split; [|split; [done|]].
  - apply dict_set_same. rewrite Hn2. unfold blocks_of.
    by rewrite (blocks_from_get_name heap0 0 a ba Hnames Ha).
  - unfold dict_mem. by rewrite <- Hc, Ec.
Qed.

Lemma fc_iter_cases : forall n i heap,
  i + n = length heap0 -> same_static heap0 heap ->
  match fc_iter cd (length heap0) n i (heap, blocks_of heap0) with
  | inr st' => forall j b, i <= j -> heap0 !! j = Some b ->
                 dict_mem cd (container b) = true
  | inl e => missing_document cd heap0 e
  end.
Proof.
  induction n as [|n IH]; intros i heap Hin Hs;
    cbn [fc_iter snd]; unfold blocks_of at 1; rewrite blocks_from_length,
    Nat.eqb_refl; cbn [negb].
  - intros j b Hj Hb. apply lookup_lt_Some in Hb. lia.
  - destruct (lookup_lt_is_Some_2 heap0 i) as [bi Hi]; [lia|].
    unfold blocks_of at 1. rewrite (blocks_from_lookup heap0 0 i bi Hi).
    cbn [Nat.add].
    pose proof (fc_block_cases heap i bi Hs Hi) as H.
    destruct (fc_block cd i (heap, blocks_of heap0)) as [e|[heap1 blocks1]];
      cbn [bind]; [done|].
    cbn [fst snd] in H. destruct H as (-> & Hs1 & Hci).
    specialize (IH (S i) heap1 ltac:(lia) Hs1).
    destruct (fc_iter cd (length heap0) n (S i) (heap1, blocks_of heap0)); [done|].
    intros j b Hj Hb. destruct (Nat.eq_dec j i) as [->|Hne].
    + rewrite Hi in Hb. by injection Hb as <-.
    + apply (IH j b); [lia|done].
Qed.

End FindCallsErrors.

(** X12. Given blocks with distinct names, each stored under its name,
    [find_calls] returns exactly when the dictionary of documents has the
    document of every block; when one is missing the call raises the
    [KeyError] of a missing document's name, and no dictionary is
    returned. Nothing else can go wrong. *)
Theorem find_calls_raises_on_missing_document (cd : pydict Container)
    (heap : list FileBlock) :
  NoDup (map name heap) ->
  match find_calls cd (heap, blocks_of heap) with
  | inr _ => forall b, In b heap -> dict_mem cd (container b) = true
  | inl e => exists b, In b heap /\ dict_mem cd (container b) = false
                       /\ e = KeyError (container b)
  end.
Proof.
  intros Hnames. unfold find_calls. cbn [snd].
  unfold blocks_of at 1 2. rewrite blocks_from_length.
  pose proof (fc_iter_cases cd heap Hnames (length heap) 0 heap eq_refl
                (same_static_refl heap)) as H.
  destruct (fc_iter cd (length heap) (length heap) 0 (heap, blocks_of heap))
    as [e|st]; [exact H|].
  intros b Hb. apply list_elem_of_In, list_elem_of_lookup_1 in Hb as [j Hj].
  apply (H j b); [lia|done].
Qed.

Lemma find_calls_raises_on_missing_document_witness :
  exists b, In b graph_heap /\ dict_mem ([] : pydict Container) (container b) = false
            /\ KeyError "doc" = KeyError (container b).
Proof.
  apply (find_calls_raises_on_missing_document [] graph_heap).
  apply (bool_decide_unpack (NoDup ["main"; "helper"])). vm_compute. exact I.
Defined.

Lemma blocks_from_imap (f : nat -> FileBlock -> FileBlock) :
  (forall j b, name (f j b) = name b) ->
  forall heap i, blocks_from i (imap f heap) = blocks_from i heap.
Proof.
  intros Hf heap. revert f Hf.
  induction heap as [|b heap IH]; intros f Hf i; cbn [imap blocks_from]; [done|].
  rewrite Hf. f_equal. apply IH. intros j b'. apply Hf.
Qed.

Lemma map_imap_ext {A B} (f : nat -> A -> A) (g g' : A -> B) :
  (forall j x, g (f j x) = g' x) ->
  forall l, map g (imap f l) = map g' l.
Proof.
  intros H l. revert f H.
  induction l as [|x l IH]; intros f H; cbn [imap map]; [done|].
  rewrite H. f_equal. apply IH. intros j y. apply H.
Qed.

Lemma linked_static (cd : pydict Container) (heap : list FileBlock) (j : nat)
    (b : FileBlock) :
  name (linked cd heap j b) = name b
  /\ container (linked cd heap j b) = container b
  /\ references (linked cd heap j b) = references b
  /\ anchor_of cd (linked cd heap j b) = anchor_of cd b
  /\ code_anchor_of cd (linked cd heap j b) = code_anchor_of cd b.
Proof. done. Qed.

Section Relinked.
Context (cd : pydict Container) (heap : list FileBlock).
Let heap1 := imap (linked cd heap) heap.

Lemma target_relinked (r : string) : target heap1 r = target heap r.
Proof.
  unfold target, blocks_of, heap1. by rewrite blocks_from_imap.
Qed.

Lemma callees_relinked (rs : list string) : callees cd heap1 rs = callees cd heap rs.
Proof.
  unfold callees. induction rs as [|r rs IH]; [done|]. cbn [omap list_omap].
  rewrite IH, target_relinked. destruct (target heap r) as [t|]; [|done].
  unfold heap1. rewrite list_lookup_imap. by destruct (heap !! t).
Qed.

Lemma calls_to_relinked (a : FileBlock) (i j : nat) :
  calls_to cd heap1 (linked cd heap i a) (references (linked cd heap i a)) j
  = calls_to cd heap a (references a) j.
Proof.
  unfold calls_to. change (references (linked cd heap i a)) with (references a).
  change (anchor_of cd (linked cd heap i a)) with (anchor_of cd a).
  induction (references a) as [|r rs IH]; [done|]. cbn [omap list_omap].
  by rewrite IH, target_relinked.
Qed.

Lemma callers_relinked (j : nat) : callers cd heap1 heap1 j = callers cd heap heap j.
Proof.
  unfold callers. f_equal. unfold heap1 at 2.
  apply (map_imap_ext (linked cd heap)). intros i a. apply calls_to_relinked.
Qed.

End Relinked.

(** X13. [find_calls] appends and never resets: run again on the blocks
    it has linked, it appends every link a second time, so each block
    ends up with its callees and its callers listed twice. *)
Theorem find_calls_again_doubles_links (cd : pydict Container)
    (heap : list FileBlock) :
  NoDup (map name heap) ->
  (forall b, In b heap -> dict_mem cd (container b) = true) ->
  exists heap1 heap2,
    find_calls cd (heap, blocks_of heap) = ret (heap1, blocks_of heap)
    /\ find_calls cd (heap1, blocks_of heap) = ret (heap2, blocks_of heap)
    /\ forall j b, heap !! j = Some b ->
         exists b2, heap2 !! j = Some b2
           /\ calling b2 = calling b ++ callees cd heap (references b)
                             ++ callees cd heap (references b)
           /\ called_by b2 = called_by b ++ callers cd heap heap j
                               ++ callers cd heap heap j.
Proof.
  intros Hnames Hconts. set (heap1 := imap (linked cd heap) heap).
  assert (Hb1 : blocks_of heap1 = blocks_of heap).
  { unfold blocks_of, heap1. by rewrite blocks_from_imap. }
  exists heap1, (imap (linked cd heap1) heap1).
  split; [by apply find_calls_linked|]. split.
  - rewrite <- Hb1. apply find_calls_linked.
    + unfold heap1. by rewrite (map_imap_ext (linked cd heap) name name).
    + intros b' Hb'. apply list_elem_of_In, list_elem_of_lookup_1 in Hb' as [j Hj].
      unfold heap1 in Hj. rewrite list_lookup_imap in Hj.
      destruct (heap !! j) as [b|] eqn:Eb; [|done]. injection Hj as <-.
      change (container (linked cd heap j b)) with (container b).
      apply Hconts, list_elem_of_In. by eapply list_elem_of_lookup_2.
  - intros j b Hj. exists (linked cd heap1 j (linked cd heap j b)). split.
    + rewrite list_lookup_imap. unfold heap1 at 2. rewrite list_lookup_imap, Hj. done.
    + unfold heap1. cbn [linked mk_block calling called_by].
      change (references (mk_block cd b _ _ true)) with (references b).
      rewrite callees_relinked, callers_relinked. by rewrite <- !app_assoc.
Qed.

Lemma find_calls_again_doubles_links_witness :
  exists heap1 heap2,
    find_calls graph_containers (graph_heap, blocks_of graph_heap)
      = ret (heap1, blocks_of graph_heap)
    /\ find_calls graph_containers (heap1, blocks_of graph_heap)
      = ret (heap2, blocks_of graph_heap)
    /\ forall j b, graph_heap !! j = Some b ->
         exists b2, heap2 !! j = Some b2
           /\ calling b2 = calling b ++ callees graph_containers graph_heap (references b)
                             ++ callees graph_containers graph_heap (references b)
           /\ called_by b2 = called_by b ++ callers graph_containers graph_heap graph_heap j
                               ++ callers graph_containers graph_heap graph_heap j.
Proof.
  apply (find_calls_again_doubles_links graph_containers graph_heap).
  - apply (bool_decide_unpack (NoDup ["main"; "helper"])). vm_compute. exact I.
  - intros b [<-|[<-|[]]]; vm_compute; reflexivity.
Defined.

(** ** Names *)

Lemma after_last_none (c : ascii) (s : string) :
  PyStr.has_char c s = false -> PyStr.after_last c s = s.
Proof.
  destruct s as [|a s]; [done|]. cbn [PyStr.has_char PyStr.after_last].
  intros H. apply orb_false_iff in H as [-> ->]. done.
Qed.

Lemma after_last_app (c : ascii) (b : string) : forall d,
  PyStr.has_char c b = false -> PyStr.after_last c (d +:+ String c b) = b.
Proof.
  intros d Hb. induction d as [|x d IH]; str_norm; cbn [PyStr.after_last].
  - by rewrite Hb, Ascii.eqb_refl.
  - rewrite has_char_app. cbn [PyStr.has_char]. rewrite Ascii.eqb_refl.
    cbn [orb]. by rewrite orb_true_r.
Qed.

Lemma rsplit1_head_none (c : ascii) (s : string) :
  PyStr.has_char c s = false -> PyStr.rsplit1_head c s = None.
Proof.
  induction s as [|a s IH]; [done|]. cbn [PyStr.has_char PyStr.rsplit1_head].
  intros H. apply orb_false_iff in H as [Ha Hs]. by rewrite (IH Hs), Ha.
Qed.

Lemma rsplit1_head_app (c : ascii) (e : string) : forall b,
  PyStr.has_char c e = false -> PyStr.rsplit1_head c (b +:+ String c e) = Some b.
Proof.
  intros b He. induction b as [|x b IH]; str_norm; cbn [PyStr.rsplit1_head].
  - by rewrite (rsplit1_head_none c e He), Ascii.eqb_refl.
  - by rewrite IH.
Qed.

(** X14. The name the program derives from a path, for a document as for
    a fragment, is the last component without its last extension: of
    [d/b.e] and of [b.e] it is [b], when [b] has no separator and [e]
    neither separator nor dot; a component without a dot is its own
    name. Only the last extension goes: [b] may have dots. *)
Theorem stem_drops_directory_and_extension (d b e : string) :
  PyStr.has_char "/" b = false -> PyStr.has_char "/" e = false ->
  PyStr.has_char "." e = false ->
  stem (d +:+ "/" +:+ b +:+ "." +:+ e) = b
  /\ stem (b +:+ "." +:+ e) = b
  /\ stem (d +:+ "/" +:+ e) = e.
Proof.
  intros Hb He1 He2. unfold stem, OsPath.basename, PyStr.rsplit1.
  assert (Hbe : PyStr.has_char "/" (b +:+ "." +:+ e) = false).
  { rewrite !has_char_app, Hb, He1. done. }
  change (d +:+ "/" +:+ b +:+ "." +:+ e) with (d +:+ String "/" (b +:+ "." +:+ e)).
  change (d +:+ "/" +:+ e) with (d +:+ String "/" e).
  rewrite (after_last_app "/" _ d Hbe), (after_last_none "/" _ Hbe),
    (after_last_app "/" _ d He1).
  change (b +:+ "." +:+ e) with (b +:+ String "." e).
  rewrite (rsplit1_head_app "." e b He2), (rsplit1_head_none "." e He2). done.
Qed.

Lemma stem_drops_directory_and_extension_witness :
  stem ("docs/src" +:+ "/" +:+ "notes.v2" +:+ "." +:+ "md") = "notes.v2"
  /\ stem ("notes.v2" +:+ "." +:+ "md") = "notes.v2"
  /\ stem ("docs/src" +:+ "/" +:+ "md") = "md".
Proof.
  apply (stem_drops_directory_and_extension "docs/src" "notes.v2" "md");
    reflexivity.
Defined.

(** ** Greedy repetition of a character class *)

(** A greedy [p*] eats the whole run of [p]-characters when the rest of
    the pattern can go on from there. *)
Lemma exec_star_greedy_chars {A} (p : ascii -> bool) (t : string)
    (caps : list string) (k : @Re.cont A) :
  match t with EmptyString => True | String c _ => p c = false end ->
  is_Some (k t caps) ->
  forall u n, all_chars p u = true -> String.length (u +:+ t) <= n ->
    Re.exec_star true (Re.exec_char p) n (u +:+ t) caps k = k t caps.
Proof.
  intros Ht [x Hx]. induction u as [|c u IH]; intros n Hall Hn; str_norm.
  - destruct n as [|n]; cbn [Re.exec_star Re.orelse]; [done|].
    destruct t as [|c t]; cbn [Re.exec_char]; [done|]. by rewrite Ht.
  - cbn [all_chars] in Hall. apply andb_true_iff in Hall as [Hc Hall].
    str_norm_in Hn. cbn [String.length] in Hn.
    destruct n as [|n]; [lia|]. cbn [Re.exec_star Re.exec_char]. rewrite Hc.
    cbn [String.length].
    assert ((String.length (u +:+ t) <? S (String.length (u +:+ t))) = true) as ->
      by (apply Nat.ltb_lt; lia).
    rewrite (IH n Hall ltac:(lia)), Hx. done.
Qed.

Lemma all_chars_has_char (p : ascii -> bool) (c : ascii) (s : string) :
  all_chars p s = true -> p c = false -> PyStr.has_char c s = false.
Proof.
  intros Hs Hc. induction s as [|a s IH]; [done|]. cbn [all_chars] in Hs.
  apply andb_true_iff in Hs as [Ha Hs]. cbn [PyStr.has_char]. rewrite (IH Hs).
  destruct (Ascii.eqb_spec a c) as [->|_]; [congruence|done].
Qed.

Lemma ext_of_none (s : string) :
  PyStr.has_char "." s = false -> OsPath.ext_of s = "".
Proof.
  destruct s as [|c s]; [done|]. cbn [PyStr.has_char OsPath.ext_of].
  intros H. apply orb_false_iff in H as [-> ->]. done.
Qed.

Lemma lstrip_dots_none (s : string) :
  PyStr.has_char "." s = false -> PyStr.lstrip_by (Ascii.eqb ".") s = s.
Proof.
  destruct s as [|c s]; [done|]. cbn [PyStr.has_char PyStr.lstrip_by].
  intros H. apply orb_false_iff in H as [H _]. by rewrite Ascii.eqb_sym, H.
Qed.

(** A name made of a dot and word characters: the parser's pattern sees
    an extension, [os.path.splitext] sees none. *)
Lemma hidden_name_kind (w : string) :
  w <> "" -> all_chars is_word w = true ->
  kind_of_name ("." +:+ w) = "file" /\ OsPath.splitext_ext ("." +:+ w) = "".
Proof.
  intros Hw Hall. split.
  - unfold kind_of_name. destruct w as [|c w]; [done|].
    cbn [all_chars] in Hall. apply andb_true_iff in Hall as [Hc Hall].
    assert (Hm : Re.found (Re.re_match extension_re ("." +:+ String c w)) = true).
    { unfold Re.re_match, extension_re, Re.Plus. str_norm.
      cbn [Re.exec Re.exec_char]. rewrite Ascii.eqb_refl, Hc.
      match goal with
      | |- Re.found (Re.exec_star _ _ _ _ _ ?k) = true => set (K := k)
      end.
      change (Re.found (Re.exec_star true (Re.exec_char is_word)
                          (String.length w) w [] K) = true).
      pose proof (exec_star_greedy_chars is_word "" [] K I
                    ltac:(eexists; reflexivity) w (String.length w) Hall) as H.
      rewrite str_app_nil_r in H. by rewrite H. }
    str_norm_in Hm. str_norm. cbn [Re.re_search].
    by destruct (Re.re_match extension_re _).
  - assert (Hs : PyStr.has_char "/" w = false) by (by eapply all_chars_has_char).
    assert (Hd : PyStr.has_char "." w = false) by (by eapply all_chars_has_char).
    unfold OsPath.splitext_ext, OsPath.basename. str_norm.
    rewrite after_last_none by (cbn [PyStr.has_char]; by rewrite Hs).
    cbn [PyStr.lstrip_by]. rewrite Ascii.eqb_refl, lstrip_dots_none by done.
    by apply ext_of_none.
Qed.

(** X15. A fragment named like a hidden file, a dot followed by word
    characters, cannot be parsed: the parser takes the name for a file
    name, since it ends in a dot and word characters, and the constructor
    of file blocks rejects it, since [os.path.splitext] finds no
    extension in such a name. *)
Theorem hidden_file_name_is_rejected (fs : FileSystem)
    (filename raw lang w : string) :
  w <> "" -> all_chars is_word w = true ->
  isdir fs filename = false -> exists_ fs filename = true ->
  isdir fs ("." +:+ w) = false ->
  kind_of_name ("." +:+ w) = "file"
  /\ make_block fs (kind_of_name ("." +:+ w)) raw filename lang ("." +:+ w)
     = raise (ValueError ("The name '" +:+ ("." +:+ w)
                            +:+ "' does not contain a file extension.")).
Proof.
  intros Hw Hall Hd He Hn. destruct (hidden_name_kind w Hw Hall) as [Hk Hx].
  split; [done|]. rewrite Hk.
  unfold make_block, FileBlock_init, Block_init.
  change (String.eqb "file" "doc") with false.
  change (String.eqb "file" "file") with true. cbn iota.
  rewrite Hd, He. cbn [negb bind ret]. by rewrite Hn, Hx.
Qed.

Lemma hidden_file_name_is_rejected_witness :
  kind_of_name ("." +:+ "bashrc") = "file"
  /\ make_block plain_fs (kind_of_name ("." +:+ "bashrc")) "export A=1" "doc.md" "sh"
       ("." +:+ "bashrc")
     = raise (ValueError ("The name '" +:+ ("." +:+ "bashrc")
                            +:+ "' does not contain a file extension.")).
Proof.
  apply (hidden_file_name_is_rejected plain_fs "doc.md" "export A=1" "sh" "bashrc");
    [done|reflexivity..].
Defined.

(** The same, seen from [parse_files]. *)
Example hidden_file_fence :
  parse_files (sample_fs "```sh .bashrc
export A=1
```") ["doc.md"]
  = raise (ValueError "The name '.bashrc' does not contain a file extension.").
Proof. vm_compute. reflexivity. Qed.

(** ** The weaver *)

Lemma split_length (c : ascii) (s : string) :
  length (PyStr.split c s) = S (count_char c s).
Proof.
  induction s as [|a s IH]; [done|]. cbn [PyStr.split count_char].
  destruct (Ascii.eqb a c); cbn [length]; [by rewrite IH|].
  destruct (PyStr.split c s) as [|l ls]; [done|]. exact IH.
Qed.

Lemma join_dots (n : nat) :
  PyStr.join "/" (replicate (S n) "..") +:+ "/" = repeat_str (S n) "../".
Proof.
  induction n as [|n IH]; [done|].
  change (replicate (S (S n)) "..") with (".." :: replicate (S n) "..").
  rewrite join_cons by done. rewrite !str_app_assoc, IH. done.
Qed.

(** X16. The links of a page start with one [../] for each separator in
    the documentation directory of its document, which leads from the page
    back to the directory the documentation paths start from. For a
    document without a documentation directory the prefix is [/]: its
    links are absolute paths from the root. *)
Theorem parent_prefix_climbs (doc_dir : string) :
  parent_prefix doc_dir =
  match count_char "/" doc_dir with
  | 0 => "/"
  | S n => repeat_str (S n) "../"
  end.
Proof.
  unfold parent_prefix. rewrite split_length. cbn [Nat.sub].
  rewrite Nat.sub_0_r. destruct (count_char "/" doc_dir) as [|n]; [done|].
  apply join_dots.
Qed.

(** ** The text of a link *)

Lemma split_str_no_colon (s : string) :
  PyStr.has_char ":" s = false -> split_str_go "::" 0 s = [s].
Proof.
  induction s as [|c s IH]; [done|]. cbn [PyStr.has_char].
  intros H. apply orb_false_iff in H as [Hc Hs].
  cbn [split_str_go]. rewrite prefix_cons, (Ascii.eqb_sym ":" c), Hc. cbn [andb].
  by rewrite (IH Hs).
Qed.

(** Splitting at [::] a text that ends in [v::n], where neither [v] nor
    [n] has a colon and [v] is not empty: the last piece is [n], and it
    is not the only one. *)
Lemma split_str_anchor (v n : string) :
  v <> "" -> PyStr.has_char ":" v = false -> PyStr.has_char ":" n = false ->
  forall u skip,
    (skip = 0 \/ (skip = 1 /\ exists u', u = String ":" u')) ->
    exists l L, split_str_go "::" skip (u +:+ v +:+ "::" +:+ n) = l :: L ++ [n].
Proof.
  intros Hv Hcv Hcn. remember ("::" +:+ n) as t eqn:Ht.
  assert (Hbase : exists l L, split_str_go "::" 0 (v +:+ t) = l :: L ++ [n]).
  { clear Hv. induction v as [|x v IH].
    - exists "", []. subst t. str_norm. cbn [split_str_go String.length Nat.sub].
      rewrite !prefix_cons, prefix_nil, Ascii.eqb_refl. cbn [andb].
      by rewrite split_str_no_colon.
    - cbn [PyStr.has_char] in Hcv. apply orb_false_iff in Hcv as [Hx Hcv].
      destruct (IH Hcv) as (l & L & E). str_norm. cbn [split_str_go].
      rewrite prefix_cons, (Ascii.eqb_sym ":" x), Hx. cbn [andb]. rewrite E.
      by exists (String x l), L. }
  induction u as [|x u IH]; intros skip Hskip.
  - destruct Hskip as [->|[_ [u' Hu']]]; [|done]. by str_norm.
  - str_norm. destruct Hskip as [->|[-> [u' Hu']]].
    + cbn [split_str_go].
      destruct (String.prefix "::" (String x (u +:+ v +:+ t))) eqn:Ep.
      * rewrite prefix_cons in Ep. apply andb_true_iff in Ep as [_ Ep].
        cbn [String.length Nat.sub].
        destruct u as [|y u].
        { exfalso. str_norm_in Ep. destruct v as [|z v]; [done|].
          str_norm_in Ep. rewrite prefix_cons in Ep.
          apply andb_true_iff in Ep as [Ez _].
          cbn [PyStr.has_char] in Hcv. apply orb_false_iff in Hcv as [Hz _].
          by rewrite (Ascii.eqb_sym ":" z), Hz in Ez. }
        str_norm_in Ep. rewrite prefix_cons in Ep.
        apply andb_true_iff in Ep as [Ey _]. apply Ascii.eqb_eq in Ey as <-.
        destruct (IH 1) as (l & L & E); [right; split; [done|by exists u]|].
        rewrite E. by exists "", (l :: L).
      * destruct (IH 0) as (l & L & E); [by left|]. rewrite E.
        by exists (String x l), L.
    + injection Hu' as -> ->. cbn [split_str_go].
      destruct (IH 0) as (l & L & E); [by left|]. rewrite E. by exists l, L.
Qed.

Lemma last_item_snoc (l : string) (L : list string) (n : string) :
  last_item (l :: L ++ [n]) = n.
Proof.
  unfold last_item. change (l :: L ++ [n]) with ((l :: L) ++ [n]).
  by rewrite last_snoc.
Qed.

(** X17. The text [href_to_html] shows for a link is the name of the
    fragment the link points to: what follows the last [::] of an anchor
    [<doc-path>#<kind>::<name>], for a name and a kind without a colon
    (the names the parser reads never have one, and the kinds are [file]
    and [code]), whatever the path. *)
Theorem link_text_is_fragment_name (doc_dir cont kind nm : string) :
  PyStr.has_char ":" nm = false -> PyStr.has_char ":" kind = false ->
  last_item (split_str "::" (anchor doc_dir cont kind nm)) = nm
  /\ last_item (split_str "::" (code_anchor doc_dir cont nm)) = nm.
Proof.
  intros Hn Hk. unfold anchor, code_anchor, split_str.
  set (path := OsPath.join doc_dir (cont +:+ ".html")). split.
  - destruct (split_str_anchor ("#" +:+ kind) nm) with (u := path) (skip := 0)
      as (l & L & E); [done| |done|by left|].
    { str_norm. cbn [PyStr.has_char]. by rewrite Hk. }
    rewrite !str_app_assoc in E. rewrite E. apply last_item_snoc.
  - destruct (split_str_anchor "#code" nm) with (u := path) (skip := 0)
      as (l & L & E); [done|done|done|by left|].
    change (path +:+ "#code::" +:+ nm) with (path +:+ "#code" +:+ "::" +:+ nm).
    rewrite E. apply last_item_snoc.
Qed.

Lemma link_text_is_fragment_name_witness :
  last_item (split_str "::" (anchor "docs/" "a::b" "file" "main")) = "main"
  /\ last_item (split_str "::" (code_anchor "docs/" "a::b" "main")) = "main".
Proof.
  apply (link_text_is_fragment_name "docs/" "a::b" "file" "main"); reflexivity.
Defined.

(** ** The rendering of prose *)

Lemma re_sub_go_no_match (r : Re.regex) (repl : Re.match_obj -> string) :
  forall fuel s,
    (forall a t, s = a +:+ t -> Re.re_match r t = None) ->
    re_sub_go fuel r repl s = s.
Proof.
  induction fuel as [|fuel IH]; intros s H; [done|]. cbn [re_sub_go].
  rewrite (H "" s eq_refl). destruct s as [|c s]; [done|].
  f_equal. apply IH. intros a t ->. by apply (H (String c a)).
Qed.

Lemma occurs_not_prefix (p s : string) :
  PyStr.occurs p s = false -> String.prefix p s = false.
Proof.
  destruct s as [|c s]; cbn [PyStr.occurs]; intros H;
    by apply orb_false_iff in H as [H _].
Qed.

Lemma re_match_Str_none (p : string) (R : Re.regex) (t : string) :
  String.prefix p t = false -> Re.re_match (Re.Cat (Re.Str p) R) t = None.
Proof.
  intros H. unfold Re.re_match. cbn [Re.exec]. by rewrite exec_Str, H.
Qed.

(** A pattern that begins with a literal text leaves alone a text in
    which the literal does not occur. *)
Lemma re_sub_not_occurring (p : string) (R : Re.regex)
    (repl : Re.match_obj -> string) (s : string) :
  PyStr.occurs p s = false -> re_sub (Re.Cat (Re.Str p) R) repl s = s.
Proof.
  intros H. apply re_sub_go_no_match. intros a t ->.
  apply re_match_Str_none, occurs_not_prefix. by eapply occurs_app_r.
Qed.

Lemma occurs_absent_char (c : ascii) (p s : string) :
  PyStr.has_char c s = false -> PyStr.occurs (String c p) s = false.
Proof.
  induction s as [|a s IH]; [done|]. cbn [PyStr.has_char PyStr.occurs].
  intros H. apply orb_false_iff in H as [Ha Hs].
  by rewrite prefix_cons, (Ascii.eqb_sym c a), Ha, (IH Hs).
Qed.

Lemma re_sub_command_absent (s : string) :
  PyStr.has_char "@" s = false -> re_sub command_re (fun _ => "") s = s.
Proof.
  intros H. apply re_sub_go_no_match. intros a t ->.
  rewrite has_char_app in H. apply orb_false_iff in H as [_ H].
  unfold Re.re_match, command_re. cbn [Re.exec]. destruct t as [|c t]; [done|].
  cbn [Re.exec_char PyStr.has_char] in *. apply orb_false_iff in H as [H _].
  by rewrite (Ascii.eqb_sym "@" c), H.
Qed.

Lemma plain_chars (s : string) :
  plain s = true ->
  PyStr.has_char "#" s = false /\ PyStr.has_char "*" s = false
  /\ PyStr.has_char "_" s = false /\ PyStr.has_char "@" s = false.
Proof.
  unfold plain. intros H.
  apply andb_true_iff in H as [H H4]. apply andb_true_iff in H as [H H3].
  apply andb_true_iff in H as [H1 H2].
  by repeat split; apply negb_true_iff.
Qed.

(** The patterns after the headings and the removal of commands leave a
    text without [*], [_] and [@] as it is. *)
Lemma render_tail_plain (s : string) :
  PyStr.has_char "*" s = false -> PyStr.has_char "_" s = false ->
  PyStr.has_char "@" s = false ->
  re_sub command_re (fun _ => "")
    (fold_left (fun content pt =>
                  re_sub (fst pt)
                    (fun m => fst (snd pt) +:+ Re.group m 1 +:+ snd (snd pt)) content)
       (drop 6 patterns) s) = s.
Proof.
  intros H1 H2 H3. unfold patterns. cbn [drop fold_left fst snd].
  rewrite (re_sub_not_occurring "**") by (by apply occurs_absent_char).
  rewrite (re_sub_not_occurring "__") by (by apply occurs_absent_char).
  rewrite (re_sub_not_occurring "*") by (by apply occurs_absent_char).
  rewrite (re_sub_not_occurring "_") by (by apply occurs_absent_char).
  by apply re_sub_command_absent.
Qed.

(** X18. Prose without any of the characters [#], [*], [_] and [@] goes
    into the page as it is: no pattern of the rendering touches it, and
    the block is written as a paragraph holding the content and a
    newline. *)
Theorem plain_prose_is_rendered_verbatim (content : string) :
  plain content = true ->
  render_prose content = content
  /\ forall doc_dir cont,
       render_block doc_dir (DocumentationBlock content cont) =
       ("<p>" +:+ content +:+ String nl "" +:+ "</p>",
        DocumentationBlock content cont).
Proof.
  intros H. apply plain_chars in H as (H0 & H1 & H2 & H3).
  assert (E : render_prose content = content).
  { unfold render_prose.
    change patterns with (take 6 patterns ++ drop 6 patterns).
    rewrite fold_left_app. unfold patterns at 2. cbn [take fold_left fst snd].
    rewrite (re_sub_not_occurring "###### " _ _ content)
      by (by apply occurs_absent_char).
    rewrite (re_sub_not_occurring "##### " _ _ content)
      by (by apply occurs_absent_char).
    rewrite (re_sub_not_occurring "#### " _ _ content)
      by (by apply occurs_absent_char).
    rewrite (re_sub_not_occurring "### " _ _ content)
      by (by apply occurs_absent_char).
    rewrite (re_sub_not_occurring "## " _ _ content)
      by (by apply occurs_absent_char).
    rewrite (re_sub_not_occurring "# " _ _ content)
      by (by apply occurs_absent_char).
    by apply render_tail_plain. }
  split; [exact E|]. intros doc_dir cont. cbn [render_block]. by rewrite E.
Qed.

Lemma plain_prose_is_rendered_verbatim_witness :
  render_prose plain_text = plain_text
  /\ forall doc_dir cont,
       render_block doc_dir (DocumentationBlock plain_text cont) =
       ("<p>" +:+ plain_text +:+ String nl "" +:+ "</p>",
        DocumentationBlock plain_text cont).
Proof. apply (plain_prose_is_rendered_verbatim plain_text). reflexivity. Defined.

(** ** Headings *)

Lemma prefix_hashes (p r : string) : forall k j,
  k < j -> PyStr.has_char "#" r = false ->
  String.prefix (repeat_str j "#" +:+ p) (repeat_str k "#" +:+ r) = false.
Proof.
  induction k as [|k IH]; intros j Hlt Hr.
  - destruct j as [|j]; [lia|]. cbn [repeat_str]. str_norm.
    destruct r as [|c r]; [done|]. cbn [PyStr.has_char] in Hr.
    apply orb_false_iff in Hr as [Hc _].
    by rewrite prefix_cons, (Ascii.eqb_sym "#" c), Hc.
  - destruct j as [|j]; [lia|]. cbn [repeat_str]. str_norm.
    rewrite prefix_cons, Ascii.eqb_refl. cbn [andb]. apply IH; [lia|done].
Qed.

Lemma occurs_hashes_tail (p r : string) : forall k j,
  k < j -> PyStr.has_char "#" r = false ->
  PyStr.occurs (repeat_str j "#" +:+ p) (repeat_str k "#" +:+ r) = false.
Proof.
  induction k as [|k IH]; intros j Hlt Hr.
  - destruct j as [|j]; [lia|]. cbn [repeat_str]. str_norm.
    by apply occurs_absent_char.
  - pose proof (prefix_hashes p r (S k) j Hlt Hr) as Hp.
    cbn [repeat_str] in *. str_norm_in Hp. str_norm. cbn [PyStr.occurs].
    rewrite Hp. cbn [orb]. apply IH; [lia|done].
Qed.

(** A heading marker of a deeper level occurs nowhere in a text whose
    only hashes are those of a shallower marker. *)
Lemma occurs_hashes (j k : nat) (p a r : string) :
  k < j -> PyStr.has_char "#" a = false -> PyStr.has_char "#" r = false ->
  PyStr.occurs (repeat_str j "#" +:+ p) (a +:+ repeat_str k "#" +:+ r) = false.
Proof.
  intros Hlt Ha Hr. induction a as [|c a IH]; str_norm.
  - by apply occurs_hashes_tail.
  - cbn [PyStr.has_char] in Ha. apply orb_false_iff in Ha as [Hc Ha].
    cbn [PyStr.occurs]. rewrite (IH Ha), orb_false_r.
    destruct j as [|j]; [lia|]. cbn [repeat_str]. str_norm.
    by rewrite prefix_cons, (Ascii.eqb_sym "#" c), Hc.
Qed.

Lemma no_newline_all_chars (x : string) :
  PyStr.has_char nl x = false ->
  all_chars (fun c => negb (Ascii.eqb c nl)) x = true.
Proof.
  induction x as [|c x IH]; [done|]. cbn [PyStr.has_char all_chars].
  intros H. apply orb_false_iff in H as [-> H]. by rewrite IH.
Qed.

Lemma take_length_app (p t : string) :
  PyStr.take (String.length (p +:+ t) - String.length t) (p +:+ t) = p.
Proof.
  rewrite str_length_app.
  replace (String.length p + String.length t - String.length t)
    with (String.length p) by lia.
  apply take_app.
Qed.

(** The match of a heading pattern at a marker: the group is the rest of
    the line. *)
Lemma re_match_heading (p x t : string) :
  PyStr.has_char nl x = false -> at_line_end t ->
  Re.re_match (Re.Cat (Re.Str p) rest_of_line) (p +:+ x +:+ t)
  = Some (Re.MatchObj (p +:+ x) [x] t).
Proof.
  intros Hx Ht. unfold Re.re_match, rest_of_line. cbn [Re.exec].
  rewrite exec_Str, prefix_app, drop_app. cbn [Re.exec].
  match goal with
  | |- Re.exec_star _ _ _ _ _ ?k = _ => set (K := k)
  end.
  change (Re.exec_star true (Re.exec_char (fun c => negb (Ascii.eqb c nl)))
            (String.length (x +:+ t)) (x +:+ t) [] K
          = Some (Re.MatchObj (p +:+ x) [x] t)).
  rewrite exec_star_greedy_chars.
  - subst K. cbn beta. rewrite take_length_app.
    rewrite <- (str_app_assoc p x t), take_length_app. done.
  - destruct t as [|c t]; [done|]. cbn in Ht. subst c.
    by rewrite Ascii.eqb_refl.
  - subst K. by eexists.
  - by apply no_newline_all_chars.
  - done.
Qed.

Lemma re_sub_go_skip (r : Re.regex) (repl : Re.match_obj -> string) (s : string) :
  forall a fuel,
    (forall a1 c a2, a = a1 +:+ String c a2 ->
       Re.re_match r (String c a2 +:+ s) = None) ->
    re_sub_go (String.length a + fuel) r repl (a +:+ s)
    = a +:+ re_sub_go fuel r repl s.
Proof.
  induction a as [|c a IH]; intros fuel H; [done|]. str_norm.
  cbn [String.length Nat.add re_sub_go].
  pose proof (H "" c a eq_refl) as H0. str_norm_in H0. rewrite H0.
  f_equal. apply IH. intros a1 c' a2 ->. by apply (H (String c a1)).
Qed.

(** The substitution of one heading pattern, in a text with one
    marker. *)
Lemma re_sub_heading (k : nat) (o c a x t : string) :
  PyStr.has_char "#" a = false -> PyStr.has_char nl x = false ->
  at_line_end t -> PyStr.has_char "#" t = false ->
  re_sub (Re.Cat (Re.Str (repeat_str (S k) "#" +:+ " ")) rest_of_line)
    (fun m => o +:+ Re.group m 1 +:+ c)
    (a +:+ (repeat_str (S k) "#" +:+ " ") +:+ x +:+ t)
  = a +:+ o +:+ x +:+ c +:+ t.
Proof.
  intros Ha Hx Ht Hht. unfold re_sub. set (p := repeat_str (S k) "#" +:+ " ").
  rewrite str_length_app.
  replace (S (String.length a + String.length (p +:+ x +:+ t)))
    with (String.length a + S (String.length (p +:+ x +:+ t))) by lia.
  rewrite re_sub_go_skip.
  - f_equal. cbn [re_sub_go]. rewrite (re_match_heading p x t Hx Ht).
    cbn [Re.m_text Re.m_rest Re.group Re.m_groups Nat.sub lookup list_lookup default
         from_option id].
    assert (String.eqb (p +:+ x) "" = false) as ->.
    { subst p. cbn [repeat_str]. by str_norm. }
    rewrite re_sub_go_no_match.
    + by rewrite !str_app_assoc.
    + intros a1 t1 ->. apply re_match_Str_none, occurs_not_prefix.
      subst p. cbn [repeat_str]. str_norm. apply occurs_absent_char.
      rewrite has_char_app in Hht. by apply orb_false_iff in Hht as [_ ?].
  - intros a1 c1 a2 ->. apply re_match_Str_none. subst p. cbn [repeat_str].
    str_norm. rewrite has_char_app in Ha. apply orb_false_iff in Ha as [_ Ha].
    cbn [PyStr.has_char] in Ha. apply orb_false_iff in Ha as [Hc _].
    by rewrite prefix_cons, (Ascii.eqb_sym "#" c1), Hc.
Qed.

Lemma occurs_deeper_marker (j k : nat) (a r : string) :
  k < j -> PyStr.has_char "#" a = false -> PyStr.has_char "#" r = false ->
  PyStr.occurs (heading_marker j) (a +:+ heading_marker k +:+ r) = false.
Proof.
  intros Hlt Ha Hr. unfold heading_marker. rewrite (str_app_assoc _ " " r).
  apply occurs_hashes; [done|done|]. str_norm. cbn [PyStr.has_char].
  by rewrite Hr.
Qed.

Lemma has_char_cons (c a : ascii) (s : string) :
  PyStr.has_char c (String a s) = Ascii.eqb a c || PyStr.has_char c s.
Proof. done. Qed.

(** X19. A heading marker, [k] hashes and a space for a level [k] from
    1 to 6, turns the rest of its line into a heading of that level,
    wherever in the line it stands: the text before the marker and the
    lines after stay as they are, when they and the heading have none of
    the characters that the rendering looks for. The patterns of the
    deeper levels, tried first, do not match, and those of the shallower
    levels find no hash left. *)
Theorem heading_is_rendered (k : nat) (a x t : string) :
  1 <= k <= 6 ->
  plain a = true -> plain x = true -> PyStr.has_char nl x = false ->
  plain t = true -> at_line_end t ->
  render_prose (a +:+ heading_marker k +:+ x +:+ t)
  = a +:+ "<h" +:+ level_digit k +:+ ">" +:+ x +:+ "</h" +:+ level_digit k +:+ ">"
      +:+ t.
Proof.
  intros Hk Ha Hx Hnl Ht Hend.
  apply plain_chars in Ha as (Ha0 & Ha1 & Ha2 & Ha3).
  apply plain_chars in Hx as (Hx0 & Hx1 & Hx2 & Hx3).
  apply plain_chars in Ht as (Ht0 & Ht1 & Ht2 & Ht3).
  assert (Hr0 : PyStr.has_char "#" (x +:+ t) = false)
    by (by rewrite has_char_app, Hx0, Ht0).
  assert (Hout : forall o c d,
            PyStr.has_char d o = false -> PyStr.has_char d c = false ->
            PyStr.has_char d a = false -> PyStr.has_char d x = false ->
            PyStr.has_char d t = false ->
            PyStr.has_char d (a +:+ o +:+ x +:+ c +:+ t) = false).
  { intros o c d Ho Hc Hda Hdx Hdt. by rewrite !has_char_app, Ho, Hc, Hda, Hdx, Hdt. }
  unfold render_prose. change patterns with (take 6 patterns ++ drop 6 patterns).
  rewrite fold_left_app. unfold patterns at 2. cbn [take fold_left fst snd].
  destruct k as [|[|[|[|[|[|[|k]]]]]]]; try lia; cbn [level_digit].
  - change "###### " with (heading_marker 6).
    rewrite (re_sub_not_occurring (heading_marker 6))
      by (apply occurs_deeper_marker; [lia|done|done]).
    change "##### " with (heading_marker 5).
    rewrite (re_sub_not_occurring (heading_marker 5))
      by (apply occurs_deeper_marker; [lia|done|done]).
    change "#### " with (heading_marker 4).
    rewrite (re_sub_not_occurring (heading_marker 4))
      by (apply occurs_deeper_marker; [lia|done|done]).
    change "### " with (heading_marker 3).
    rewrite (re_sub_not_occurring (heading_marker 3))
      by (apply occurs_deeper_marker; [lia|done|done]).
    change "## " with (heading_marker 2).
    rewrite (re_sub_not_occurring (heading_marker 2))
      by (apply occurs_deeper_marker; [lia|done|done]).
    change "# " with (repeat_str 1 "#" +:+ " ").
    unfold heading_marker.
    rewrite (re_sub_heading 0 "<h1>" "</h1>" a x t Ha0 Hnl Hend Ht0).
    rewrite render_tail_plain by (by apply Hout). reflexivity.
  - change "###### " with (heading_marker 6).
    rewrite (re_sub_not_occurring (heading_marker 6))
      by (apply occurs_deeper_marker; [lia|done|done]).
    change "##### " with (heading_marker 5).
    rewrite (re_sub_not_occurring (heading_marker 5))
      by (apply occurs_deeper_marker; [lia|done|done]).
    change "#### " with (heading_marker 4).
    rewrite (re_sub_not_occurring (heading_marker 4))
      by (apply occurs_deeper_marker; [lia|done|done]).
    change "### " with (heading_marker 3).
    rewrite (re_sub_not_occurring (heading_marker 3))
      by (apply occurs_deeper_marker; [lia|done|done]).
    change "## " with (repeat_str 2 "#" +:+ " ").
    unfold heading_marker.
    rewrite (re_sub_heading 1 "<h2>" "</h2>" a x t Ha0 Hnl Hend Ht0).
    rewrite (re_sub_not_occurring "# ")
      by (apply occurs_absent_char; by apply Hout).
    rewrite render_tail_plain by (by apply Hout). reflexivity.
  - change "###### " with (heading_marker 6).
    rewrite (re_sub_not_occurring (heading_marker 6))
      by (apply occurs_deeper_marker; [lia|done|done]).
    change "##### " with (heading_marker 5).
    rewrite (re_sub_not_occurring (heading_marker 5))
      by (apply occurs_deeper_marker; [lia|done|done]).
    change "#### " with (heading_marker 4).
    rewrite (re_sub_not_occurring (heading_marker 4))
      by (apply occurs_deeper_marker; [lia|done|done]).
    change "### " with (repeat_str 3 "#" +:+ " ").
    unfold heading_marker.
    rewrite (re_sub_heading 2 "<h3>" "</h3>" a x t Ha0 Hnl Hend Ht0).
    rewrite (re_sub_not_occurring "## ")
      by (apply occurs_absent_char; by apply Hout).
    rewrite (re_sub_not_occurring "# ")
      by (apply occurs_absent_char; by apply Hout).
    rewrite render_tail_plain by (by apply Hout). reflexivity.
  - change "###### " with (heading_marker 6).
    rewrite (re_sub_not_occurring (heading_marker 6))
      by (apply occurs_deeper_marker; [lia|done|done]).
    change "##### " with (heading_marker 5).
    rewrite (re_sub_not_occurring (heading_marker 5))
      by (apply occurs_deeper_marker; [lia|done|done]).
    change "#### " with (repeat_str 4 "#" +:+ " ").
    unfold heading_marker.
    rewrite (re_sub_heading 3 "<h4>" "</h4>" a x t Ha0 Hnl Hend Ht0).
    rewrite (re_sub_not_occurring "### ")
      by (apply occurs_absent_char; by apply Hout).
    rewrite (re_sub_not_occurring "## ")
      by (apply occurs_absent_char; by apply Hout).
    rewrite (re_sub_not_occurring "# ")
      by (apply occurs_absent_char; by apply Hout).
    rewrite render_tail_plain by (by apply Hout). reflexivity.
  - change "###### " with (heading_marker 6).
    rewrite (re_sub_not_occurring (heading_marker 6))
      by (apply occurs_deeper_marker; [lia|done|done]).
    change "##### " with (repeat_str 5 "#" +:+ " ").
    unfold heading_marker.
    rewrite (re_sub_heading 4 "<h5>" "</h5>" a x t Ha0 Hnl Hend Ht0).
    rewrite (re_sub_not_occurring "#### ")
      by (apply occurs_absent_char; by apply Hout).
    rewrite (re_sub_not_occurring "### ")
      by (apply occurs_absent_char; by apply Hout).
    rewrite (re_sub_not_occurring "## ")
      by (apply occurs_absent_char; by apply Hout).
    rewrite (re_sub_not_occurring "# ")
      by (apply occurs_absent_char; by apply Hout).
    rewrite render_tail_plain by (by apply Hout). reflexivity.
  - change "###### " with (repeat_str 6 "#" +:+ " ").
    unfold heading_marker.
    rewrite (re_sub_heading 5 "<h6>" "</h6>" a x t Ha0 Hnl Hend Ht0).
    rewrite (re_sub_not_occurring "##### ")
      by (apply occurs_absent_char; by apply Hout).
    rewrite (re_sub_not_occurring "#### ")
      by (apply occurs_absent_char; by apply Hout).
    rewrite (re_sub_not_occurring "### ")
      by (apply occurs_absent_char; by apply Hout).
    rewrite (re_sub_not_occurring "## ")
      by (apply occurs_absent_char; by apply Hout).
    rewrite (re_sub_not_occurring "# ")
      by (apply occurs_absent_char; by apply Hout).
    rewrite render_tail_plain by (by apply Hout). reflexivity.
Qed.

Lemma heading_is_rendered_witness :
  render_prose ("See " +:+ heading_marker 2 +:+ "Build steps" +:+ "
Run make.")
  = "See " +:+ "<h" +:+ level_digit 2 +:+ ">" +:+ "Build steps" +:+ "</h"
      +:+ level_digit 2 +:+ ">" +:+ "
Run make.".
Proof.
  apply (heading_is_rendered 2 "See " "Build steps" "
Run make."); [lia|reflexivity..].
Defined.

(** ** The pages *)

Lemma mapM_total {A B} (f : A -> result B) (l : list A) :
  (forall x, In x l -> exists y, f x = ret y) -> exists ys, mapM f l = ret ys.
Proof.
  induction l as [|x l IH]; intros H; cbn [mapM]; [by eexists|].
  destruct (H x (or_introl eq_refl)) as [y ->].
  destruct (IH (fun z Hz => H z (or_intror Hz))) as [ys ->]. by eexists.
Qed.

(** A container with well-formed links gets its page. *)
Lemma write_page_total (fs : FileSystem) (c : Container) :
  meta_ok fs c ->
  exists pg, write_page c =
             ret (pg, with_blocks c (map (fun b => snd (render_block (doc_dir c) b))
                                       (blocks c)))
             /\ p_path pg = OsPath.join (doc_dir c) (cname c +:+ ".html").
Proof.
  intros (_ & _ & Hll & Hwl). unfold write_page, local_link_to_html, web_link_to_html.
  destruct (mapM_total
              (fun link =>
                 do link_type <- list_item link 0;
                 do link_add <- list_item link 1;
                 ret ("<link rel=" +:+ dquote +:+ link_type +:+ dquote +:+ " href="
                        +:+ dquote +:+ parent_prefix (doc_dir c) +:+ link_add
                        +:+ dquote +:+ ">")) (local_link c)) as [ls ->].
  { intros link Hin. destruct (Hll link Hin) as (t & a & -> & _). by eexists. }
  cbn [bind ret].
  destruct (mapM_total
              (fun link =>
                 do link_type <- list_item link 0;
                 do link_add <- list_item link 1;
                 ret ("<link rel=" +:+ dquote +:+ link_type +:+ dquote +:+ " href="
                        +:+ dquote +:+ link_add +:+ dquote +:+ ">")) (web_link c))
    as [ws ->].
  { intros link Hin. destruct (Hwl link Hin) as (t & a & ->). by eexists. }
  cbn [bind ret]. eexists. split; [rewrite !map_map; reflexivity|reflexivity].
Qed.

(** The loop of [write_html], with and without its effects. *)
Lemma write_html_io_fold (D : Disk) (fs : FileSystem) (cs : pydict Container) :
  (forall k c, In (k, c) cs -> meta_ok fs c) ->
  forall d pages0 cs0, exists pages cs',
    foldM (fun acc kc =>
             do pc <- write_page (snd kc);
             ret (fst acc ++ [fst pc], snd acc ++ [(fst kc, snd pc)]))
      cs (pages0, cs0) = ret (pages0 ++ pages, cs0 ++ cs')
    /\ map p_path pages = page_paths cs /\ dict_keys cs' = dict_keys cs
    /\ foldM (write_page_io D) cs (d, (pages0, cs0)) =
       do d' <- store_all D (page_jobs cs pages) d;
       ret (d', (pages0 ++ pages, cs0 ++ cs')).
Proof.
  induction cs as [|[k c] cs IH]; intros H d pages0 cs0.
  - exists [], []. rewrite !app_nil_r. by repeat split.
  - destruct (write_page_total fs c (H k c (or_introl eq_refl))) as (pg & E & Hp).
    cbn [foldM]. unfold write_page_io at 1. cbn [snd fst]. rewrite E.
    cbn [bind ret fst snd].
    set (c' := with_blocks c (map (fun b => snd (render_block (doc_dir c) b))
                                (blocks c))).
    assert (Hstep : forall d0 : disk_state D,
              (do d1 <- ensure_dir D d0 (doc_dir c);
               do d2 <- write_file D d1 (p_path pg) (p_html pg);
               ret (d2, (pages0 ++ [pg], cs0 ++ [(k, c')]))) =
              do d2 <- store D d0 {| j_dir := doc_dir c; j_path := p_path pg;
                                     j_text := p_html pg |};
              ret (d2, (pages0 ++ [pg], cs0 ++ [(k, c')]))).
    { intros d0. unfold store. cbn [j_dir j_path j_text].
      by destruct (ensure_dir D d0 (doc_dir c)). }
    rewrite Hstep.
    destruct (store D d _) as [e|d1] eqn:Es.
    + destruct (IH (fun k' c0 Hin => H k' c0 (or_intror Hin)) d (pages0 ++ [pg])
                  (cs0 ++ [(k, c')])) as (pages & cs' & E' & Hpaths & Hkeys & _).
      rewrite E'. exists (pg :: pages), ((k, c') :: cs'). rewrite <- !app_assoc.
      split; [done|]. unfold page_paths, dict_keys in *. cbn [map fst snd].
      rewrite Hp, Hpaths, Hkeys. repeat split.
      unfold page_jobs, store_all. cbn [zip_with foldM snd]. by rewrite Es.
    + destruct (IH (fun k' c0 Hin => H k' c0 (or_intror Hin)) d1 (pages0 ++ [pg])
                  (cs0 ++ [(k, c')])) as (pages & cs' & E' & Hpaths & Hkeys & Eio).
      rewrite E'. exists (pg :: pages), ((k, c') :: cs'). rewrite <- !app_assoc.
      split; [done|]. unfold page_paths, dict_keys in *. cbn [map fst snd].
      rewrite Hp, Hpaths, Hkeys. repeat split.
      unfold page_jobs, store_all. cbn [zip_with foldM snd]. rewrite Es.
      cbn [bind ret]. rewrite Eio. unfold page_jobs, store_all.
      by rewrite <- !app_assoc.
Qed.

(** X20. After a successful parse [write_html] raises nothing but what
    the file system raises: the links the parser stored are pairs, so no
    index is out of range. For each document of the dictionary, in the
    order of the dictionary, it makes the documentation directory when
    that directory is named and missing, and writes the page to the
    documentation directory joined with the document's name and
    [.html]. It ends at the first write that raises, with the error of
    [os.makedirs] or of [open]; when none raises, all the pages are
    written, and the dictionary is left with the same keys. *)
Theorem write_html_after_parse (D : Disk) (fs : FileSystem)
    (filenames : list string) (cs : pydict Container) (d : disk_state D) :
  parse_files fs filenames = ret cs ->
  exists pages cs',
    write_html cs = ret (pages, cs')
    /\ map p_path pages = page_paths cs
    /\ dict_keys cs' = dict_keys cs
    /\ write_html_io D cs d =
       (do d' <- store_all D (page_jobs cs pages) d; ret (d', (pages, cs')))
    /\ forall e, write_html_io D cs d = raise e -> disk_error D e.
Proof.
  intros H.
  destruct (write_html_io_fold D fs cs) with (d := d) (pages0 := @nil page)
    (cs0 := @nil (string * Container)) as (pages & cs' & E & Hp & Hk & Eio).
  - intros k c Hin. destruct (parse_files_In _ _ _ _ _ H Hin) as (f & _ & Hf).
    exact (parse_file_meta_ok _ _ _ Hf).
  - exists pages, cs'. split; [exact E|]. split; [done|]. split; [done|].
    assert (Eio' : write_html_io D cs d =
                   (do d' <- store_all D (page_jobs cs pages) d;
                    ret (d', (pages, cs')))) by exact Eio.
    split; [exact Eio'|]. intros e He. rewrite Eio' in He.
    destruct (store_all D (page_jobs cs pages) d) as [e'|d'] eqn:Es; [|done].
    injection He as ->. by eapply store_all_raise.
Qed.

Lemma write_html_after_parse_witness :
  exists pages cs',
    write_html [("demo", demo_container "demo")] = ret (pages, cs')
    /\ map p_path pages = page_paths [("demo", demo_container "demo")]
    /\ dict_keys cs' = dict_keys [("demo", demo_container "demo")]
    /\ write_html_io sample_disk [("demo", demo_container "demo")] [] =
       (do d' <- store_all sample_disk
                   (page_jobs [("demo", demo_container "demo")] pages) [];
        ret (d', (pages, cs')))
    /\ forall e, write_html_io sample_disk [("demo", demo_container "demo")] []
                   = raise e -> disk_error sample_disk e.
Proof.
  apply (write_html_after_parse sample_disk demo_fs ["demo.md"]).
  vm_compute; reflexivity.
Defined.

(** A document that names a documentation directory: on an empty file
    system the directory is made and the page written in it; when a
    file has the name of the directory, here the document itself,
    [os.makedirs] raises and [write_html] with it. *)
Example write_html_makes_directory :
  (do cs <- parse_files dirs_fs ["doc.md"];
   do r <- write_html_io sample_disk cs [];
   ret (dict_keys (fst r), map p_path (fst (snd r)))) =
  ret (["doc.md/"; "doc.md/doc.html"], ["doc.md/doc.html"]).
Proof. vm_compute. reflexivity. Qed.

Example write_html_raises_on_taken_name :
  (do cs <- parse_files dirs_fs ["doc.md"];
   write_html_io sample_disk cs [("doc.md", dirs_text)]) =
  raise (OSError "File exists").
Proof. vm_compute. reflexivity. Qed.

(** ** Fences are never content *)

Lemma exec_star_total {A} (greedy : bool)
    (step : string -> list string -> @Re.cont A -> option A) (k : @Re.cont A) :
  (forall s caps, is_Some (k s caps)) ->
  forall n s caps, is_Some (Re.exec_star greedy step n s caps k).
Proof.
  intros Hk n s caps. destruct (Hk s caps) as [x Hx].
  destruct n as [|n]; cbn [Re.exec_star]; rewrite Hx.
  - by destruct greedy.
  - destruct greedy; cbn [Re.orelse]; [|done].
    by destruct (step s caps _).
Qed.

(** Every line that begins with three backquotes is a fence. *)
Lemma fence_matches (line : string) :
  String.prefix "```" line = true -> is_Some (Re.re_match pattern2 line).
Proof.
  intros H. unfold Re.re_match, pattern2. cbn [Re.exec]. rewrite exec_Str, H.
  cbn [Re.exec]. apply exec_star_total. intros s caps. by eexists.
Qed.

Lemma not_fence (line : string) :
  Re.re_match pattern2 line = None -> String.prefix "```" line = false.
Proof.
  intros H. destruct (String.prefix "```" line) eqn:E; [|done].
  apply fence_matches in E as [m E]. congruence.
Qed.

Lemma split_cons (c a : ascii) (s : string) :
  PyStr.split c (String a s) =
  if Ascii.eqb a c then "" :: PyStr.split c s
  else match PyStr.split c s with
       | l :: ls => String a l :: ls
       | [] => [String a ""]
       end.
Proof. done. Qed.

(** Stripping the newlines at the end of a text removes lines from the
    end and changes none. *)
Lemma split_rstrip_take (s : string) :
  exists m, PyStr.split nl (PyStr.rstrip_by (Ascii.eqb nl) s)
            = take (S m) (PyStr.split nl s).
Proof.
  induction s as [|c s [m IH]]; [by exists 0|].
  cbn [PyStr.rstrip_by]. rewrite (split_cons nl c s), (Ascii.eqb_sym nl c).
  destruct (PyStr.rstrip_by (Ascii.eqb nl) s) as [|y r] eqn:Er.
  - destruct (Ascii.eqb c nl) eqn:Ec; [by exists 0|]. exists 0.
    rewrite split_cons, Ec.
    destruct (PyStr.split nl s) as [|l ls]; [done|].
    cbn [PyStr.split take] in IH. by injection IH as <- _.
  - rewrite (split_cons nl c (String y r)), IH.
    destruct (Ascii.eqb c nl) eqn:Ec.
    + by exists (S m).
    + exists m. pose proof (split_not_nil nl s).
      by destruct (PyStr.split nl s) as [|l ls].
Qed.

Lemma no_fence_line_rstrip (s : string) :
  no_fence_line s -> no_fence_line (PyStr.rstrip_by (Ascii.eqb nl) s).
Proof.
  intros H line Hin. destruct (split_rstrip_take s) as [m E]. rewrite E in Hin.
  apply H. apply list_elem_of_In. apply list_elem_of_In in Hin.
  apply elem_of_take in Hin as (i & Hi & _). by eapply list_elem_of_lookup_2.
Qed.

Lemma make_block_content (fs : FileSystem) (bt raw filename lang nm : string)
    (b : Block) :
  make_block fs bt raw filename lang nm = ret b ->
  block_content b = PyStr.rstrip_by (Ascii.eqb nl) raw.
Proof.
  intros H. by apply make_block_spec in H as (_ & _ & [[_ ->]|(_ & _ & ->)]).
Qed.

Lemma no_fence_line_app (s line : string) :
  no_fence_line s ->
  (s = "" \/ exists s', s = s' +:+ String nl "") ->
  PyStr.has_char nl line = false -> String.prefix "```" line = false ->
  no_fence_line (s +:+ line +:+ String nl "").
Proof.
  intros Hs Hend Hnl Hline l Hin.
  rewrite <- str_app_assoc, split_app_sep in Hin.
  apply in_app_or in Hin as [Hin|[<-|[]]]; [|done].
  destruct Hend as [->|[s' ->]].
  - str_norm_in Hin. rewrite (split_no_sep _ _ Hnl) in Hin.
    by destruct Hin as [<-|[]].
  - rewrite str_app_assoc in Hin. str_norm_in Hin. rewrite split_app_sep in Hin.
    rewrite (split_no_sep _ _ Hnl) in Hin.
    apply in_app_or in Hin as [Hin|[<-|[]]]; [|done].
    apply Hs. rewrite split_app_sep. apply in_or_app. by left.
Qed.

Lemma seg_line_unfenced (fs : FileSystem) (filename : string) (st st' : seg_state)
    (line : string) :
  PyStr.has_char nl line = false ->
  seg_line fs filename st line = ret st' ->
  content_inv st /\ blocks_unfenced (sg_container st) ->
  content_inv st' /\ blocks_unfenced (sg_container st').
Proof.
  intros Hnl H [[Hc Hend] Hb]. unfold seg_line in H.
  assert (Hempty : no_fence_line "") by (by intros l [<-|[]]).
  assert (Hadd : forall b,
            make_block fs (sg_block_type st) (sg_content st) filename
              (sg_language st) (sg_name st) = ret b ->
            blocks_unfenced (add (sg_container st) b)).
  { intros b Eb b' Hin. unfold add in Hin. cbn in Hin.
    apply in_app_or in Hin as [Hin|[<-|[]]]; [by apply Hb|].
    rewrite (make_block_content _ _ _ _ _ _ _ Eb). by apply no_fence_line_rstrip. }
  destruct (Re.re_match pattern1 line) as [m|].
  - destruct (negb _).
    + destruct (make_block _ _ _ _ _ _) as [e|b] eqn:Eb; [done|].
      cbn [bind ret] in H. injection H as <-. cbn [sg_container].
      split; [split; [done|by left]|by apply Hadd].
    + cbn [bind ret] in H. injection H as <-. split; [split; [done|by left]|done].
  - destruct (Re.re_match pattern2 line) eqn:E2.
    + destruct (_ && _).
      * destruct (make_block _ _ _ _ _ _) as [e|b] eqn:Eb; [done|].
        cbn [bind ret] in H. injection H as <-. cbn [sg_container].
        split; [split; [done|by left]|by apply Hadd].
      * cbn [bind ret] in H. injection H as <-. split; [split; [done|by left]|done].
    + injection H as <-. split; [|done]. split.
      * cbn [sg_content]. apply no_fence_line_app; try done. by apply not_fence.
      * right. exists (sg_content st +:+ line). cbn [sg_content].
        by rewrite str_app_assoc.
Qed.

(** X21. A line that begins with three backquotes is always taken for a
    fence, so it never becomes part of a block: no line of the content of
    any block of a parsed document begins with three backquotes. *)
Theorem fence_lines_are_never_content (fs : FileSystem) (filename : string)
    (c : Container) (b : Block) (line : string) :
  parse_file fs filename = ret c -> In b (blocks c) ->
  In line (PyStr.split nl (block_content b)) ->
  String.prefix "```" line = false.
Proof.
  intros H Hb. revert line. change (no_fence_line (block_content b)).
  revert b Hb. change (blocks_unfenced c).
  unfold parse_file, Container_init in H.
  destruct (isdir fs filename); [done|].
  destruct (negb (exists_ fs filename)); [done|]. cbn [bind ret] in H.
  destruct (String.eqb _ ""); [done|].
  destruct (parse_metadata _ _ _) as [e|c1] eqn:E1; [done|]. cbn [bind] in H.
  apply parse_metadata_keeps in E1 as [Hb1 _]. cbn in Hb1.
  destruct (foldM _ _ _) as [e|st] eqn:Est; [done|]. cbn [bind] in H.
  assert (Hst : content_inv st /\ blocks_unfenced (sg_container st)).
  { refine (foldM_inv_In (seg_line fs filename)
              (fun st => content_inv st /\ blocks_unfenced (sg_container st))
              _ _ _ _ Est _).
    - intros a x a' Hx Ha. apply (seg_line_unfenced fs filename a a' x); [|done].
      by eapply split_lines_no_sep.
    - split; [split; [by intros l [<-|[]]|by left]|].
      intros b Hin. cbn [sg_container] in Hin. by rewrite Hb1 in Hin. }
  destruct Hst as [[Hc _] Hbs]. destruct (_ && _).
  - destruct (make_block _ _ _ _ _ _) as [e|b] eqn:Eb; [done|]. cbn [bind ret] in H.
    injection H as <-. intros b' Hin. unfold add in Hin. cbn in Hin.
    apply in_app_or in Hin as [Hin|[<-|[]]]; [by apply Hbs|].
    rewrite (make_block_content _ _ _ _ _ _ _ Eb). by apply no_fence_line_rstrip.
  - by injection H as <-.
Qed.

Lemma fence_lines_are_never_content_witness :
  String.prefix "```" "@call{helper}" = false.
Proof.
  apply (fence_lines_are_never_content demo_fs "demo.md" (demo_container "demo")
           (FragmentBlock (demo_main "demo"))).
  - vm_compute; reflexivity.
  - right. by left.
  - right. by left.
Defined.

(** The driver state of the scenario is linked without an error. *)
Lemma write_documentation_graph_witness :
  find_calls (containers demo_litera) (blocks_dict demo_litera) =
  ret (imap (linked (containers demo_litera) (fst (blocks_dict demo_litera)))
         (fst (blocks_dict demo_litera)),
       snd (blocks_dict demo_litera)).
Proof.
  apply (write_documentation_graph demo_fs ["demo.md"]). vm_compute; reflexivity.
Defined.
